(** * Congregation Volunteer Scheduler: booking and schedule logic

    A shallow embedding of the booking code of the scheduler
    (volunteer-dashboard.js, admin-assignments.js, admin-schedules.js,
    admin-reports.js, elder-dashboard.js) and the properties of it that
    the specification states.

    Conventions of the embedding:
    - the array under "cvsa_bookings" is a [list Booking]; every
      operation reads the whole list and writes the whole list back;
    - a JavaScript number that holds an hour or a time stamp is a [Z];
      a capacity, which the location form accepts with a fraction, is
      a [Q]; a date that may be an Invalid Date is an [option Z]; a
      field an object may lack is an [option];
    - the object under "cvsa_location_slots" (location id to slot array)
      is a [gmap string (list Slot)];
    - [JSON.parse (JSON.stringify v)] is the identity on these values;
    - text functions ([toLowerCase], [trim], the whitespace class)
      act on ASCII characters; other bytes are left as they are. *)

From Stdlib Require Import ZArith QArith Lqa Lia Ascii String List.
From stdpp Require Import base option list gmap strings.

Open Scope Z_scope.

(** ** JavaScript helpers *)

Module JS.

(** Truthiness of a possibly missing string: [undefined], [null] and
    the empty string are falsy. *)
Definition truthy (o : option string) : bool :=
  match o with
  | Some s => negb (String.eqb s "")
  | None => false
  end.

(** [o || d] for a possibly missing string. *)
Definition orStr (o : option string) (d : string) : string :=
  match o with
  | Some s => if String.eqb s "" then d else s
  | None => d
  end.

(** [a || b] where both may be missing. *)
Definition orOpt (a b : option string) : option string :=
  if truthy a then a else b.

(** [list.length >= n] for a number [n] that need not be whole. *)
Definition lengthGe {A : Type} (list : list A) (n : Q) : bool :=
  Qle_bool n (inject_Z (Z.of_nat (length list))).

(** [Number(x || 0)] for a possibly missing number. *)
Definition numOr0 (o : option Z) : Z :=
  match o with
  | Some z => z
  | None => 0
  end.

(** [o === s] for a possibly missing string [o] and a string [s]. *)
Definition eqStr (o : option string) (s : string) : bool :=
  match o with
  | Some t => String.eqb t s
  | None => false
  end.

(** [a === b] where both sides may be [undefined]. *)
Definition eqOpt (a b : option string) : bool :=
  match a, b with
  | Some s, Some t => String.eqb s t
  | None, None => true
  | _, _ => false
  end.

Definition lowerAscii (c : ascii) : ascii :=
  let n := nat_of_ascii c in
  if (Nat.leb 65 n && Nat.leb n 90)%bool then ascii_of_nat (n + 32) else c.

Fixpoint toLowerCase (s : string) : string :=
  match s with
  | EmptyString => EmptyString
  | String c r => String (lowerAscii c) (toLowerCase r)
  end.

(** The ASCII members of the class [\s]. *)
Definition isSpace (c : ascii) : bool :=
  let n := nat_of_ascii c in
  (Nat.eqb n 32 || (Nat.leb 9 n && Nat.leb n 13))%bool.

Definition isDigit (c : ascii) : bool :=
  let n := nat_of_ascii c in
  (Nat.leb 48 n && Nat.leb n 57)%bool.

Fixpoint trimStart (s : string) : string :=
  match s with
  | EmptyString => EmptyString
  | String c r => if isSpace c then trimStart r else s
  end.

(** Drops trailing white space: a character is kept when something
    that is not white space follows it or it is not white space. *)
Fixpoint trimEnd (s : string) : string :=
  match s with
  | EmptyString => EmptyString
  | String c r =>
      match trimEnd r with
      | EmptyString => if isSpace c then EmptyString else String c EmptyString
      | r' => String c r'
      end
  end.

Definition trim (s : string) : string := trimEnd (trimStart s).

(** [s.replace(/\s+/g, rep)]: every maximal run of white space
    becomes one [rep]. *)
Fixpoint replaceRuns (rep : ascii) (inRun : bool) (s : string) : string :=
  match s with
  | EmptyString => EmptyString
  | String c r =>
      if isSpace c
      then (if inRun then replaceRuns rep true r else String rep (replaceRuns rep true r))
      else String c (replaceRuns rep false r)
  end.

Definition replaceSpaces (rep : ascii) (s : string) : string :=
  replaceRuns rep false s.

(** [Number(digits)] for a non-empty run of decimal digits. *)
Definition digitValue (c : ascii) : Z := Z.of_nat (nat_of_ascii c) - 48.

Fixpoint numberFrom (acc : Z) (s : string) : Z :=
  match s with
  | EmptyString => acc
  | String c r => numberFrom (acc * 10 + digitValue c) r
  end.

Definition Number (digits : string) : Z := numberFrom 0 digits.

Fixpoint toUpperCase (s : string) : string :=
  match s with
  | EmptyString => EmptyString
  | String c r =>
      let n := nat_of_ascii c in
      String (if (Nat.leb 97 n && Nat.leb n 122)%bool then ascii_of_nat (n - 32) else c)
             (toUpperCase r)
  end.

End JS.

(** ** Data model *)

(** A location as the dashboards read it.  The location form stores
    as capacity any finite number that is at least 1, whole or not. *)
Record Location := mkLocation {
  loc_id : string;
  loc_name : string;
  loc_address : string;
  loc_slotCapacity : Q
}.

(** A slot of a catalog: the shape [normalizeSlot] produces and
    [DEFAULT_SLOTS] has. *)
Record Slot := mkSlot {
  slot_id : string;
  slot_label : string;
  slot_startHour : Z;
  slot_endHour : Z;
  slot_minVol : Z;
  slot_maxVol : Z
}.

(** A slot object as handlers pass it around: any field may be absent
    (the grid's [slotMap] entries have no [id], the fallback object of
    the conflict check has only hours). *)
Record SlotObj := mkSlotObj {
  so_id : option string;
  so_label : option string;
  so_startHour : option Z;
  so_endHour : option Z;
  so_minVol : option Z;
  so_maxVol : option Z
}.

Definition objOfSlot (s : Slot) : SlotObj :=
  {| so_id := Some (slot_id s); so_label := Some (slot_label s);
     so_startHour := Some (slot_startHour s); so_endHour := Some (slot_endHour s);
     so_minVol := Some (slot_minVol s); so_maxVol := Some (slot_maxVol s) |}.

(** A booking record of "cvsa_bookings". *)
Record Booking := mkBooking {
  b_id : string;
  b_username : option string;
  b_displayName : option string;
  b_volunteerId : option string;
  b_role : option string;
  b_locationId : string;
  b_locationName : string;
  b_date : string;
  b_slotId : option string;
  b_slotLabel : option string;
  b_startHour : option Z;
  b_endHour : option Z;
  b_status : option string;
  b_checkedInAt : option Z;
  b_createdAt : Z
}.

(** The session user of [currentUser]. *)
Record User := mkUser {
  u_username : string;
  u_displayName : option string;
  u_role : option string
}.

(** A volunteer of "cvsa_volunteers". *)
Record Volunteer := mkVolunteer {
  v_id : option string;
  v_name : option string;
  v_email : option string;
  v_username : option string;
  v_role : option string
}.

Definition withStatus (b : Booking) (st : option string) (at_ : option Z) : Booking :=
  {| b_id := b_id b; b_username := b_username b; b_displayName := b_displayName b;
     b_volunteerId := b_volunteerId b; b_role := b_role b;
     b_locationId := b_locationId b; b_locationName := b_locationName b;
     b_date := b_date b; b_slotId := b_slotId b; b_slotLabel := b_slotLabel b;
     b_startHour := b_startHour b; b_endHour := b_endHour b;
     b_status := st; b_checkedInAt := at_; b_createdAt := b_createdAt b |}.

(** ** volunteer-dashboard.js *)

Module VDB.

Definition addBooking (booking : Booking) (all : list Booking) : list Booking :=
  all ++ [booking].

Definition removeBookingById (id : string) (all : list Booking) : list Booking :=
  List.filter (fun b => negb (String.eqb (b_id b) id)) all.

Definition getBookingsFor (locationId dateStr slotId : string) (all : list Booking)
  : list Booking :=
  List.filter (fun b => String.eqb (b_locationId b) locationId
                        && String.eqb (b_date b) dateStr
                        && JS.eqStr (b_slotId b) slotId)%bool all.

Definition sameUserSlot (username locationId dateStr slotId : string) (b : Booking) : bool :=
  (JS.eqStr (b_username b) username
   && String.eqb (b_locationId b) locationId
   && String.eqb (b_date b) dateStr
   && JS.eqStr (b_slotId b) slotId)%bool.

Definition userHasBookingForSlot (username locationId dateStr slotId : string)
           (all : list Booking) : bool :=
  existsb (sameUserSlot username locationId dateStr slotId) all.

(** The object literal both booking flows build in [onConfirm]: it
    has no [volunteerId], no hours, no [status], no [checkedInAt]. *)
Definition newBooking (id : string) (user : User) (loc : Location) (dateStr : string)
           (ts : Slot) (now : Z) : Booking :=
  {| b_id := id;
     b_username := Some (u_username user);
     b_displayName := Some (JS.orStr (u_displayName user) (u_username user));
     b_role := Some (JS.orStr (u_role user) "volunteer");
     b_volunteerId := None;
     b_locationId := loc_id loc;
     b_locationName := loc_name loc;
     b_date := dateStr;
     b_slotId := Some (slot_id ts);
     b_slotLabel := Some (slot_label ts);
     b_startHour := None;
     b_endHour := None;
     b_status := None;
     b_checkedInAt := None;
     b_createdAt := now |}.

Inductive BookResult :=
| Booked
| PleaseCompleteAllSteps
| NotSignedIn
| AlreadyBooked
| SlotFull.

(** Step 4 of the step-by-step flow: the click handler of
    [#confirm-booking-btn] followed by the [onConfirm] of its dialog
    (the dialog is taken as accepted).  The selection is the
    [selectedLocation], [selectedDate], [selectedSlot] of the page;
    [id] and [now] stand for [uid('bk-')] and [Date.now()]. *)
Definition confirmBooking (selectedLocation : option Location)
           (selectedDate : option string) (selectedSlot : option Slot)
           (user : option User) (id : string) (now : Z) (all : list Booking)
  : BookResult * list Booking :=
  match selectedLocation, selectedDate, selectedSlot with
  | Some loc, Some date, Some ts =>
      if String.eqb date "" then (PleaseCompleteAllSteps, all) else
      match user with
      | None => (NotSignedIn, all)
      | Some u =>
          if userHasBookingForSlot (u_username u) (loc_id loc) date (slot_id ts) all
          then (AlreadyBooked, all)
          else if JS.lengthGe (getBookingsFor (loc_id loc) date (slot_id ts) all)
                              (loc_slotCapacity loc)
          then (SlotFull, all)
          else (Booked, addBooking (newBooking id u loc date ts now) all)
      end
  | _, _, _ => (PleaseCompleteAllSteps, all)
  end.

(** The same flow started from a location id: the location is the
    first of [locations] with that id ([locations.find]). *)
Definition findLocation (locations : list Location) (locId : string) : option Location :=
  List.find (fun l => String.eqb (loc_id l) locId) locations.

Definition bookSlot (locations : list Location) (locId date : string) (ts : Slot)
           (u : User) (id : string) (now : Z) (all : list Booking)
  : BookResult * list Booking :=
  confirmBooking (findLocation locations locId) (Some date) (Some ts) (Some u) id now all.

(** "Book" on a slot card of the location dialog, with the
    [onConfirm] of its dialog: here the capacity is tested before
    the duplicate.  The handler tests [assigned] and [alreadyBooked],
    which [renderGridForDate] computed when it drew the card, from the
    bookings stored then ([drawn]); the store is read again only by
    [addBooking], at the click ([all]). *)
Definition bookInLocationModal (user : option User) (loc : Location) (dateStr : string)
           (ts : Slot) (id : string) (now : Z) (drawn all : list Booking)
  : BookResult * list Booking :=
  match user with
  | None => (NotSignedIn, all)
  | Some u =>
      if JS.lengthGe (getBookingsFor (loc_id loc) dateStr (slot_id ts) drawn)
                     (loc_slotCapacity loc)
      then (SlotFull, all)
      else if userHasBookingForSlot (u_username u) (loc_id loc) dateStr (slot_id ts) drawn
      then (AlreadyBooked, all)
      else (Booked, addBooking (newBooking id u loc dateStr ts now) all)
  end.

(** [getUserBookings]: the bookings "My Assignments" lists for a user
    name, compared without regard to case. *)
Definition isBookingOfUser (username : string) (b : Booking) : bool :=
  (JS.truthy (b_username b)
   && String.eqb (JS.toLowerCase (JS.orStr (b_username b) "")) (JS.toLowerCase username))%bool.

Definition getUserBookings (username : string) (all : list Booking) : list Booking :=
  List.filter (isBookingOfUser username) all.

(** What [renderTimeslotCards] works out for the card of a slot:
    [available], [isFull], [alreadyBooked]. *)
Record TimeslotCard := mkTimeslotCard {
  card_available : Q;
  card_isFull : bool;
  card_alreadyBooked : bool
}.

Definition timeslotCard (user : option User) (selectedLocation : Location)
           (selectedDate : string) (ts : Slot) (all : list Booking) : TimeslotCard :=
  let assigned := getBookingsFor (loc_id selectedLocation) selectedDate (slot_id ts) all in
  let available :=
    (loc_slotCapacity selectedLocation - inject_Z (Z.of_nat (length assigned)))%Q in
  {| card_available := available;
     card_isFull := Qle_bool available 0;
     card_alreadyBooked :=
       match user with
       | Some u => userHasBookingForSlot (u_username u) (loc_id selectedLocation)
                                         selectedDate (slot_id ts) all
       | None => false
       end |}.

(** A card gets its click handler, which selects the slot, only when
    it is neither full nor already booked. *)
Definition cardSelectable (card : TimeslotCard) : bool :=
  (negb (card_isFull card) && negb (card_alreadyBooked card))%bool.

(** [bookBtn.disabled] of a slot card of the location dialog, drawn
    from the bookings [drawn]. *)
Definition bookButtonDisabled (user : option User) (loc : Location) (dateStr : string)
           (ts : Slot) (drawn : list Booking) : bool :=
  let assigned := getBookingsFor (loc_id loc) dateStr (slot_id ts) drawn in
  let alreadyBooked :=
    match user with
    | Some u => userHasBookingForSlot (u_username u) (loc_id loc) dateStr (slot_id ts) drawn
    | None => false
    end in
  if alreadyBooked then true
  else JS.lengthGe assigned (loc_slotCapacity loc).

(** The three passes of [escapeHtml]: [&], then [<], then [>]. *)
Fixpoint replaceChar (c : ascii) (rep : string) (s : string) : string :=
  match s with
  | EmptyString => EmptyString
  | String x r =>
      if Ascii.eqb x c then String.append rep (replaceChar c rep r)
      else String x (replaceChar c rep r)
  end.

Definition escapeHtml (s : string) : string :=
  replaceChar ">" "&gt;" (replaceChar "<" "&lt;" (replaceChar "&" "&amp;" s)).

Inductive CancelResult :=
| Cancelled
| BookingNotFound
| TooLateToCancel.

Definition HOUR_MS : Z := 60 * 60 * 1000.
Definition CANCEL_NOTICE_MS : Z := 30 * 60 * 1000.

Section Clock.

(** The browser's clock.  [parseDateStr dateStr] is the time value of
    [new Date(y, m - 1, d)], local midnight of the date, and [None]
    when that is an Invalid Date.  [setHours t h] is the time value
    left by [d.setHours(h, 0, 0, 0)] on a date [d] of time value [t]:
    [h] o'clock local time of the same local day, through whatever
    clock changes the zone has, and [None] when the result is an
    Invalid Date (hours far out of range). *)
Variable parseDateStr : string -> option Z.
Variable setHours : Z -> Z -> option Z.

Definition slotStartDateTime (dateStr : string) (startHour : Z) : option Z :=
  match parseDateStr dateStr with
  | Some t => setHours t startHour
  | None => None
  end.

(** [slotStart - Date.now() < 30 * 60 * 1000]; with an Invalid Date
    the difference is [NaN] and the comparison is false. *)
Definition tooLate (slotStart : option Z) (now : Z) : bool :=
  match slotStart with
  | Some t => t - now <? CANCEL_NOTICE_MS
  | None => false
  end.

(** Cancel button of a slot card in the location dialog, with the
    [onConfirm] of its dialog. *)
Definition cancelInLocationModal (user : User) (loc : Location) (dateStr : string)
           (ts : Slot) (now : Z) (all : list Booking)
  : CancelResult * list Booking :=
  match List.find (sameUserSlot (u_username user) (loc_id loc) dateStr (slot_id ts)) all with
  | None => (BookingNotFound, all)
  | Some b =>
      let slotStart := slotStartDateTime dateStr (slot_startHour ts) in
      if tooLate slotStart now then (TooLateToCancel, all)
      else (Cancelled, removeBookingById (b_id b) all)
  end.

(** The start hour "My Assignments" uses for a booking: that of
    the catalog slot with the booking's slot id, else 0. *)
Definition assignmentStartHour (locationSlots : list Slot) (b : Booking) : Z :=
  match List.find (fun s => JS.eqStr (b_slotId b) (slot_id s)) locationSlots with
  | Some s => slot_startHour s
  | None => 0
  end.

(** Cancel button of a card of "My Assignments", with the
    [onConfirm] of its dialog. *)
Definition cancelInMyAssignments (locationSlots : list Slot) (booking : Booking)
           (now : Z) (all : list Booking) : CancelResult * list Booking :=
  let slotStart := slotStartDateTime (b_date booking)
                     (assignmentStartHour locationSlots booking) in
  if tooLate slotStart now then (TooLateToCancel, all)
  else (Cancelled, removeBookingById (b_id booking) all).

(** The two lists of "My Assignments": a booking is upcoming when the
    start of its slot is not before the moment the view is drawn
    ([slotStart >= now], false for an Invalid Date). *)
Inductive Bucket :=
| Upcoming
| Past.

Definition bucketOf (locationSlots : list Slot) (b : Booking) (now : Z) : Bucket :=
  let slotStart := slotStartDateTime (b_date b) (assignmentStartHour locationSlots b) in
  match slotStart with
  | Some t => if t >=? now then Upcoming else Past
  | None => Past
  end.

End Clock.

End VDB.

(** ** admin-schedules.js *)

Module AdminSchedules.

(** The module's state: the array [DEFAULT_SLOTS], which the "Add
    global slot" dialog extends in memory, and the value stored under
    "cvsa_location_slots" ([None] while nothing is stored). *)
Record State := mkState {
  DEFAULT_SLOTS : list Slot;
  stored : option (gmap string (list Slot))
}.

(** [DEFAULT_SLOTS] as the module declares it. *)
Definition DECLARED_DEFAULT_SLOTS : list Slot :=
  [ mkSlot "6-8am" "6:00 AM - 8:00 AM" 6 8 1 4;
    mkSlot "8-10am" "8:00 AM - 10:00 AM" 8 10 1 4;
    mkSlot "10-12pm" "10:00 AM - 12:00 PM" 10 12 1 4;
    mkSlot "12-2pm" "12:00 PM - 2:00 PM" 12 14 1 4;
    mkSlot "2-4pm" "2:00 PM - 4:00 PM" 14 16 1 4;
    mkSlot "4-6pm" "4:00 PM - 6:00 PM" 16 18 1 4;
    mkSlot "6-8pm" "6:00 PM - 8:00 PM" 18 20 1 4 ].

(** The state when the script has been loaded on an empty storage. *)
Definition initialState : State :=
  {| DEFAULT_SLOTS := DECLARED_DEFAULT_SLOTS; stored := None |}.

Definition save (map : gmap string (list Slot)) (st : State) : State :=
  {| DEFAULT_SLOTS := DEFAULT_SLOTS st; stored := Some map |}.

Definition ensureData (st : State) : gmap string (list Slot) * State :=
  match stored st with
  | Some existing => (existing, st)
  | None => (∅, save ∅ st)
  end.

(** A JSON round trip of a slot gives an equal, fresh slot. *)
Definition clone (s : Slot) : Slot := s.

(** [uid] stands for the value [uniqueId('slot-')] returns when the
    slot has neither id nor label. *)
Definition normalizeSlot (uid : string) (slot : SlotObj) : Slot :=
  {| slot_id := JS.replaceSpaces "-"
                  (JS.orStr (so_id slot) (JS.orStr (so_label slot) uid));
     slot_label := JS.trim (JS.orStr (so_label slot) "");
     slot_startHour := JS.numOr0 (so_startHour slot);
     slot_endHour := JS.numOr0 (so_endHour slot);
     slot_minVol := JS.numOr0 (so_minVol slot);
     slot_maxVol := JS.numOr0 (so_maxVol slot) |}.

(** [slotsArray.map(sl => normalizeSlot(sl))]; the [i]-th call of
    [uniqueId] returns [uids i]. *)
Fixpoint normalizeFrom (uids : nat -> string) (i : nat) (l : list SlotObj) : list Slot :=
  match l with
  | [] => []
  | sl :: r => normalizeSlot (uids i) sl :: normalizeFrom uids (S i) r
  end.

Definition getSlotsForLocation (locationId : string) (st : State) : list Slot * State :=
  let '(map, st1) := ensureData st in
  if String.eqb locationId "" then (List.map clone (DEFAULT_SLOTS st1), st1)
  else match map !! locationId with
       | None => (List.map clone (DEFAULT_SLOTS st1), st1)
       | Some [] => (List.map clone (DEFAULT_SLOTS st1), st1)
       | Some custom => (List.map clone custom, st1)
       end.

Definition setSlotsForLocation (uids : nat -> string) (locationId : string)
           (slotsArray : list SlotObj) (st : State) : State :=
  if String.eqb locationId "" then st
  else
    let '(map, st1) := ensureData st in
    save (<[locationId := normalizeFrom uids 0 slotsArray]> map) st1.

Definition addSlotToLocation (uid : string) (locationId : string) (slot : SlotObj)
           (st : State) : list Slot * State :=
  let '(map, st1) := ensureData st in
  let '(list, st2) :=
    match map !! locationId with
    | Some l => (l, st1)
    | None => getSlotsForLocation locationId st1
    end in
  let slot' := {| so_id := Some (JS.orStr (so_id slot) uid); so_label := so_label slot;
                  so_startHour := so_startHour slot; so_endHour := so_endHour slot;
                  so_minVol := so_minVol slot; so_maxVol := so_maxVol slot |} in
  let list' := list ++ [normalizeSlot uid slot'] in
  (list', save (<[locationId := list']> map) st2).

Definition removeSlotFromLocation (locationId slotId : string) (st : State)
  : bool * State :=
  let '(map, st1) := ensureData st in
  match map !! locationId with
  | None => (false, st1)
  | Some l =>
      let l' := List.filter (fun s => negb (String.eqb (slot_id s) slotId)) l in
      (Nat.ltb (length l') (length l), save (<[locationId := l']> map) st1)
  end.

(** [onConfirm] of "Reset to defaults" for one location. *)
Definition resetToDefaults (locId : string) (st : State) : State :=
  let cloneDefaults := List.map clone (DEFAULT_SLOTS st) in
  let '(mapNow, st1) := ensureData st in
  save (<[locId := cloneDefaults]> mapNow) st1.

(** [onConfirm] of "Apply defaults to all". *)
Definition applyDefaultsToAll (locationsNow : list Location) (st : State) : State :=
  save (fold_left (fun m l => <[loc_id l := List.map clone (DEFAULT_SLOTS st)]> m)
                  locationsNow ∅) st.

(** The checks the slot editor makes on one slot when "Save slots"
    is pressed (hours are finite numbers in this embedding). *)
Definition editorAccepts (s : Slot) : bool :=
  (negb (String.eqb (slot_label s) "")
   && negb (slot_startHour s >=? slot_endHour s)
   && negb ((slot_minVol s <? 0) || (slot_maxVol s <? 0))
   && negb ((slot_maxVol s >? 0) && (slot_minVol s >? slot_maxVol s)))%bool.

Inductive SaveResult :=
| Saved
| ValidationErrors.

(** The [currentSlots.map] of the editor's [onConfirm]: a slot
    without id gets a fresh one, white space in the id becomes
    hyphens, and the slot is normalized. *)
Fixpoint cleanFrom (uids : nat -> string) (i : nat) (l : list Slot) : list Slot :=
  match l with
  | [] => []
  | s :: r =>
      let id1 := if String.eqb (slot_id s) "" then uids i else slot_id s in
      normalizeSlot (uids i)
        (objOfSlot (mkSlot (JS.replaceSpaces "-" id1) (slot_label s)
                           (slot_startHour s) (slot_endHour s)
                           (slot_minVol s) (slot_maxVol s)))
      :: cleanFrom uids (S i) r
  end.

(** [onConfirm] of the slot editor of a location: [currentSlots] is
    the edited list. *)
Definition saveEditedSlots (uids : nat -> string) (locationId : string)
           (currentSlots : list Slot) (st : State) : SaveResult * State :=
  if forallb editorAccepts currentSlots then
    let cleaned := cleanFrom uids 0 currentSlots in
    (Saved, setSlotsForLocation uids locationId (List.map objOfSlot cleaned) st)
  else (ValidationErrors, st).

(** [onConfirm] of "Add global slot": [newId] stands for
    [slugify(label) + '-' + uniqueId('g-')]. *)
Definition addGlobalSlot (newId label : string) (sH eH minV maxV : Z) (st : State)
  : SaveResult * State :=
  let label' := JS.trim label in
  if (negb (String.eqb label' "")
      && negb (sH >=? eH)
      && negb ((minV <? 0) || (maxV <? 0))
      && negb ((maxV >? 0) && (minV >? maxV)))%bool
  then
    let newSlot := normalizeSlot "" (mkSlotObj (Some newId) (Some label') (Some sH)
                                               (Some eH) (Some minV) (Some maxV)) in
    (Saved, {| DEFAULT_SLOTS := DEFAULT_SLOTS st ++ [newSlot]; stored := stored st |})
  else (ValidationErrors, st).

(** [Object.assign({}, s, patch)]: a field the patch has replaces the
    slot's. *)
Definition assignPatch (s : Slot) (patch : SlotObj) : SlotObj :=
  let pick {A : Type} (p : option A) (v : A) : option A :=
    match p with
    | Some x => Some x
    | None => Some v
    end in
  {| so_id := pick (so_id patch) (slot_id s);
     so_label := pick (so_label patch) (slot_label s);
     so_startHour := pick (so_startHour patch) (slot_startHour s);
     so_endHour := pick (so_endHour patch) (slot_endHour s);
     so_minVol := pick (so_minVol patch) (slot_minVol s);
     so_maxVol := pick (so_maxVol patch) (slot_maxVol s) |}.

(** The [map] of [updateSlotForLocation]: every slot with the id is
    replaced by the normalized patched slot; the [i]-th slot would get
    [uids i] from [uniqueId]. *)
Fixpoint patchFrom (uids : nat -> string) (i : nat) (slotId : string) (patch : SlotObj)
         (l : list Slot) : list Slot :=
  match l with
  | [] => []
  | s :: r =>
      (if String.eqb (slot_id s) slotId then normalizeSlot (uids i) (assignPatch s patch)
       else s)
      :: patchFrom uids (S i) slotId patch r
  end.

Definition updateSlotForLocation (uids : nat -> string) (locationId slotId : string)
           (patch : SlotObj) (st : State) : bool * State :=
  let '(map, st1) := ensureData st in
  match map !! locationId with
  | None => (false, st1)
  | Some l =>
      let changed := existsb (fun s => String.eqb (slot_id s) slotId) l in
      if changed
      then (true, save (<[locationId := patchFrom uids 0 slotId patch l]> map) st1)
      else (false, st1)
  end.


End AdminSchedules.

(** ** admin-assignments.js *)

Module AdminAssignments.

Definition addAssignment (assignment : Booking) (all : list Booking) : list Booking :=
  all ++ [assignment].

Definition removeAssignmentById (id : string) (all : list Booking) : list Booking :=
  List.filter (fun b => negb (String.eqb (b_id b) id)) all.

Definition getAssignmentsForCell (locationId dateStr slotId : string)
           (all : list Booking) : list Booking :=
  List.filter (fun b => String.eqb (b_locationId b) locationId
                        && String.eqb (b_date b) dateStr
                        && JS.eqStr (b_slotId b) slotId)%bool all.

(** [{start, end}] of a slot object. *)
Definition slotRange (slot : SlotObj) : Z * Z :=
  (JS.numOr0 (so_startHour slot), JS.numOr0 (so_endHour slot)).

Definition rangesOverlap (aStart aEnd bStart bEnd : Z) : bool :=
  ((aStart <? bEnd) && (bStart <? aEnd))%bool.

(** The filter of [getAssignmentsForVolunteerOnDate]: the date, then
    the identity heuristics; the status is not read. *)
Definition isAssignmentOf (volIdOrName : option string) (dateStr : string)
           (b : Booking) : bool :=
  if negb (String.eqb (b_date b) dateStr) then false
  else if negb (JS.truthy volIdOrName) then false
  else
    let v := JS.toLowerCase (JS.orStr volIdOrName "") in
    if (JS.truthy (b_username b)
        && String.eqb (JS.toLowerCase (JS.orStr (b_username b) "")) v)%bool then true
    else if (JS.truthy (b_displayName b)
             && String.eqb (JS.toLowerCase (JS.orStr (b_displayName b) "")) v)%bool then true
    else if (JS.truthy (b_volunteerId b)
             && JS.eqOpt (b_volunteerId b) volIdOrName)%bool then true
    else false.

Definition getAssignmentsForVolunteerOnDate (volIdOrName : option string)
           (dateStr : string) (all : list Booking) : list Booking :=
  List.filter (isAssignmentOf volIdOrName dateStr) all.

(** What [detectConflictFor] returns: [{conflict: false}] or the
    booking found with the slot object its hours were read from. *)
Inductive Conflict :=
| NoConflict
| ConflictWith (booking : Booking) (existingSlot : SlotObj).

Section Catalog.

(** The catalog of a location as this module reads it
    ([AdminSchedules.getSlotsForLocation] when that module is
    loaded). *)
Variable getSlotsForLocation : string -> list Slot.

(** The slot object of an existing booking: the catalog slot of the
    booking's location with the booking's slot id, else an object
    made of the hours stored on the booking. *)
Definition slotObjOf (b : Booking) : SlotObj :=
  match List.find (fun s => JS.eqOpt (Some (slot_id s)) (b_slotId b))
                  (getSlotsForLocation (b_locationId b)) with
  | Some s => objOfSlot s
  | None => mkSlotObj None None
                      (Some (JS.numOr0 (b_startHour b)))
                      (Some (JS.numOr0 (b_endHour b))) None None
  end.

(** The [for (const b of existing)] loop. *)
Fixpoint firstOverlap (newRange : Z * Z) (existing : list Booking) : Conflict :=
  match existing with
  | [] => NoConflict
  | b :: rest =>
      let slotObj := slotObjOf b in
      let existingRange := slotRange slotObj in
      if rangesOverlap (fst newRange) (snd newRange)
                       (fst existingRange) (snd existingRange)
      then ConflictWith b slotObj
      else firstOverlap newRange rest
  end.

Definition detectConflictFor (volIdentifier : option string) (dateStr : string)
           (newSlot : SlotObj) (all : list Booking) : Conflict :=
  let existing := getAssignmentsForVolunteerOnDate volIdentifier dateStr all in
  let newRange := slotRange newSlot in
  firstOverlap newRange existing.

(** [vol.email || vol.id || (vol.name || '').toLowerCase().replace(/\s+/g, '.')] *)
Definition bookingUsername (vol : Volunteer) : string :=
  JS.orStr (v_email vol)
    (JS.orStr (v_id vol)
       (JS.replaceSpaces "." (JS.toLowerCase (JS.orStr (v_name vol) "")))).

(** [makeBooking]; [id] and [now] stand for [uid('bk-')] and
    [Date.now()].  The slot's id, label and hours are copied as
    they are, also when the slot object lacks them. *)
Definition makeBooking (id : string) (now : Z) (vol : Volunteer) (location : Location)
           (slotObj : SlotObj) (dateStr : string) : Booking :=
  {| b_id := id;
     b_username := Some (bookingUsername vol);
     b_displayName := Some (JS.orStr (v_name vol) (JS.orStr (v_email vol) "Volunteer"));
     b_volunteerId := if JS.truthy (v_id vol) then v_id vol else None;
     b_role := Some (JS.orStr (v_role vol) "volunteer");
     b_locationId := loc_id location;
     b_locationName := loc_name location;
     b_date := dateStr;
     b_slotId := so_id slotObj;
     b_slotLabel := so_label slotObj;
     b_startHour := so_startHour slotObj;
     b_endHour := so_endHour slotObj;
     b_status := None;
     b_checkedInAt := None;
     b_createdAt := now |}.

(** [vol.id || vol.name || vol.email || vol.username], the identifier
    the drop handler hands to the conflict check. *)
Definition volIdentifierOf (vol : Volunteer) : option string :=
  JS.orOpt (v_id vol) (JS.orOpt (v_name vol) (JS.orOpt (v_email vol) (v_username vol))).

Inductive AssignResult :=
| Assigned
| DoubleBookingWarning (c : Conflict).

(** The drop of a volunteer on a cell of the grid.  Without a conflict
    the booking is added at once; with one the "Possible
    double-booking" dialog opens and the booking is added only when
    "Assign anyway" is pressed ([force]).  There is no other test. *)
Definition assignOnDrop (force : bool) (id : string) (now : Z) (vol : Volunteer)
           (location : Location) (slotObj : SlotObj) (dateStr : string)
           (all : list Booking) : AssignResult * list Booking :=
  match detectConflictFor (volIdentifierOf vol) dateStr slotObj all with
  | NoConflict =>
      (Assigned, addAssignment (makeBooking id now vol location slotObj dateStr) all)
  | ConflictWith b s =>
      if force
      then (Assigned, addAssignment (makeBooking id now vol location slotObj dateStr) all)
      else (DoubleBookingWarning (ConflictWith b s), all)
  end.

(** The entry the grid keeps per slot id in [slotMap]: label and
    hours of the catalog slot, without its id. *)
Definition slotMapEntry (s : Slot) : SlotObj :=
  mkSlotObj None (Some (slot_label s)) (Some (slot_startHour s))
            (Some (slot_endHour s)) None None.

(** The drop as the grid wires it: the slot object is the [slotMap]
    entry of the cell's column. *)
Definition assignFromGrid (force : bool) (id : string) (now : Z) (vol : Volunteer)
           (location : Location) (column : Slot) (dateStr : string)
           (all : list Booking) : AssignResult * list Booking :=
  assignOnDrop force id now vol location (slotMapEntry column) dateStr all.

(** [slotMap] of [renderGridForDate], read at a slot id: the entry
    made of the first slot with that id that is met when the
    catalogs of the locations are gone through in the order of the
    locations. *)
Definition slotMap (locations : list Location) (slotId : string) : option SlotObj :=
  option_map slotMapEntry
    (List.find (fun s => String.eqb (slot_id s) slotId)
               (flat_map (fun loc => getSlotsForLocation (loc_id loc)) locations)).

(** [a.username || a.displayName || a.volunteerId], the identifier
    the grid hands to the conflict check when it draws the badge of an
    assignment. *)
Definition badgeIdentifier (a : Booking) : option string :=
  JS.orOpt (b_username a) (JS.orOpt (b_displayName a) (b_volunteerId a)).

(** Whether the badge of the assignment [a], drawn in the column of
    the slot id [slotId], gets the red "Conflict" mark: the conflict
    check is run with [slotMap[slotId]].  A column exists only for a
    slot id of [slotMap]. *)
Definition badgeShowsConflict (locations : list Location) (a : Booking)
           (dateStr slotId : string) (all : list Booking) : bool :=
  match slotMap locations slotId with
  | Some entry =>
      match detectConflictFor (badgeIdentifier a) dateStr entry all with
      | NoConflict => false
      | ConflictWith _ _ => true
      end
  | None => false
  end.

End Catalog.

End AdminAssignments.

(** ** Regular expressions

    A backtracking matcher for the fragment the two patterns of
    [slotHoursFromBooking] use: character classes, sequence,
    alternative, greedy option, greedy repetition of a class and
    numbered groups.  Alternatives are tried in the order JavaScript
    tries them, so the first success is JavaScript's match. *)

Module Regex.

Inductive re :=
| Cls (p : ascii -> bool)
| Seq (a b : re)
| Alt (a b : re)
| Opt (a : re)
| Star (p : ascii -> bool)
| Grp (n : nat) (a : re).

(** Captured groups, the latest binding of a group first. *)
Definition captures := list (nat * string).

Fixpoint group (n : nat) (c : captures) : option string :=
  match c with
  | [] => None
  | (m, s) :: r => if Nat.eqb m n then Some s else group n r
  end.

(** The part of [s] in front of its suffix [rest]. *)
Definition consumed (s rest : string) : string :=
  String.substring 0 (String.length s - String.length rest) s.

Fixpoint run {R : Type} (r : re) (s : string) (c : captures)
         (k : string -> captures -> option R) : option R :=
  match r with
  | Cls p =>
      match s with
      | String ch t => if p ch then k t c else None
      | EmptyString => None
      end
  | Seq a b => run a s c (fun s1 c1 => run b s1 c1 k)
  | Alt a b =>
      match run a s c k with
      | Some x => Some x
      | None => run b s c k
      end
  | Opt a =>
      match run a s c k with
      | Some x => Some x
      | None => k s c
      end
  | Star p =>
      (fix star (s0 : string) : option R :=
         match s0 with
         | String ch t =>
             if p ch
             then match star t with
                  | Some x => Some x
                  | None => k s0 c
                  end
             else k s0 c
         | EmptyString => k s0 c
         end) s
  | Grp n a => run a s c (fun s1 c1 => k s1 ((n, consumed s s1) :: c1))
  end.

(** [str.match(re)] without the [g] flag: the match at the leftmost
    position that has one. *)
Fixpoint exec (r : re) (s : string) : option captures :=
  match run r s [] (fun _ c => Some c) with
  | Some c => Some c
  | None =>
      match s with
      | String _ t => exec r t
      | EmptyString => None
      end
  end.

Definition isChar (c : ascii) : ascii -> bool := fun x => Ascii.eqb x c.
Definition isNoCase (c : ascii) : ascii -> bool :=
  fun x => Ascii.eqb (JS.lowerAscii x) (JS.lowerAscii c).
Definition notDigit : ascii -> bool := fun x => negb (JS.isDigit x).

Definition digit : re := Cls JS.isDigit.
Definition spaces : re := Star JS.isSpace.
Definition minutes : re := Opt (Seq (Cls (isChar ":")) (Seq digit digit)).
Definition AMPM : re :=
  Alt (Seq (Cls (isNoCase "A")) (Cls (isNoCase "M")))
      (Seq (Cls (isNoCase "P")) (Cls (isNoCase "M"))).

(** The class of the hyphen and the en dash; the en dash is the
    three bytes of its UTF-8 form. *)
Definition dash : re :=
  Alt (Cls (isChar "-"))
      (Seq (Cls (isChar (ascii_of_nat 226)))
           (Seq (Cls (isChar (ascii_of_nat 128))) (Cls (isChar (ascii_of_nat 147))))).

Definition seqs (l : list re) (last : re) : re := fold_right Seq last l.

(** [/(\d{1,2})(?::\d{2})?\s*(AM|PM)?\s*[-–]\s*(\d{1,2})(?::\d{2})?\s*(AM|PM)?/i] *)
Definition labelPattern : re :=
  seqs [ Grp 1 (Seq digit (Opt digit)); minutes; spaces; Opt (Grp 2 AMPM); spaces;
         dash; spaces; Grp 3 (Seq digit (Opt digit)); minutes; spaces ]
       (Opt (Grp 4 AMPM)).

(** [/(\d+)[^\d]+(\d+)/] *)
Definition idPattern : re :=
  seqs [ Grp 1 (Seq digit (Star JS.isDigit)); Cls notDigit; Star notDigit ]
       (Grp 2 (Seq digit (Star JS.isDigit))).

End Regex.

(** ** admin-reports.js *)

Module AdminReports.

Definition removeBookingById (id : string) (all : list Booking) : list Booking :=
  List.filter (fun b => negb (String.eqb (b_id b) id)) all.

(** [all[idx] = bk] at the first index whose booking has [bk]'s id. *)
Fixpoint replaceFirst (bk : Booking) (all : list Booking) : option (list Booking) :=
  match all with
  | [] => None
  | x :: r =>
      if String.eqb (b_id x) (b_id bk) then Some (bk :: r)
      else match replaceFirst bk r with
           | Some r' => Some (x :: r')
           | None => None
           end
  end.

Definition saveBookingUpdate (bk : Booking) (all : list Booking) : list Booking :=
  match replaceFirst bk all with
  | Some all' => all'
  | None => all ++ [bk]
  end.

(** "Check in" and "No-show" of a report row; [bk] is the row's
    booking object and [now] stands for [Date.now()]. *)
Definition checkIn (bk : Booking) (now : Z) (all : list Booking) : list Booking :=
  saveBookingUpdate (withStatus bk (Some "checked-in") (Some now)) all.

Definition markNoShow (bk : Booking) (all : list Booking) : list Booking :=
  saveBookingUpdate (withStatus bk (Some "no-show") (b_checkedInAt bk)) all.

Section Catalog.

(** The catalog of a location as this module reads it; an absent
    catalog is the empty list ([|| []]). *)
Variable getSlotsForLocation : string -> list Slot.

(** The hour a matched group and its AM/PM mark give. *)
Definition hourOf (digits : option string) (mark : option string) : Z :=
  let h := JS.Number (JS.orStr digits "") in
  if (String.eqb (JS.toUpperCase (JS.orStr mark "")) "PM" && (h <? 12))%bool
  then h + 12 else h.

Definition slotHoursFromBooking (b : Booking) : Z * Z :=
  match b_startHour b, b_endHour b with
  | Some s, Some e => (s, e)
  | _, _ =>
      let slots := getSlotsForLocation (b_locationId b) in
      match List.find (fun s => JS.eqOpt (Some (slot_id s)) (b_slotId b)) slots with
      | Some slot => (slot_startHour slot, slot_endHour slot)
      | None =>
          match Regex.exec Regex.labelPattern
                  (JS.orStr (b_slotLabel b) (JS.orStr (b_slotId b) "")) with
          | Some m =>
              (hourOf (Regex.group 1 m) (Regex.group 2 m),
               hourOf (Regex.group 3 m) (Regex.group 4 m))
          | None =>
              match Regex.exec Regex.idPattern (JS.orStr (b_slotId b) "") with
              | Some m2 =>
                  (JS.Number (JS.orStr (Regex.group 1 m2) ""),
                   JS.Number (JS.orStr (Regex.group 2 m2) ""))
              | None => (0, 0)
              end
          end
      end
  end.

Definition durationHoursFromBooking (b : Booking) : Z :=
  let h := slotHoursFromBooking b in
  let dur := snd h - fst h in
  if dur <? 0 then 0 else dur.

(** [bookings.reduce((acc, b) => acc + durationHoursFromBooking(b), 0)],
    the total of service hours a report shows. *)
Definition totalHours (bookings : list Booking) : Z :=
  fold_left (fun acc b => acc + durationHoursFromBooking b) bookings 0.

End Catalog.

(** [getSlotsForLocation] of admin-reports.js with the [|| []] of its
    caller: the catalog of the schedules module when that module is
    loaded ([adminSchedules]), else the array stored for the location
    under "cvsa_location_slots" ([stored]), else nothing. *)
Definition getSlotsForLocation (adminSchedules : option (string -> list Slot))
           (stored : option (gmap string (list Slot))) (locationId : string)
  : list Slot :=
  match adminSchedules with
  | Some catalog => catalog locationId
  | None =>
      match stored with
      | Some map => default [] (map !! locationId)
      | None => []
      end
  end.

(** The four filters of the attendance statistics. *)
Definition isCheckedIn (b : Booking) : bool := JS.eqStr (b_status b) "checked-in".
Definition isNoShow (b : Booking) : bool := JS.eqStr (b_status b) "no-show".
Definition isCancelled (b : Booking) : bool := JS.eqStr (b_status b) "cancelled".
Definition isAssigned (b : Booking) : bool :=
  (negb (JS.truthy (b_status b)) || JS.eqStr (b_status b) "assigned")%bool.

Record Stats := mkStats {
  totalAssignments : nat;
  checkedIn : nat;
  noShows : nat;
  cancelled : nat;
  assigned : nat
}.

Definition attendanceStats (bookings : list Booking) : Stats :=
  {| totalAssignments := length bookings;
     checkedIn := length (List.filter isCheckedIn bookings);
     noShows := length (List.filter isNoShow bookings);
     cancelled := length (List.filter isCancelled bookings);
     assigned := length (List.filter isAssigned bookings) |}.

(** The badge a status is drawn with (the markup is left out). *)
Inductive Badge :=
| BadgeAssigned
| BadgeCheckedIn
| BadgeNoShow
| BadgeCancelled
| BadgeText (status : string).

Definition renderStatusBadge (status : option string) : Badge :=
  if (negb (JS.truthy status) || JS.eqStr status "assigned")%bool then BadgeAssigned
  else if JS.eqStr status "checked-in" then BadgeCheckedIn
  else if JS.eqStr status "no-show" then BadgeNoShow
  else if JS.eqStr status "cancelled" then BadgeCancelled
  else BadgeText (JS.orStr status "").




End AdminReports.

(** ** elder-dashboard.js *)

Module ElderDashboard.

Definition isPending (b : Booking) : bool :=
  (negb (JS.truthy (b_status b)) || JS.eqStr (b_status b) "assigned")%bool.

Definition pending (bookingsForCong : list Booking) : nat :=
  length (List.filter isPending bookingsForCong).

Definition renderStatusReadOnly (status : option string) : AdminReports.Badge :=
  if (negb (JS.truthy status) || JS.eqStr status "assigned")%bool
  then AdminReports.BadgeAssigned
  else if JS.eqStr status "checked-in" then AdminReports.BadgeCheckedIn
  else if JS.eqStr status "no-show" then AdminReports.BadgeNoShow
  else if JS.eqStr status "cancelled" then AdminReports.BadgeCancelled
  else AdminReports.BadgeText (JS.orStr status "").

Section Catalog.

(** [window.AdminSchedules.getSlotsForLocation] when the schedules
    module is loaded, [None] when it is not: the elder dashboard looks
    the slot of a booking up only in the first case.  [b] is always a
    booking here, so the guard [if (!b)] is not taken. *)
Variable adminSchedules : option (string -> list Slot).

(** The elder dashboard's own copy of the hour heuristic. *)
Definition slotHoursFromBooking (b : Booking) : Z * Z :=
  match b_startHour b, b_endHour b with
  | Some s, Some e => (s, e)
  | _, _ =>
      let found :=
        match adminSchedules with
        | Some getSlotsForLocation =>
            List.find (fun x => JS.eqOpt (Some (slot_id x)) (b_slotId b))
                      (getSlotsForLocation (b_locationId b))
        | None => None
        end in
      match found with
      | Some s => (slot_startHour s, slot_endHour s)
      | None =>
          match Regex.exec Regex.labelPattern
                  (JS.orStr (b_slotLabel b) (JS.orStr (b_slotId b) "")) with
          | Some m =>
              (AdminReports.hourOf (Regex.group 1 m) (Regex.group 2 m),
               AdminReports.hourOf (Regex.group 3 m) (Regex.group 4 m))
          | None =>
              match Regex.exec Regex.idPattern (JS.orStr (b_slotId b) "") with
              | Some m2 =>
                  (JS.Number (JS.orStr (Regex.group 1 m2) ""),
                   JS.Number (JS.orStr (Regex.group 2 m2) ""))
              | None => (0, 0)
              end
          end
      end
  end.

Definition durationHoursFromBooking (b : Booking) : Z :=
  let h := slotHoursFromBooking b in
  let dur := snd h - fst h in
  if dur >? 0 then dur else 0.

End Catalog.

End ElderDashboard.

(** ** Sequences of booking mutations *)

Module Engine.

(** The status a booking is read with: a missing status counts as
    "assigned", as in [b.status || 'assigned']. *)
Definition statusOf (b : Booking) : string := JS.orStr (b_status b) "assigned".

(** An active booking in the words of the specification: its status
    is "assigned" or "checked-in". *)
Definition spec_isActive (b : Booking) : bool :=
  (String.eqb (statusOf b) "assigned" || String.eqb (statusOf b) "checked-in")%bool.

(** The bookings at a location, date and slot, and the active ones
    among them. *)
Definition countAt (locationId dateStr slotId : string) (all : list Booking) : Z :=
  Z.of_nat (length (VDB.getBookingsFor locationId dateStr slotId all)).


(** A mutation of the booking set, with the inputs of the handler
    that performs it. *)
Inductive Op :=
| BookSlot (u : User) (locId date : string) (ts : Slot) (id : string) (now : Z)
| BookInModal (u : User) (locId date : string) (ts : Slot) (id : string) (now : Z)
              (drawn : list Booking)
| Cancel (u : User) (loc : Location) (date : string) (ts : Slot) (now : Z)
| CancelMine (locationSlots : list Slot) (booking : Booking) (now : Z)
| Remove (id : string)
| AdminAssign (assignment : Booking).


Section Run.

Variable parseDateStr : string -> option Z.
Variable setHours : Z -> Z -> option Z.
Variable locations : list Location.

(** The booking set after a mutation that succeeded; [None] when
    the handler refused. *)
Definition step (op : Op) (all : list Booking) : option (list Booking) :=
  match op with
  | BookSlot u locId date ts id now =>
      match VDB.bookSlot locations locId date ts u id now all with
      | (VDB.Booked, all') => Some all'
      | _ => None
      end
  | BookInModal u locId date ts id now drawn =>
      match VDB.findLocation locations locId with
      | Some loc =>
          match VDB.bookInLocationModal (Some u) loc date ts id now drawn all with
          | (VDB.Booked, all') => Some all'
          | _ => None
          end
      | None => None
      end
  | Cancel u loc date ts now =>
      match VDB.cancelInLocationModal parseDateStr setHours u loc date ts now all with
      | (VDB.Cancelled, all') => Some all'
      | _ => None
      end
  | CancelMine locationSlots booking now =>
      match VDB.cancelInMyAssignments parseDateStr setHours locationSlots booking now all with
      | (VDB.Cancelled, all') => Some all'
      | _ => None
      end
  | Remove id => Some (AdminReports.removeBookingById id all)
  | AdminAssign assignment => Some (AdminAssignments.addAssignment assignment all)
  end.

(** A sequence of mutations, each of which succeeds. *)
Fixpoint run (ops : list Op) (all : list Booking) : option (list Booking) :=
  match ops with
  | [] => Some all
  | op :: rest =>
      match step op all with
      | Some all' => run rest all'
      | None => None
      end
  end.

(** The card of the location dialog a "Book" click is made on shows
    its cell no emptier than it is: the cell held, when the card was
    drawn, at least as many bookings as are stored at the click.  A
    card drawn from the bookings stored at the click is such a
    card. *)
Definition cardCurrent (op : Op) (all : list Booking) : bool :=
  match op with
  | BookInModal u locId date ts id now drawn =>
      countAt locId date (slot_id ts) all <=? countAt locId date (slot_id ts) drawn
  | _ => true
  end.

(** Every "Book" click of a sequence is made on such a card. *)
Fixpoint cardsCurrent (ops : list Op) (all : list Booking) : bool :=
  match ops with
  | [] => true
  | op :: rest =>
      (cardCurrent op all
       && match step op all with
          | Some all' => cardsCurrent rest all'
          | None => true
          end)%bool
  end.



End Run.

End Engine.

(** ** Demo data

    The locations, volunteers and accounts of localstore.js, used for
    the concrete scenarios below. *)

Module Demo.

Definition taytayMarket : Location :=
  mkLocation "taytay-market" "Taytay Market" "Market Blvd." 3.
Definition angonoPlaza : Location :=
  mkLocation "angono-plaza" "Angono Plaza" "Plaza St." 2.
Definition angonoEntrance : Location :=
  mkLocation "angono-entrance" "Angono Entrance" "Entrance Rd." 2.
Definition pritilEntrance : Location :=
  mkLocation "pritil-entrance" "Pritil Entrance" "Pritil Ave." 2.
Definition pritilExit : Location :=
  mkLocation "pritil-exit" "Pritil Exit" "Exit Rd." 1.

Definition DEMO_LOCATIONS : list Location :=
  [taytayMarket; angonoPlaza; angonoEntrance; pritilEntrance; pritilExit].

Definition maria : Volunteer :=
  mkVolunteer (Some "vol-maria") (Some "Maria Santos") (Some "maria@example.com") None
              None.
Definition jose : Volunteer :=
  mkVolunteer (Some "vol-jose") (Some "Jose Perez") (Some "jose@example.com") None
              None.

Definition volunteerUser : User :=
  mkUser "volunteer" (Some "Volunteer Demo") (Some "volunteer").

Definition slot_6_8am : Slot := mkSlot "6-8am" "6:00 AM - 8:00 AM" 6 8 1 4.
Definition slot_2_4pm : Slot := mkSlot "2-4pm" "2:00 PM - 4:00 PM" 14 16 1 4.

(** The booking [bk-demo-1] of [DEMO_BOOKINGS], on a given date. *)
Definition demoBooking (date : string) : Booking :=
  {| b_id := "bk-demo-1";
     b_username := Some "maria@example.com";
     b_displayName := Some "Maria Santos";
     b_volunteerId := Some "vol-maria";
     b_role := Some "volunteer";
     b_locationId := "taytay-market";
     b_locationName := "Taytay Market";
     b_date := date;
     b_slotId := Some "6-8am";
     b_slotLabel := Some "6:00 AM - 8:00 AM";
     b_startHour := Some 6;
     b_endHour := Some 8;
     b_status := Some "assigned";
     b_checkedInAt := None;
     b_createdAt := 0 |}.

(** A clock whose local midnight of every date is time stamp 0, in a
    zone without clock changes: [setHours] keeps the day of the time
    value and sets the hour; time values beyond 8.64e15 in size are
    Invalid Dates. *)
Definition midnight0 : string -> option Z := fun _ => Some 0.

Definition MS_PER_DAY : Z := 24 * 60 * 60 * 1000.

Definition setHoursPlain : Z -> Z -> option Z :=
  fun t hour =>
    let t' := (t / MS_PER_DAY) * MS_PER_DAY + hour * VDB.HOUR_MS in
    if Z.abs t' <=? 8640000000000000 then Some t' else None.

(** The clock of a zone on the day its clocks go forward from 2:00
    to 3:00: local midnight is time stamp 0 and every hour from 3
    o'clock on comes an hour sooner. *)
Definition setHoursSpringForward : Z -> Z -> option Z :=
  fun t hour =>
    if hour <? 3 then setHoursPlain t hour else setHoursPlain t (hour - 1).

(** Minutes after local midnight, in milliseconds. *)
Definition atClock (hours minutes : Z) : Z := (hours * 60 + minutes) * 60 * 1000.

(** Two assignments [makeBooking] builds for the 6-8am slot of
    Pritil Exit (capacity 1) from the catalog slot. *)
Definition mariaAtExit : Booking :=
  AdminAssignments.makeBooking "bk-1" 1 maria pritilExit (objOfSlot slot_6_8am)
                               "2025-01-10".
Definition joseAtExit : Booking :=
  AdminAssignments.makeBooking "bk-2" 2 jose pritilExit (objOfSlot slot_6_8am)
                               "2025-01-10".

(** The catalog of every location while nothing has been customized. *)
Definition catalog0 : string -> list Slot :=
  fun locationId =>
    fst (AdminSchedules.getSlotsForLocation locationId AdminSchedules.initialState).

(** A slot from 7 to 9, as the grid hands it to the conflict check. *)
Definition slot_7_9 : SlotObj :=
  mkSlotObj None (Some "7:00 AM - 9:00 AM") (Some 7) (Some 9) None None.

(** Maria's demo booking after the admin marked it a no-show. *)
Definition mariaNoShow : Booking :=
  withStatus (demoBooking "2025-01-10") (Some "no-show") None.

(** What [uniqueId] returns in the scenarios. *)
Definition uids : nat -> string := fun _ => "slot-new".

(** A slot whose hours the slot editor accepts (they are finite and
    the start is before the end) and for which [setHours] leaves an
    Invalid Date. *)
Definition farSlot : Slot := mkSlot "far" "Far" 10000000000 10000000002 1 4.

(** A slot object that ends before it starts, and an edited slot
    whose hours lie beyond the day. *)
Definition backwardsSlot : SlotObj :=
  mkSlotObj (Some "backwards") (Some "Backwards") (Some 10) (Some 8) (Some 3) (Some 2).
Definition beyondDaySlot : Slot := mkSlot "late" "Late" 25 30 0 0.

(** The module state after the admin added the global slot "Night"
    (20 to 22) in the dialog and declined to apply it to the
    locations. *)
Definition afterGlobalSlot : AdminSchedules.State :=
  snd (AdminSchedules.addGlobalSlot "night-g-1" "Night" 20 22 1 2
                                    AdminSchedules.initialState).

(** The module state after the admin moved the slot "6-8am" of
    Taytay Market to 10-12 in the slot editor, and the catalog read
    in that state. *)
Definition afterEdit : AdminSchedules.State :=
  snd (AdminSchedules.saveEditedSlots uids "taytay-market"
         (mkSlot "6-8am" "6:00 AM - 8:00 AM" 10 12 1 4
          :: tl AdminSchedules.DECLARED_DEFAULT_SLOTS)
         AdminSchedules.initialState).

Definition catalog1 : string -> list Slot :=
  fun locationId => fst (AdminSchedules.getSlotsForLocation locationId afterEdit).

(** A booking the volunteer dashboard made for a slot, 9 to 11, that
    the catalog of its location does not hold. *)
Definition legacyBooking : Booking :=
  VDB.newBooking "bk-9" volunteerUser angonoPlaza "2025-01-10"
                 (mkSlot "slot-old" "9:00 AM - 11:00 AM" 9 11 0 0) 0.

End Demo.

(** ** Vocabulary of the statements *)

(** Whether the hours of [newSlot] overlap the hours the conflict
    check reads for the booking [b]. *)
Definition overlapsBooking (getSlotsForLocation : string -> list Slot)
           (newSlot : SlotObj) (b : Booking) : bool :=
  AdminAssignments.rangesOverlap
    (fst (AdminAssignments.slotRange newSlot))
    (snd (AdminAssignments.slotRange newSlot))
    (fst (AdminAssignments.slotRange (AdminAssignments.slotObjOf getSlotsForLocation b)))
    (snd (AdminAssignments.slotRange (AdminAssignments.slotObjOf getSlotsForLocation b))).

(** The slot list stored for a location, if any. *)
Definition storedSlots (locationId : string) (st : AdminSchedules.State)
  : option (list Slot) :=
  match AdminSchedules.stored st with
  | Some map => map !! locationId
  | None => None
  end.

(** The booking [b] with its status replaced by [f] of it. *)
Definition restatus (f : option string -> option string) (b : Booking) : Booking :=
  withStatus b (f (b_status b)) (b_checkedInAt b).

(** Every character of a string satisfies [p]. *)
Fixpoint allChars (p : ascii -> bool) (s : string) : bool :=
  match s with
  | EmptyString => true
  | String c r => (p c && allChars p r)%bool
  end.

(** The location, date and slot of a booking. *)
Definition cellOf (b : Booking) : string * string * option string :=
  (b_locationId b, b_date b, b_slotId b).

(** The status is one the dashboards have a heading for, or is missing. *)
Definition statusKnown (b : Booking) : bool :=
  (AdminReports.isAssigned b || AdminReports.isCheckedIn b
   || AdminReports.isNoShow b || AdminReports.isCancelled b)%bool.

(** The character is not white space. *)
Definition notSpace (c : ascii) : bool := negb (JS.isSpace c).

(** The string is empty or starts with a character that is not white
    space. *)
Definition startsTrimmed (s : string) : bool :=
  match s with
  | EmptyString => true
  | String c _ => notSpace c
  end.

(** The characters [escapeHtml] rewrites: the three, and the two
    brackets alone. *)
Definition isAmp (c : ascii) : bool := Ascii.eqb c "&".
Definition isLt (c : ascii) : bool := Ascii.eqb c "<".
Definition isGt (c : ascii) : bool := Ascii.eqb c ">".
Definition htmlSpecial (c : ascii) : bool := (isAmp c || isLt c || isGt c)%bool.
Definition noneOf (p : ascii -> bool) (s : string) : bool :=
  allChars (fun c => negb (p c)) s.

(** A stored booking counts as one of the volunteer the conflict
    check is asked about when the identifier is not empty and equals,
    case apart, the booking's user name or display name, or equals its
    volunteer id. *)
Definition spec_sameVolunteer (vol : option string) (x : Booking) : Prop :=
  exists v,
    vol = Some v /\ v <> ""
    /\ ((exists n, b_username x = Some n /\ n <> ""
                   /\ JS.toLowerCase n = JS.toLowerCase v)
        \/ (exists n, b_displayName x = Some n /\ n <> ""
                      /\ JS.toLowerCase n = JS.toLowerCase v)
        \/ b_volunteerId x = Some v).

(** The hours of a stored booking for the conflict check: those of
    the first slot with the booking's slot id in the catalog of the
    booking's location and, when there is none, the stored hours
    with 0 for a missing one. *)
Definition spec_hoursOf (getSlotsForLocation : string -> list Slot) (x : Booking)
  : Z * Z :=
  match List.find (fun s => JS.eqOpt (Some (slot_id s)) (b_slotId x))
                  (getSlotsForLocation (b_locationId x)) with
  | Some s => (slot_startHour s, slot_endHour s)
  | None => (JS.numOr0 (b_startHour x), JS.numOr0 (b_endHour x))
  end.

(** A stored booking conflicts with a candidate slot on a date for a
    volunteer: same date, same volunteer, and each of the two hour
    ranges starts before the other ends. *)
Definition spec_conflicts (getSlotsForLocation : string -> list Slot)
           (vol : option string) (date : string) (candidate : SlotObj) (x : Booking)
  : Prop :=
  b_date x = date
  /\ spec_sameVolunteer vol x
  /\ JS.numOr0 (so_startHour candidate) < snd (spec_hoursOf getSlotsForLocation x)
  /\ fst (spec_hoursOf getSlotsForLocation x) < JS.numOr0 (so_endHour candidate).

(** * Properties *)

(** ** Missing and empty strings *)

Lemma orStr_some_empty (l : string) : JS.orStr (Some l) "" = l.
Proof.
  unfold JS.orStr. destruct (String.eqb l "") eqn:E; trivial.
  apply String.eqb_eq in E. now subst.
Qed.

Lemma orStr_some (l d : string) : l <> "" -> JS.orStr (Some l) d = l.
Proof.
  intros H. unfold JS.orStr. destruct (String.eqb l "") eqn:E; trivial.
  apply String.eqb_eq in E. contradiction.
Qed.

(** ** Lists of bookings *)

Lemma removeById_In (id : string) (all : list Booking) (x : Booking) :
  In x (VDB.removeBookingById id all) <-> In x all /\ b_id x <> id.
Proof.
  unfold VDB.removeBookingById. rewrite List.filter_In.
  split; intros [Hin Hne]; split; trivial.
  - intros Heq. apply String.eqb_eq in Heq. rewrite Heq in Hne. discriminate.
  - destruct (String.eqb (b_id x) id) eqn:E; trivial.
    apply String.eqb_eq in E. contradiction.
Qed.

Lemma filter_length_le {A : Type} (f : A -> bool) (l : list A) :
  (length (List.filter f l) <= length l)%nat.
Proof.
  induction l as [|a l IH]; simpl; [lia|].
  destruct (f a); simpl; lia.
Qed.



Lemma getBookingsFor_add (l d s : string) (b : Booking) (all : list Booking) :
  VDB.getBookingsFor l d s (VDB.addBooking b all)
  = VDB.getBookingsFor l d s all ++ VDB.getBookingsFor l d s [b].
Proof. unfold VDB.getBookingsFor, VDB.addBooking. apply List.filter_app. Qed.

Lemma sameUserSlot_newBooking id u loc date ts now :
  VDB.sameUserSlot (u_username u) (loc_id loc) date (slot_id ts)
                   (VDB.newBooking id u loc date ts now) = true.
Proof.
  unfold VDB.sameUserSlot, VDB.newBooking, JS.eqStr; simpl.
  now rewrite !String.eqb_refl.
Qed.

(** ** C6: a second booking of the same slot *)

Lemma userHas_added id u loc date ts now all :
  VDB.userHasBookingForSlot (u_username u) (loc_id loc) date (slot_id ts)
    (VDB.addBooking (VDB.newBooking id u loc date ts now) all) = true.
Proof.
  unfold VDB.userHasBookingForSlot, VDB.addBooking.
  rewrite existsb_app. cbn [existsb]. rewrite sameUserSlot_newBooking.
  now rewrite Bool.orb_true_r.
Qed.

Lemma filter_length_existsb {A : Type} (f : A -> bool) (l : list A) :
  existsb f l = true -> (1 <= length (List.filter f l))%nat.
Proof.
  induction l as [|a l IH]; cbn [existsb List.filter]; [discriminate|].
  destruct (f a); cbn [orb length]; [lia|exact IH].
Qed.

(** C6.  In the step-by-step flow the claim holds: when the signed-in
    volunteer already has a booking for the location, date and slot,
    "Confirm booking" answers "Already booked" and leaves the booking
    set as it is; in particular, right after a booking that succeeded
    the same request is refused.  The "Book" button of the location
    dialog tests what its card was drawn with.  It adds nothing when
    the volunteer held the booking when the card was drawn; but on a
    card that was drawn before the volunteer made the booking, with
    room in the slot then, the click stores a second record for the
    same volunteer, location, date and slot, where the step-by-step
    flow refuses. *)
Theorem duplicate_booking_rejected :
  forall (loc : Location) (date : string) (ts : Slot) (u : User)
         (id : string) (now : Z) (all : list Booking),
    date <> "" ->
    (VDB.userHasBookingForSlot (u_username u) (loc_id loc) date (slot_id ts) all = true ->
     VDB.confirmBooking (Some loc) (Some date) (Some ts) (Some u) id now all
     = (VDB.AlreadyBooked, all))
    /\ (forall all' id' now',
          VDB.confirmBooking (Some loc) (Some date) (Some ts) (Some u) id now all
          = (VDB.Booked, all') ->
          VDB.confirmBooking (Some loc) (Some date) (Some ts) (Some u) id' now' all'
          = (VDB.AlreadyBooked, all'))
    /\ (forall drawn,
          VDB.userHasBookingForSlot (u_username u) (loc_id loc) date (slot_id ts) drawn
          = true ->
          fst (VDB.bookInLocationModal (Some u) loc date ts id now drawn all) <> VDB.Booked
          /\ snd (VDB.bookInLocationModal (Some u) loc date ts id now drawn all) = all)
    /\ (forall drawn,
          VDB.userHasBookingForSlot (u_username u) (loc_id loc) date (slot_id ts) all
          = true ->
          VDB.userHasBookingForSlot (u_username u) (loc_id loc) date (slot_id ts) drawn
          = false ->
          JS.lengthGe (VDB.getBookingsFor (loc_id loc) date (slot_id ts) drawn)
                      (loc_slotCapacity loc) = false ->
          VDB.bookInLocationModal (Some u) loc date ts id now drawn all
          = (VDB.Booked, all ++ [VDB.newBooking id u loc date ts now])
          /\ (2 <= length (List.filter
                             (VDB.sameUserSlot (u_username u) (loc_id loc) date (slot_id ts))
                             (all ++ [VDB.newBooking id u loc date ts now])))%nat
          /\ VDB.confirmBooking (Some loc) (Some date) (Some ts) (Some u) id now all
             = (VDB.AlreadyBooked, all)).
Proof.
  intros loc date ts u id now all Hdate.
  assert (Hd : String.eqb date "" = false) by now apply String.eqb_neq.
  assert (Hstep : VDB.userHasBookingForSlot (u_username u) (loc_id loc) date (slot_id ts)
                    all = true ->
                  VDB.confirmBooking (Some loc) (Some date) (Some ts) (Some u) id now all
                  = (VDB.AlreadyBooked, all)).
  { intros Hhas. unfold VDB.confirmBooking. now rewrite Hd, Hhas. }
  split; [exact Hstep|]. split; [|split].
  - intros all' id' now'. unfold VDB.confirmBooking. rewrite Hd.
    destruct (VDB.userHasBookingForSlot _ _ _ _ all) eqn:Hhas; [discriminate|].
    destruct (JS.lengthGe _ _) eqn:Hfull; [discriminate|].
    intros Heq. injection Heq as <-. now rewrite userHas_added.
  - intros drawn Hhas. unfold VDB.bookInLocationModal. rewrite Hhas.
    destruct (JS.lengthGe _ _); cbn [fst snd]; split; trivial; discriminate.
  - intros drawn Hall Hdrawn Hroom. split; [|split].
    + unfold VDB.bookInLocationModal. now rewrite Hroom, Hdrawn.
    + rewrite List.filter_app, length_app. cbn [List.filter].
      rewrite sameUserSlot_newBooking. cbn [length].
      pose proof (filter_length_existsb _ _ Hall). lia.
    + now apply Hstep.
Qed.

(** The dialog of Pritil Exit is drawn while nothing is stored; the
    volunteer then books the 6-8am slot in the step-by-step flow and
    clicks "Book" on the card of the dialog. *)
Lemma duplicate_booking_rejected_witness :
  VDB.bookInLocationModal (Some Demo.volunteerUser) Demo.pritilExit "2025-01-10"
    Demo.slot_6_8am "bk-2" 2 []
    [VDB.newBooking "bk-1" Demo.volunteerUser Demo.pritilExit "2025-01-10"
                    Demo.slot_6_8am 1]
  = (VDB.Booked,
     [VDB.newBooking "bk-1" Demo.volunteerUser Demo.pritilExit "2025-01-10"
                     Demo.slot_6_8am 1]
     ++ [VDB.newBooking "bk-2" Demo.volunteerUser Demo.pritilExit "2025-01-10"
                        Demo.slot_6_8am 2])
  /\ VDB.confirmBooking (Some Demo.pritilExit) (Some "2025-01-10") (Some Demo.slot_6_8am)
       (Some Demo.volunteerUser) "bk-2" 2
       [VDB.newBooking "bk-1" Demo.volunteerUser Demo.pritilExit "2025-01-10"
                       Demo.slot_6_8am 1]
     = (VDB.AlreadyBooked,
        [VDB.newBooking "bk-1" Demo.volunteerUser Demo.pritilExit "2025-01-10"
                        Demo.slot_6_8am 1]).
Proof.
  pose proof (proj2 (proj2 (proj2
    (duplicate_booking_rejected Demo.pritilExit "2025-01-10" Demo.slot_6_8am
       Demo.volunteerUser "bk-2" 2
       [VDB.newBooking "bk-1" Demo.volunteerUser Demo.pritilExit "2025-01-10"
                       Demo.slot_6_8am 1]
       ltac:(discriminate)))) [] eq_refl eq_refl eq_refl) as H.
  split; apply H.
Defined.

(** ** C2: what a volunteer's cancellation does to the booking set *)

(** C2, as the specification states it, fails: after a cancellation
    that succeeded the record is gone and nothing carries the status
    "cancelled".  A volunteer books the 2-4pm slot and cancels at
    13:25; the booking set is empty afterwards. *)
Lemma cancel_keeps_record_counterexample :
  VDB.cancelInLocationModal Demo.midnight0 Demo.setHoursPlain Demo.volunteerUser
    Demo.pritilExit
    "2025-01-10" Demo.slot_2_4pm (Demo.atClock 13 25)
    [VDB.newBooking "bk-1" Demo.volunteerUser Demo.pritilExit "2025-01-10"
                    Demo.slot_2_4pm 0]
  = (VDB.Cancelled, []).
Proof. reflexivity. Qed.

(** C2, amended.  A cancellation by the volunteer that succeeds, from
    the location dialog or from "My Assignments", deletes the booking:
    the new booking set is the old one without the records of that id,
    which is what the admin's Remove computes; the records that stay
    are those of the old set with another id. *)
Theorem cancel_is_hard_delete :
  forall (parseDateStr : string -> option Z) (setHours : Z -> Z -> option Z),
    (forall user loc date ts now all all',
        VDB.cancelInLocationModal parseDateStr setHours user loc date ts now all
        = (VDB.Cancelled, all') ->
        exists b,
          In b all
          /\ VDB.sameUserSlot (u_username user) (loc_id loc) date (slot_id ts) b = true
          /\ all' = AdminReports.removeBookingById (b_id b) all
          /\ (forall x, In x all' <-> In x all /\ b_id x <> b_id b))
    /\ (forall locationSlots booking now all all',
          VDB.cancelInMyAssignments parseDateStr setHours locationSlots booking now all
          = (VDB.Cancelled, all') ->
          all' = AdminReports.removeBookingById (b_id booking) all
          /\ (forall x, In x all' <-> In x all /\ b_id x <> b_id booking)).
Proof.
  intros parseDateStr setHours. split.
  - intros user loc date ts now all all'. unfold VDB.cancelInLocationModal.
    destruct (List.find _ all) as [b|] eqn:Hfind; [|discriminate].
    destruct (VDB.tooLate _ _); [discriminate|].
    intros Heq. injection Heq as <-.
    apply List.find_some in Hfind as [Hin Hsame].
    exists b. split; [trivial|]. split; [trivial|]. split; [reflexivity|].
    intros x. apply removeById_In.
  - intros locationSlots booking now all all'. unfold VDB.cancelInMyAssignments.
    destruct (VDB.tooLate _ _); [discriminate|].
    intros Heq. injection Heq as <-.
    split; [reflexivity|]. intros x. apply removeById_In.
Qed.

Lemma cancel_is_hard_delete_witness :
  [] = AdminReports.removeBookingById "bk-1"
         [VDB.newBooking "bk-1" Demo.volunteerUser Demo.pritilExit "2025-01-10"
                         Demo.slot_2_4pm 0].
Proof.
  apply (proj2 (cancel_is_hard_delete Demo.midnight0 Demo.setHoursPlain)
               [Demo.slot_2_4pm]
               (VDB.newBooking "bk-1" Demo.volunteerUser Demo.pritilExit "2025-01-10"
                               Demo.slot_2_4pm 0)
               (Demo.atClock 13 25)).
  reflexivity.
Defined.

(** ** C3: the thirty-minute rule *)

(** Splits on the comparison a handler makes and turns it into the
    inequality it decides. *)
Ltac case_ltb :=
  match goal with
  | |- context [?a <? ?b] =>
      let E := fresh "E" in
      destruct (a <? b) eqn:E; [apply Z.ltb_lt in E | apply Z.ltb_ge in E]
  end.

(** What the two cancel handlers do once the start of the slot is
    known to be a date. *)
Lemma cancel_dialog_at (parseDateStr : string -> option Z) (setHours : Z -> Z -> option Z)
      (user : User) (loc : Location) (date : string) (ts : Slot) (now : Z)
      (all : list Booking) (b : Booking) (midnight start : Z) :
  List.find (VDB.sameUserSlot (u_username user) (loc_id loc) date (slot_id ts)) all
  = Some b ->
  parseDateStr date = Some midnight ->
  setHours midnight (slot_startHour ts) = Some start ->
  VDB.cancelInLocationModal parseDateStr setHours user loc date ts now all
  = if start - now <? 30 * 60 * 1000 then (VDB.TooLateToCancel, all)
    else (VDB.Cancelled, VDB.removeBookingById (b_id b) all).
Proof.
  intros Hfind Hdate Hstart.
  unfold VDB.cancelInLocationModal, VDB.slotStartDateTime.
  now rewrite Hfind, Hdate, Hstart.
Qed.

Lemma cancel_mine_at (parseDateStr : string -> option Z) (setHours : Z -> Z -> option Z)
      (locationSlots : list Slot) (booking : Booking) (now : Z) (all : list Booking)
      (midnight start : Z) :
  parseDateStr (b_date booking) = Some midnight ->
  setHours midnight
    (match List.find (fun s => JS.eqStr (b_slotId booking) (slot_id s)) locationSlots with
     | Some s => slot_startHour s
     | None => 0
     end) = Some start ->
  VDB.cancelInMyAssignments parseDateStr setHours locationSlots booking now all
  = if start - now <? 30 * 60 * 1000 then (VDB.TooLateToCancel, all)
    else (VDB.Cancelled, VDB.removeBookingById (b_id booking) all).
Proof.
  intros Hdate Hstart.
  unfold VDB.cancelInMyAssignments, VDB.slotStartDateTime, VDB.assignmentStartHour.
  now rewrite Hdate, Hstart.
Qed.

(** C3.  The start of a slot is [startHour] o'clock local time of the
    booking's date, as [Date.setHours] gives it on local midnight of
    that date; the hour is that of the card's slot for the button of
    the location dialog and, for the button of "My Assignments", that
    of the first catalog slot with the booking's slot id (0 o'clock
    when the catalog has none).  Whenever that start is a date, on a
    day with a clock change or without, the cancellation goes through
    exactly when the start is at least thirty minutes (1 800 000 ms)
    after the click and is refused as too late otherwise: a click 25
    minutes before the start is refused and a click 35 minutes before
    it cancels, and where 14 o'clock is fourteen hours after local
    midnight these are the clicks at 13:35 and 13:25.  When the start
    is an Invalid Date (an hour so far out of range that the date
    leaves the range of [Date]) the claim fails: the button of the
    location dialog cancels at any moment. *)
Theorem cancellation_window :
  forall (parseDateStr : string -> option Z) (setHours : Z -> Z -> option Z),
    (forall user loc date ts now all b midnight start,
        List.find (VDB.sameUserSlot (u_username user) (loc_id loc) date (slot_id ts)) all
        = Some b ->
        parseDateStr date = Some midnight ->
        setHours midnight (slot_startHour ts) = Some start ->
        (VDB.cancelInLocationModal parseDateStr setHours user loc date ts now all
         = (VDB.Cancelled, VDB.removeBookingById (b_id b) all)
         <-> start - now >= 30 * 60 * 1000)
        /\ (VDB.cancelInLocationModal parseDateStr setHours user loc date ts now all
            = (VDB.TooLateToCancel, all)
            <-> start - now < 30 * 60 * 1000)
        /\ VDB.cancelInLocationModal parseDateStr setHours user loc date ts
             (start - 25 * 60 * 1000) all
           = (VDB.TooLateToCancel, all)
        /\ VDB.cancelInLocationModal parseDateStr setHours user loc date ts
             (start - 35 * 60 * 1000) all
           = (VDB.Cancelled, VDB.removeBookingById (b_id b) all))
    /\ (forall locationSlots booking now all midnight start,
          parseDateStr (b_date booking) = Some midnight ->
          setHours midnight
            (match List.find (fun s => JS.eqStr (b_slotId booking) (slot_id s))
                             locationSlots with
             | Some s => slot_startHour s
             | None => 0
             end) = Some start ->
          (VDB.cancelInMyAssignments parseDateStr setHours locationSlots booking now all
           = (VDB.Cancelled, VDB.removeBookingById (b_id booking) all)
           <-> start - now >= 30 * 60 * 1000)
          /\ (VDB.cancelInMyAssignments parseDateStr setHours locationSlots booking now all
              = (VDB.TooLateToCancel, all)
              <-> start - now < 30 * 60 * 1000)
          /\ VDB.cancelInMyAssignments parseDateStr setHours locationSlots booking
               (start - 25 * 60 * 1000) all
             = (VDB.TooLateToCancel, all)
          /\ VDB.cancelInMyAssignments parseDateStr setHours locationSlots booking
               (start - 35 * 60 * 1000) all
             = (VDB.Cancelled, VDB.removeBookingById (b_id booking) all))
    /\ (forall user loc date ts all b midnight,
          slot_startHour ts = 14 ->
          List.find (VDB.sameUserSlot (u_username user) (loc_id loc) date (slot_id ts)) all
          = Some b ->
          parseDateStr date = Some midnight ->
          setHours midnight 14 = Some (midnight + 14 * (60 * 60 * 1000)) ->
          VDB.cancelInLocationModal parseDateStr setHours user loc date ts
            (midnight + (13 * 60 + 35) * 60 * 1000) all
          = (VDB.TooLateToCancel, all)
          /\ VDB.cancelInLocationModal parseDateStr setHours user loc date ts
               (midnight + (13 * 60 + 25) * 60 * 1000) all
             = (VDB.Cancelled, VDB.removeBookingById (b_id b) all))
    /\ (forall user loc date ts now all b,
          List.find (VDB.sameUserSlot (u_username user) (loc_id loc) date (slot_id ts)) all
          = Some b ->
          match parseDateStr date with
          | Some midnight => setHours midnight (slot_startHour ts) = None
          | None => True
          end ->
          VDB.cancelInLocationModal parseDateStr setHours user loc date ts now all
          = (VDB.Cancelled, VDB.removeBookingById (b_id b) all)).
Proof.
  intros parseDateStr setHours. split; [|split; [|split]].
  - intros user loc date ts now all b midnight start Hfind Hdate Hstart.
    rewrite !(cancel_dialog_at _ _ _ _ _ _ _ _ _ _ _ Hfind Hdate Hstart).
    repeat split; try case_ltb; try case_ltb; try congruence; try discriminate; lia.
  - intros locationSlots booking now all midnight start Hdate Hstart.
    rewrite !(cancel_mine_at _ _ _ _ _ _ _ _ Hdate Hstart).
    repeat split; try case_ltb; try case_ltb; try congruence; try discriminate; lia.
  - intros user loc date ts all b midnight H14 Hfind Hdate Hstart.
    rewrite <- H14 in Hstart.
    rewrite !(cancel_dialog_at _ _ _ _ _ _ _ _ _ _ _ Hfind Hdate Hstart).
    split; case_ltb; trivial; lia.
  - intros user loc date ts now all b Hfind Hbad.
    unfold VDB.cancelInLocationModal, VDB.slotStartDateTime. rewrite Hfind.
    destruct (parseDateStr date) as [midnight|]; [rewrite Hbad|]; reflexivity.
Qed.

(** On the day the clocks go forward, 14 o'clock is thirteen hours
    after local midnight: cancelling the 2-4pm slot twelve hours and
    thirty-five minutes after midnight, 25 minutes before the start,
    is refused.  For the slot that starts at hour 10 000 000 000,
    which the slot editor accepts, the start is an Invalid Date and
    the cancellation goes through at any moment. *)
Lemma cancellation_window_witness :
  VDB.cancelInLocationModal Demo.midnight0 Demo.setHoursSpringForward
    Demo.volunteerUser Demo.pritilExit "2025-03-09" Demo.slot_2_4pm
    (13 * VDB.HOUR_MS - 25 * 60 * 1000)
    [VDB.newBooking "bk-1" Demo.volunteerUser Demo.pritilExit "2025-03-09"
                    Demo.slot_2_4pm 0]
  = (VDB.TooLateToCancel,
     [VDB.newBooking "bk-1" Demo.volunteerUser Demo.pritilExit "2025-03-09"
                     Demo.slot_2_4pm 0])
  /\ AdminSchedules.editorAccepts Demo.farSlot = true
  /\ VDB.cancelInLocationModal Demo.midnight0 Demo.setHoursPlain
       Demo.volunteerUser Demo.pritilExit "2025-01-10" Demo.farSlot
       (Demo.atClock 13 35)
       [VDB.newBooking "bk-1" Demo.volunteerUser Demo.pritilExit "2025-01-10"
                       Demo.farSlot 0]
     = (VDB.Cancelled,
        VDB.removeBookingById "bk-1"
          [VDB.newBooking "bk-1" Demo.volunteerUser Demo.pritilExit "2025-01-10"
                          Demo.farSlot 0]).
Proof.
  split; [|split; [reflexivity|]].
  - apply (proj1 (cancellation_window Demo.midnight0 Demo.setHoursSpringForward)
                 Demo.volunteerUser Demo.pritilExit "2025-03-09" Demo.slot_2_4pm
                 0
                 [VDB.newBooking "bk-1" Demo.volunteerUser Demo.pritilExit "2025-03-09"
                                 Demo.slot_2_4pm 0]
                 (VDB.newBooking "bk-1" Demo.volunteerUser Demo.pritilExit "2025-03-09"
                                 Demo.slot_2_4pm 0)
                 0 (13 * VDB.HOUR_MS) eq_refl eq_refl eq_refl).
  - apply (proj2 (proj2 (proj2
             (cancellation_window Demo.midnight0 Demo.setHoursPlain)))
             Demo.volunteerUser Demo.pritilExit "2025-01-10" Demo.farSlot
             (Demo.atClock 13 35)
             [VDB.newBooking "bk-1" Demo.volunteerUser Demo.pritilExit "2025-01-10"
                             Demo.farSlot 0]
             (VDB.newBooking "bk-1" Demo.volunteerUser Demo.pritilExit "2025-01-10"
                             Demo.farSlot 0)
             eq_refl eq_refl).
Defined.

(** ** C1: capacity of a cell *)




(** Adding a booking raises the count of its own cell by one and of
    no other cell. *)
Lemma countAt_add (l d s : string) (b : Booking) (all : list Booking) :
  Engine.countAt l d s (VDB.addBooking b all)
  = Engine.countAt l d s all
    + (if (String.eqb (b_locationId b) l && String.eqb (b_date b) d
           && JS.eqStr (b_slotId b) s)%bool then 1 else 0).
Proof.
  unfold Engine.countAt. rewrite getBookingsFor_add, length_app, Nat2Z.inj_add.
  f_equal. unfold VDB.getBookingsFor. simpl.
  now destruct (_ && _ && _)%bool.
Qed.


(** The grid itself hands [makeBooking] the entry of its [slotMap],
    which has no id: an assignment made through the grid carries no
    [slotId] and is counted in no cell. *)
Lemma grid_assignment_in_no_cell (getSlots : string -> list Slot) (id : string) (now : Z)
      (vol : Volunteer) (location : Location) (column : Slot) (dateStr : string)
      (all : list Booking) (l d s : string) :
  b_slotId (AdminAssignments.makeBooking id now vol location
              (AdminAssignments.slotMapEntry column) dateStr) = None
  /\ Engine.countAt l d s
       (snd (AdminAssignments.assignFromGrid getSlots true id now vol location column
                                             dateStr all))
     = Engine.countAt l d s all.
Proof.
  split; [reflexivity|].
  unfold AdminAssignments.assignFromGrid, AdminAssignments.assignOnDrop.
  assert (Hadd : Engine.countAt l d s
                   (AdminAssignments.addAssignment
                      (AdminAssignments.makeBooking id now vol location
                         (AdminAssignments.slotMapEntry column) dateStr) all)
                 = Engine.countAt l d s all).
  { change (AdminAssignments.addAssignment ?b all) with (VDB.addBooking b all).
    rewrite countAt_add. simpl. rewrite Bool.andb_false_r. lia. }
  destruct (AdminAssignments.detectConflictFor _ _ _ _ _); simpl; exact Hadd.
Qed.

(** The test [assigned.length >= capacity] fails exactly when the
    bookings counted are fewer than the capacity. *)
Lemma lengthGe_false {A : Type} (l : list A) (capacity : Q) :
  JS.lengthGe l capacity = false <-> (inject_Z (Z.of_nat (length l)) < capacity)%Q.
Proof.
  unfold JS.lengthGe. split; intros H.
  - apply Qnot_le_lt. intros Hle. apply Qle_bool_iff in Hle. congruence.
  - destruct (Qle_bool _ _) eqn:E; trivial.
    apply Qle_bool_iff in E. apply Qlt_not_le in H. contradiction.
Qed.









(** What the amended claim leaves out.  A "Book" click on a card of
    the dialog that was drawn before another volunteer booked the
    slot adds a second booking to a cell of capacity 1; and with a
    capacity of 1.5, which the location form accepts, the dashboard
    books two volunteers into a cell. *)
Lemma stale_card_overbooks :
  Engine.run Demo.midnight0 Demo.setHoursPlain Demo.DEMO_LOCATIONS
    [Engine.BookSlot Demo.volunteerUser "pritil-exit" "2025-01-10" Demo.slot_6_8am "bk-1" 1;
     Engine.BookInModal (mkUser "maria" None None) "pritil-exit" "2025-01-10"
                        Demo.slot_6_8am "bk-2" 2 []] []
  = Some [VDB.newBooking "bk-1" Demo.volunteerUser Demo.pritilExit "2025-01-10"
                         Demo.slot_6_8am 1;
          VDB.newBooking "bk-2" (mkUser "maria" None None) Demo.pritilExit "2025-01-10"
                         Demo.slot_6_8am 2]
  /\ Engine.cardsCurrent Demo.midnight0 Demo.setHoursPlain Demo.DEMO_LOCATIONS
       [Engine.BookSlot Demo.volunteerUser "pritil-exit" "2025-01-10" Demo.slot_6_8am
                        "bk-1" 1;
        Engine.BookInModal (mkUser "maria" None None) "pritil-exit" "2025-01-10"
                           Demo.slot_6_8am "bk-2" 2 []] [] = false.
Proof. split; reflexivity. Qed.

Lemma fractional_capacity_overbooked :
  Engine.run Demo.midnight0 Demo.setHoursPlain
    [mkLocation "hall" "Hall" "" (3 # 2)]
    [Engine.BookSlot Demo.volunteerUser "hall" "2025-01-10" Demo.slot_6_8am "bk-1" 1;
     Engine.BookSlot (mkUser "maria" None None) "hall" "2025-01-10" Demo.slot_6_8am
                     "bk-2" 2] []
  = Some [VDB.newBooking "bk-1" Demo.volunteerUser
                         (mkLocation "hall" "Hall" "" (3 # 2)) "2025-01-10"
                         Demo.slot_6_8am 1;
          VDB.newBooking "bk-2" (mkUser "maria" None None)
                         (mkLocation "hall" "Hall" "" (3 # 2)) "2025-01-10"
                         Demo.slot_6_8am 2].
Proof. reflexivity. Qed.

(** ** C4: the conflict check returns the first overlap *)

Lemma firstOverlap_none (getSlots : string -> list Slot) (newSlot : SlotObj)
      (existing : list Booking) :
  AdminAssignments.firstOverlap getSlots (AdminAssignments.slotRange newSlot) existing
  = AdminAssignments.NoConflict
  <-> forall x, In x existing -> overlapsBooking getSlots newSlot x = false.
Proof.
  induction existing as [|x rest IH]; simpl.
  - split; trivial. intros _ x [].
  - change (AdminAssignments.rangesOverlap _ _ _ _)
      with (overlapsBooking getSlots newSlot x).
    destruct (overlapsBooking getSlots newSlot x) eqn:Hx.
    + split; [discriminate|]. intros H.
      rewrite (H x (or_introl eq_refl)) in Hx. discriminate.
    + rewrite IH. split.
      * intros H y [<-|Hy]; auto.
      * intros H y Hy. apply H. now right.
Qed.

(** C4, as the specification states it, fails.  Maria's demo
    booking stores the hours 6 and 8 and is matched by her volunteer
    id on 2025-01-10, and the ranges 6-8 and 7-9 overlap; but the slot
    "6-8am" of its location has been moved to 10-12 in the slot
    editor, and the conflict check compares the candidate 7-9 with the
    hours of that catalog slot: it reports no conflict, and the drop
    assigns without a warning. *)
Lemma conflict_missed_counterexample :
  b_startHour (Demo.demoBooking "2025-01-10") = Some 6
  /\ b_endHour (Demo.demoBooking "2025-01-10") = Some 8
  /\ b_date (Demo.demoBooking "2025-01-10") = "2025-01-10"
  /\ b_volunteerId (Demo.demoBooking "2025-01-10") = Some "vol-maria"
  /\ (7 < 8 /\ 6 < 9)
  /\ AdminAssignments.detectConflictFor Demo.catalog1 (Some "vol-maria") "2025-01-10"
       Demo.slot_7_9 [Demo.demoBooking "2025-01-10"]
     = AdminAssignments.NoConflict
  /\ AdminAssignments.assignOnDrop Demo.catalog1 false "bk-2" 5 Demo.maria
       Demo.angonoPlaza Demo.slot_7_9 "2025-01-10" [Demo.demoBooking "2025-01-10"]
     = (AdminAssignments.Assigned,
        [Demo.demoBooking "2025-01-10";
         AdminAssignments.makeBooking "bk-2" 5 Demo.maria Demo.angonoPlaza
                                      Demo.slot_7_9 "2025-01-10"]).
Proof. repeat split; vm_compute; reflexivity. Qed.

(** One test of the identity heuristics: the field is there, not
    empty, and equal to the identifier, case apart. *)
Lemma lower_check_iff (o : option string) (v : string) :
  (JS.truthy o && String.eqb (JS.toLowerCase (JS.orStr o "")) (JS.toLowerCase v))%bool
  = true
  <-> exists n, o = Some n /\ n <> "" /\ JS.toLowerCase n = JS.toLowerCase v.
Proof.
  destruct o as [n|]; cbn [JS.truthy].
  - rewrite orStr_some_empty, Bool.andb_true_iff, Bool.negb_true_iff,
      String.eqb_neq, String.eqb_eq.
    split.
    + intros [Hn Hl]. now exists n.
    + intros (m & Hm & Hn & Hl). injection Hm as ->. now split.
  - cbn [andb]. split; [discriminate|]. intros (n & Hn & _). discriminate.
Qed.

Lemma id_check_iff (o : option string) (v : string) :
  v <> "" ->
  (JS.truthy o && JS.eqOpt o (Some v))%bool = true <-> o = Some v.
Proof.
  intros Hv. destruct o as [w|]; cbn [JS.truthy JS.eqOpt].
  - rewrite Bool.andb_true_iff, Bool.negb_true_iff, String.eqb_neq, String.eqb_eq.
    split.
    + intros [_ ->]. reflexivity.
    + intros Hw. injection Hw as ->. now split.
  - cbn [andb]. split; discriminate.
Qed.

(** The filter of the conflict check keeps the bookings of the date
    that count as the volunteer's. *)
Lemma isAssignmentOf_iff (vol : option string) (date : string) (x : Booking) :
  AdminAssignments.isAssignmentOf vol date x = true
  <-> b_date x = date /\ spec_sameVolunteer vol x.
Proof.
  unfold AdminAssignments.isAssignmentOf, spec_sameVolunteer.
  destruct (String.eqb_spec (b_date x) date) as [Hd|Hd]; cbn [negb].
  2: { split; [discriminate|]. intros [H _]. contradiction. }
  destruct vol as [v|]; cbn [JS.truthy].
  2: { cbn [negb]. split; [discriminate|]. intros (_ & v & Hv & _). discriminate. }
  destruct (String.eqb_spec v "") as [Hv|Hv]; cbn [negb].
  { split; [discriminate|]. intros (_ & w & Hw & Hne & _).
    injection Hw as <-. contradiction. }
  rewrite (orStr_some v "" Hv).
  pose proof (lower_check_iff (b_username x) v) as Hu.
  pose proof (lower_check_iff (b_displayName x) v) as Hn.
  pose proof (id_check_iff (b_volunteerId x) v Hv) as Hi.
  destruct (JS.truthy (b_username x)
            && String.eqb (JS.toLowerCase (JS.orStr (b_username x) ""))
                          (JS.toLowerCase v))%bool.
  { split; [|reflexivity]. intros _. split; trivial.
    exists v. repeat split; trivial. left. now apply Hu. }
  destruct (JS.truthy (b_displayName x)
            && String.eqb (JS.toLowerCase (JS.orStr (b_displayName x) ""))
                          (JS.toLowerCase v))%bool.
  { split; [|reflexivity]. intros _. split; trivial.
    exists v. repeat split; trivial. right; left. now apply Hn. }
  destruct (JS.truthy (b_volunteerId x) && JS.eqOpt (b_volunteerId x) (Some v))%bool.
  { split; [|reflexivity]. intros _. split; trivial.
    exists v. repeat split; trivial. right; right. now apply Hi. }
  split; [discriminate|].
  intros (_ & w & Hw & _ & [H|[H|H]]); injection Hw as <-.
  - apply Hu in H. discriminate.
  - apply Hn in H. discriminate.
  - apply Hi in H. discriminate.
Qed.

Lemma overlapsBooking_iff (getSlots : string -> list Slot) (candidate : SlotObj)
      (x : Booking) :
  overlapsBooking getSlots candidate x = true
  <-> JS.numOr0 (so_startHour candidate) < snd (spec_hoursOf getSlots x)
      /\ fst (spec_hoursOf getSlots x) < JS.numOr0 (so_endHour candidate).
Proof.
  unfold overlapsBooking, AdminAssignments.slotObjOf, spec_hoursOf,
    AdminAssignments.rangesOverlap.
  destruct (List.find _ _) as [s|];
    cbn [AdminAssignments.slotRange objOfSlot so_startHour so_endHour JS.numOr0 fst snd];
    now rewrite Bool.andb_true_iff, !Z.ltb_lt.
Qed.

Lemma spec_conflicts_iff (getSlots : string -> list Slot) (vol : option string)
      (date : string) (candidate : SlotObj) (x : Booking) :
  (AdminAssignments.isAssignmentOf vol date x
   && overlapsBooking getSlots candidate x)%bool = true
  <-> spec_conflicts getSlots vol date candidate x.
Proof.
  unfold spec_conflicts.
  rewrite Bool.andb_true_iff, isAssignmentOf_iff, overlapsBooking_iff. tauto.
Qed.

(** The check goes through the stored bookings in their order and
    stops at the first that conflicts. *)
Lemma detectConflictFor_cons (getSlots : string -> list Slot) (vol : option string)
      (date : string) (candidate : SlotObj) (x : Booking) (rest : list Booking) :
  AdminAssignments.detectConflictFor getSlots vol date candidate (x :: rest)
  = if (AdminAssignments.isAssignmentOf vol date x
        && overlapsBooking getSlots candidate x)%bool
    then AdminAssignments.ConflictWith x (AdminAssignments.slotObjOf getSlots x)
    else AdminAssignments.detectConflictFor getSlots vol date candidate rest.
Proof.
  unfold AdminAssignments.detectConflictFor,
    AdminAssignments.getAssignmentsForVolunteerOnDate.
  cbn [List.filter].
  destruct (AdminAssignments.isAssignmentOf vol date x); reflexivity.
Qed.

Lemma detectConflictFor_found (getSlots : string -> list Slot) (vol : option string)
      (date : string) (candidate : SlotObj) (all : list Booking)
      (b : Booking) (s : SlotObj) :
  AdminAssignments.detectConflictFor getSlots vol date candidate all
  = AdminAssignments.ConflictWith b s
  <-> exists pre post,
      all = pre ++ b :: post
      /\ spec_conflicts getSlots vol date candidate b
      /\ (forall x, In x pre -> ~ spec_conflicts getSlots vol date candidate x)
      /\ s = AdminAssignments.slotObjOf getSlots b.
Proof.
  induction all as [|x rest IH].
  - split; [discriminate|]. intros (pre & post & H & _). now destruct pre.
  - rewrite detectConflictFor_cons.
    pose proof (spec_conflicts_iff getSlots vol date candidate x) as Hx.
    destruct (AdminAssignments.isAssignmentOf vol date x
              && overlapsBooking getSlots candidate x)%bool.
    + split.
      * intros H. injection H as <- <-. exists [], rest.
        split; [reflexivity|]. split; [now apply Hx|].
        split; [intros y []|reflexivity].
      * intros (pre & post & Heq & Hb & Hpre & ->).
        destruct pre as [|y pre]; cbn [app] in Heq; injection Heq as Hhead Hrest.
        -- now subst b.
        -- subst y. exfalso. apply (Hpre x (or_introl eq_refl)). now apply Hx.
    + rewrite IH. split.
      * intros (pre & post & -> & Hb & Hpre & ->).
        exists (x :: pre), post.
        split; [reflexivity|]. split; [exact Hb|]. split; [|reflexivity].
        intros y [<-|Hy]; [|now apply Hpre].
        intros Hc. apply Hx in Hc. discriminate.
      * intros (pre & post & Heq & Hb & Hpre & ->).
        destruct pre as [|y pre]; cbn [app] in Heq; injection Heq as Hhead Hrest.
        -- subst b. apply Hx in Hb. discriminate.
        -- exists pre, post.
           split; [exact Hrest|]. split; [exact Hb|]. split; [|reflexivity].
           intros z Hz. apply Hpre. now right.
Qed.

Lemma detectConflictFor_none (getSlots : string -> list Slot) (vol : option string)
      (date : string) (candidate : SlotObj) (all : list Booking) :
  AdminAssignments.detectConflictFor getSlots vol date candidate all
  = AdminAssignments.NoConflict
  <-> forall x, In x all -> ~ spec_conflicts getSlots vol date candidate x.
Proof.
  induction all as [|x rest IH].
  - split; trivial. intros _ x [].
  - rewrite detectConflictFor_cons.
    pose proof (spec_conflicts_iff getSlots vol date candidate x) as Hx.
    destruct (AdminAssignments.isAssignmentOf vol date x
              && overlapsBooking getSlots candidate x)%bool.
    + split; [discriminate|]. intros H. exfalso.
      apply (H x (or_introl eq_refl)). now apply Hx.
    + rewrite IH. split.
      * intros H y [<-|Hy]; [|now apply H].
        intros Hc. apply Hx in Hc. discriminate.
      * intros H y Hy. apply H. now right.
Qed.

(** C4, amended.  The conflict check reports a stored booking [b]
    exactly when [b] is the first, in the order of the persisted
    array, that is of the same date, counts as the volunteer's (the
    identifier is not empty and equals, case apart, the booking's user
    name or display name, or equals its volunteer id) and whose hours
    overlap the candidate's, each range starting before the other
    ends; it reports no conflict exactly when no stored booking is
    such.  The hours of a stored booking are those of the slot with
    its slot id in the catalog of its location, and the hours stored
    on it only when the catalog has no such slot.  The ranges 6-8 and
    7-9 overlap: with Maria booked 6-8 at Taytay Market on 2025-01-10
    and the catalog unchanged, a 7-9 slot that day is reported against
    that booking; a drop on that cell then warns, and adds the booking
    once "Assign anyway" is pressed. *)
Theorem conflict_is_first_overlap :
  forall (getSlots : string -> list Slot) (vol : option string) (date : string)
         (newSlot : SlotObj) (all : list Booking),
    (forall b s,
        AdminAssignments.detectConflictFor getSlots vol date newSlot all
        = AdminAssignments.ConflictWith b s
        <-> exists pre post,
            all = pre ++ b :: post
            /\ spec_conflicts getSlots vol date newSlot b
            /\ (forall x, In x pre -> ~ spec_conflicts getSlots vol date newSlot x)
            /\ s = match List.find (fun c => JS.eqOpt (Some (slot_id c)) (b_slotId b))
                                   (getSlots (b_locationId b)) with
                   | Some c => objOfSlot c
                   | None => mkSlotObj None None
                                       (Some (JS.numOr0 (b_startHour b)))
                                       (Some (JS.numOr0 (b_endHour b))) None None
                   end)
    /\ (AdminAssignments.detectConflictFor getSlots vol date newSlot all
        = AdminAssignments.NoConflict
        <-> forall x, In x all -> ~ spec_conflicts getSlots vol date newSlot x)
    /\ (forall aStart aEnd bStart bEnd,
          AdminAssignments.rangesOverlap aStart aEnd bStart bEnd = true
          <-> aStart < bEnd /\ bStart < aEnd)
    /\ AdminAssignments.rangesOverlap 6 8 7 9 = true
    /\ AdminAssignments.rangesOverlap 7 9 6 8 = true
    /\ AdminAssignments.detectConflictFor Demo.catalog0 (Some "vol-maria") "2025-01-10"
         Demo.slot_7_9 [Demo.demoBooking "2025-01-10"]
       = AdminAssignments.ConflictWith (Demo.demoBooking "2025-01-10")
                                       (objOfSlot Demo.slot_6_8am)
    /\ AdminAssignments.assignOnDrop Demo.catalog0 false "bk-2" 5 Demo.maria
         Demo.angonoPlaza Demo.slot_7_9 "2025-01-10" [Demo.demoBooking "2025-01-10"]
       = (AdminAssignments.DoubleBookingWarning
            (AdminAssignments.ConflictWith (Demo.demoBooking "2025-01-10")
                                           (objOfSlot Demo.slot_6_8am)),
          [Demo.demoBooking "2025-01-10"])
    /\ AdminAssignments.assignOnDrop Demo.catalog0 true "bk-2" 5 Demo.maria
         Demo.angonoPlaza Demo.slot_7_9 "2025-01-10" [Demo.demoBooking "2025-01-10"]
       = (AdminAssignments.Assigned,
          [Demo.demoBooking "2025-01-10";
           AdminAssignments.makeBooking "bk-2" 5 Demo.maria Demo.angonoPlaza
                                        Demo.slot_7_9 "2025-01-10"]).
Proof.
  intros getSlots vol date newSlot all. split; [|split; [|split]].
  - intros b s. apply detectConflictFor_found.
  - apply detectConflictFor_none.
  - intros aStart aEnd bStart bEnd. unfold AdminAssignments.rangesOverlap.
    rewrite Bool.andb_true_iff, !Z.ltb_lt. reflexivity.
  - repeat split.
Qed.

Lemma conflict_is_first_overlap_witness :
  AdminAssignments.detectConflictFor Demo.catalog0 (Some "vol-maria") "2025-01-10"
    Demo.slot_7_9 [Demo.demoBooking "2025-01-10"]
  = AdminAssignments.ConflictWith (Demo.demoBooking "2025-01-10")
                                  (objOfSlot Demo.slot_6_8am).
Proof.
  apply (proj1 (conflict_is_first_overlap Demo.catalog0 (Some "vol-maria")
                  "2025-01-10" Demo.slot_7_9 [Demo.demoBooking "2025-01-10"])).
  exists [], []. split; [reflexivity|]. split.
  - split; [reflexivity|]. split.
    + exists "vol-maria". split; [reflexivity|]. split; [discriminate|].
      right; right. reflexivity.
    + split; vm_compute; reflexivity.
  - split; [intros x []|reflexivity].
Defined.

(** ** C5: the conflict check and the status of a booking *)

(** C5, as the specification states it, fails: the conflict check
    never reads the status.  Maria's booking of 6-8, marked "no-show"
    by the admin, is reported as a conflict for a 7-9 slot of the same
    day although it is not an active booking. *)
Lemma conflict_only_active_counterexample :
  AdminAssignments.detectConflictFor Demo.catalog0 (Some "vol-maria") "2025-01-10"
    Demo.slot_7_9 [Demo.mariaNoShow]
  = AdminAssignments.ConflictWith Demo.mariaNoShow (objOfSlot Demo.slot_6_8am)
  /\ b_status Demo.mariaNoShow = Some "no-show"
  /\ Engine.spec_isActive Demo.mariaNoShow = false.
Proof. repeat split. Qed.

Lemma isAssignmentOf_restatus (f : option string -> option string)
      (vol : option string) (date : string) (b : Booking) :
  AdminAssignments.isAssignmentOf vol date (restatus f b)
  = AdminAssignments.isAssignmentOf vol date b.
Proof. reflexivity. Qed.

Lemma firstOverlap_restatus (getSlots : string -> list Slot)
      (f : option string -> option string) (range : Z * Z) (existing : list Booking) :
  AdminAssignments.firstOverlap getSlots range (List.map (restatus f) existing)
  = match AdminAssignments.firstOverlap getSlots range existing with
    | AdminAssignments.NoConflict => AdminAssignments.NoConflict
    | AdminAssignments.ConflictWith b s => AdminAssignments.ConflictWith (restatus f b) s
    end.
Proof.
  induction existing as [|x rest IH]; simpl; trivial.
  change (AdminAssignments.slotObjOf getSlots (restatus f x))
    with (AdminAssignments.slotObjOf getSlots x).
  destruct (AdminAssignments.rangesOverlap _ _ _ _); trivial.
Qed.

(** C5, amended.  The conflict check considers every booking of the
    volunteer on the given date whatever its status: rewriting the
    statuses of the persisted bookings in any way leaves its answer
    the same, up to the status of the booking it reports.  A
    "cancelled" or "no-show" booking is reported like an "assigned"
    one. *)
Theorem conflict_ignores_status :
  forall (getSlots : string -> list Slot) (f : option string -> option string)
         (vol : option string) (date : string) (newSlot : SlotObj) (all : list Booking),
    AdminAssignments.detectConflictFor getSlots vol date newSlot
      (List.map (restatus f) all)
    = match AdminAssignments.detectConflictFor getSlots vol date newSlot all with
      | AdminAssignments.NoConflict => AdminAssignments.NoConflict
      | AdminAssignments.ConflictWith b s =>
          AdminAssignments.ConflictWith (restatus f b) s
      end.
Proof.
  intros getSlots f vol date newSlot all.
  unfold AdminAssignments.detectConflictFor, AdminAssignments.getAssignmentsForVolunteerOnDate.
  rewrite <- firstOverlap_restatus. f_equal.
  induction all as [|x rest IH]; simpl; trivial.
  rewrite isAssignmentOf_restatus.
  destruct (AdminAssignments.isAssignmentOf vol date x); simpl; now rewrite IH.
Qed.

(** ** C7: validation of slots *)





(** ** C8: the fallback to the global default slots *)

(** C8, as the specification states it, fails once a global slot has
    been added: [DEFAULT_SLOTS] then holds eight slots, and a location
    without stored slots gets all eight, the last one from 20 to 22. *)
Lemma default_slots_counterexample :
  storedSlots "pritil-exit" Demo.afterGlobalSlot = None
  /\ fst (AdminSchedules.getSlotsForLocation "pritil-exit" Demo.afterGlobalSlot)
     = AdminSchedules.DECLARED_DEFAULT_SLOTS ++ [mkSlot "night-g-1" "Night" 20 22 1 2]
  /\ length (fst (AdminSchedules.getSlotsForLocation "pritil-exit" Demo.afterGlobalSlot))
     = 8%nat
  /\ fst (AdminSchedules.getSlotsForLocation "pritil-exit"
            (AdminSchedules.resetToDefaults "pritil-exit" Demo.afterGlobalSlot))
     = AdminSchedules.DECLARED_DEFAULT_SLOTS ++ [mkSlot "night-g-1" "Night" 20 22 1 2].
Proof. repeat split; vm_compute; reflexivity. Qed.

Lemma map_clone (l : list Slot) : List.map AdminSchedules.clone l = l.
Proof. unfold AdminSchedules.clone. apply List.map_id. Qed.

Lemma getSlots_of_lookup (locationId : string) (st : AdminSchedules.State) :
  fst (AdminSchedules.getSlotsForLocation locationId st)
  = if String.eqb locationId "" then AdminSchedules.DEFAULT_SLOTS st
    else match storedSlots locationId st with
         | None | Some [] => AdminSchedules.DEFAULT_SLOTS st
         | Some custom => custom
         end.
Proof.
  unfold AdminSchedules.getSlotsForLocation, AdminSchedules.ensureData, storedSlots.
  destruct (AdminSchedules.stored st) as [m|]; simpl.
  - destruct (String.eqb locationId ""); simpl; [apply map_clone|].
    destruct (m !! locationId) as [[|s l]|]; simpl; rewrite ?map_clone; trivial.
  - destruct (String.eqb locationId ""); simpl; [apply map_clone|].
    rewrite lookup_empty. simpl. apply map_clone.
Qed.

(** Reading the catalog of a location leaves the global default set
    as it is: what is handed out is a copy. *)
Lemma getSlots_keeps_defaults (locationId : string) (st : AdminSchedules.State) :
  AdminSchedules.DEFAULT_SLOTS (snd (AdminSchedules.getSlotsForLocation locationId st))
  = AdminSchedules.DEFAULT_SLOTS st.
Proof.
  unfold AdminSchedules.getSlotsForLocation, AdminSchedules.ensureData.
  destruct (AdminSchedules.stored st) as [m|]; simpl.
  - destruct (String.eqb locationId ""); trivial.
    now destruct (m !! locationId) as [[|s l]|].
  - destruct (String.eqb locationId ""); trivial.
Qed.

Lemma storedSlots_reset (locId : string) (st : AdminSchedules.State) :
  storedSlots locId (AdminSchedules.resetToDefaults locId st)
  = Some (AdminSchedules.DEFAULT_SLOTS st)
  /\ AdminSchedules.DEFAULT_SLOTS (AdminSchedules.resetToDefaults locId st)
     = AdminSchedules.DEFAULT_SLOTS st.
Proof.
  unfold AdminSchedules.resetToDefaults, AdminSchedules.ensureData, storedSlots.
  destruct (AdminSchedules.stored st) as [m|]; simpl;
    rewrite lookup_insert_eq, map_clone; split; reflexivity.
Qed.

(** C8, amended.  For a location that has no stored slot list, or an
    empty one, [getSlotsForLocation] returns a copy of the current
    global default set, and it does so too right after "Reset to
    defaults" of that location, which stores that set for it.  When
    the script is loaded the global default set is the seven two-hour
    slots from 6 to 20 (6-8am to 6-8pm); "Add global slot" can extend
    it while the page is open.  Reading a catalog, or adding a slot to
    the list read, does not change the global default set. *)
Theorem getSlots_falls_back_to_defaults :
  forall (st : AdminSchedules.State) (locationId : string),
    (storedSlots locationId st = None \/ storedSlots locationId st = Some [] ->
     fst (AdminSchedules.getSlotsForLocation locationId st)
     = AdminSchedules.DEFAULT_SLOTS st)
    /\ fst (AdminSchedules.getSlotsForLocation locationId
              (AdminSchedules.resetToDefaults locationId st))
       = AdminSchedules.DEFAULT_SLOTS st
    /\ AdminSchedules.DEFAULT_SLOTS (snd (AdminSchedules.getSlotsForLocation locationId st))
       = AdminSchedules.DEFAULT_SLOTS st
    /\ (forall uid slot,
          AdminSchedules.DEFAULT_SLOTS
            (snd (AdminSchedules.addSlotToLocation uid locationId slot st))
          = AdminSchedules.DEFAULT_SLOTS st)
    /\ (forall newId label sH eH minV maxV,
          fst (AdminSchedules.addGlobalSlot newId label sH eH minV maxV st)
          = AdminSchedules.Saved ->
          AdminSchedules.DEFAULT_SLOTS
            (snd (AdminSchedules.addGlobalSlot newId label sH eH minV maxV st))
          = AdminSchedules.DEFAULT_SLOTS st
            ++ [AdminSchedules.normalizeSlot ""
                  (mkSlotObj (Some newId) (Some (JS.trim label)) (Some sH) (Some eH)
                             (Some minV) (Some maxV))])
    /\ AdminSchedules.DEFAULT_SLOTS AdminSchedules.initialState
       = AdminSchedules.DECLARED_DEFAULT_SLOTS
    /\ length AdminSchedules.DECLARED_DEFAULT_SLOTS = 7%nat
    /\ List.map (fun s => (slot_id s, slot_startHour s, slot_endHour s))
                AdminSchedules.DECLARED_DEFAULT_SLOTS
       = [("6-8am", 6, 8); ("8-10am", 8, 10); ("10-12pm", 10, 12); ("12-2pm", 12, 14);
          ("2-4pm", 14, 16); ("4-6pm", 16, 18); ("6-8pm", 18, 20)]
    /\ Forall (fun s => slot_endHour s = slot_startHour s + 2)
              AdminSchedules.DECLARED_DEFAULT_SLOTS.
Proof.
  intros st locationId. split; [|split; [|split; [|split; [|split]]]].
  - intros H. rewrite getSlots_of_lookup.
    destruct (String.eqb locationId ""); trivial.
    now destruct H as [-> | ->].
  - rewrite getSlots_of_lookup.
    destruct (storedSlots_reset locationId st) as [-> ->].
    destruct (String.eqb locationId ""); trivial.
    now destruct (AdminSchedules.DEFAULT_SLOTS st).
  - apply getSlots_keeps_defaults.
  - intros uid slot.
    unfold AdminSchedules.addSlotToLocation, AdminSchedules.ensureData.
    destruct (AdminSchedules.stored st) as [m|]; simpl.
    + destruct (m !! locationId); simpl; trivial.
      pose proof (getSlots_keeps_defaults locationId st) as H.
      destruct (AdminSchedules.getSlotsForLocation locationId st). simpl in *. exact H.
    + rewrite lookup_empty.
      pose proof (getSlots_keeps_defaults locationId
                    (AdminSchedules.save ∅ st)) as H.
      destruct (AdminSchedules.getSlotsForLocation locationId _). simpl in *. exact H.
  - intros newId label sH eH minV maxV. unfold AdminSchedules.addGlobalSlot.
    destruct (_ && _ && _ && _)%bool; simpl; [reflexivity|discriminate].
  - repeat split. repeat constructor.
Qed.

Lemma getSlots_falls_back_to_defaults_witness :
  fst (AdminSchedules.getSlotsForLocation "pritil-exit" AdminSchedules.initialState)
  = AdminSchedules.DEFAULT_SLOTS AdminSchedules.initialState.
Proof.
  apply (proj1 (getSlots_falls_back_to_defaults AdminSchedules.initialState "pritil-exit")).
  left. reflexivity.
Defined.

(** ** C9: how the hours of a booking are resolved *)

(** C9, as the specification states it, fails for the conflict check.
    Maria's demo booking stores the hours 6 and 8, and the slot
    "6-8am" of its location has been moved to 10-12: the report reads
    6-8 from the booking, the conflict check reads 10-12 from the
    catalog.  A booking without stored hours whose slot is not in
    the catalog has its label "9:00 AM - 11:00 AM" parsed to 9-11 by
    the report, while the conflict check reads 0-0. *)
Lemma resolution_order_counterexample :
  b_startHour (Demo.demoBooking "2025-01-10") = Some 6
  /\ b_endHour (Demo.demoBooking "2025-01-10") = Some 8
  /\ AdminReports.slotHoursFromBooking Demo.catalog1 (Demo.demoBooking "2025-01-10")
     = (6, 8)
  /\ AdminAssignments.slotRange
       (AdminAssignments.slotObjOf Demo.catalog1 (Demo.demoBooking "2025-01-10"))
     = (10, 12)
  /\ AdminReports.slotHoursFromBooking Demo.catalog0 Demo.legacyBooking = (9, 11)
  /\ AdminAssignments.slotRange (AdminAssignments.slotObjOf Demo.catalog0 Demo.legacyBooking)
     = (0, 0).
Proof. repeat split; vm_compute; reflexivity. Qed.

(** C9, amended.  For the service hours of a report the bounds of a
    booking are, in this order: the stored [startHour] and [endHour]
    when both are there; the hours of the slot of the location's
    catalog that has the booking's slot id; the hours the label
    pattern finds in the label (in the slot id when there is no
    label); the two numbers the id pattern finds in the slot id; and
    0-0.  The conflict check reads the catalog slot with the booking's
    slot id first and otherwise the stored hours, taking 0 for a
    missing one; it parses neither label nor id. *)
Theorem time_bounds_resolution :
  forall (getSlots : string -> list Slot) (b : Booking),
    let inCatalog :=
      List.find (fun s => JS.eqOpt (Some (slot_id s)) (b_slotId b))
                (getSlots (b_locationId b)) in
    let text := JS.orStr (b_slotLabel b) (JS.orStr (b_slotId b) "") in
    let idText := JS.orStr (b_slotId b) "" in
    (forall s e, b_startHour b = Some s -> b_endHour b = Some e ->
                 AdminReports.slotHoursFromBooking getSlots b = (s, e))
    /\ (b_startHour b = None \/ b_endHour b = None ->
        (forall slot, inCatalog = Some slot ->
                      AdminReports.slotHoursFromBooking getSlots b
                      = (slot_startHour slot, slot_endHour slot))
        /\ (inCatalog = None ->
            (forall m, Regex.exec Regex.labelPattern text = Some m ->
                       AdminReports.slotHoursFromBooking getSlots b
                       = (AdminReports.hourOf (Regex.group 1 m) (Regex.group 2 m),
                          AdminReports.hourOf (Regex.group 3 m) (Regex.group 4 m)))
            /\ (Regex.exec Regex.labelPattern text = None ->
                (forall m2, Regex.exec Regex.idPattern idText = Some m2 ->
                            AdminReports.slotHoursFromBooking getSlots b
                            = (JS.Number (JS.orStr (Regex.group 1 m2) ""),
                               JS.Number (JS.orStr (Regex.group 2 m2) "")))
                /\ (Regex.exec Regex.idPattern idText = None ->
                    AdminReports.slotHoursFromBooking getSlots b = (0, 0)))))
    /\ (forall slot, inCatalog = Some slot ->
                     AdminAssignments.slotRange (AdminAssignments.slotObjOf getSlots b)
                     = (slot_startHour slot, slot_endHour slot))
    /\ (inCatalog = None ->
        AdminAssignments.slotRange (AdminAssignments.slotObjOf getSlots b)
        = (JS.numOr0 (b_startHour b), JS.numOr0 (b_endHour b))).
Proof.
  intros getSlots b inCatalog text idText.
  split; [|split; [|split]].
  - intros s e Hs He. unfold AdminReports.slotHoursFromBooking. now rewrite Hs, He.
  - intros Hmissing.
    assert (Hchain : AdminReports.slotHoursFromBooking getSlots b
                     = match inCatalog with
                       | Some slot => (slot_startHour slot, slot_endHour slot)
                       | None =>
                           match Regex.exec Regex.labelPattern text with
                           | Some m =>
                               (AdminReports.hourOf (Regex.group 1 m) (Regex.group 2 m),
                                AdminReports.hourOf (Regex.group 3 m) (Regex.group 4 m))
                           | None =>
                               match Regex.exec Regex.idPattern idText with
                               | Some m2 =>
                                   (JS.Number (JS.orStr (Regex.group 1 m2) ""),
                                    JS.Number (JS.orStr (Regex.group 2 m2) ""))
                               | None => (0, 0)
                               end
                           end
                       end).
    { unfold AdminReports.slotHoursFromBooking.
      destruct Hmissing as [-> | ->]; [reflexivity|].
      now destruct (b_startHour b). }
    rewrite Hchain. split.
    + now intros slot ->.
    + intros ->. split.
      * now intros m ->.
      * intros ->. split; [now intros m2 -> | now intros ->].
  - intros slot Hslot. unfold AdminAssignments.slotObjOf.
    fold inCatalog. now rewrite Hslot.
  - intros Hnone. unfold AdminAssignments.slotObjOf.
    fold inCatalog. now rewrite Hnone.
Qed.

Lemma time_bounds_resolution_witness :
  AdminReports.slotHoursFromBooking Demo.catalog1 (Demo.demoBooking "2025-01-10") = (6, 8)
  /\ AdminAssignments.slotRange
       (AdminAssignments.slotObjOf Demo.catalog1 (Demo.demoBooking "2025-01-10"))
     = (10, 12)
  /\ AdminReports.slotHoursFromBooking Demo.catalog0 Demo.legacyBooking = (9, 11).
Proof.
  split; [|split].
  - apply (proj1 (time_bounds_resolution Demo.catalog1 (Demo.demoBooking "2025-01-10")));
      reflexivity.
  - apply (proj1 (proj2 (proj2 (time_bounds_resolution Demo.catalog1
                                  (Demo.demoBooking "2025-01-10"))))
                 (mkSlot "6-8am" "6:00 AM - 8:00 AM" 10 12 1 4)).
    vm_compute. reflexivity.
  - apply (proj1 (proj2 (proj1 (proj2 (time_bounds_resolution Demo.catalog0
                                         Demo.legacyBooking))
                               (or_introl eq_refl))
                        eq_refl)
                 [(4%nat, "AM"); (3%nat, "11"); (2%nat, "AM"); (1%nat, "9")]).
    vm_compute. reflexivity.
Defined.

(** ** C10: bookings without a status *)



(** * Further properties of the modelled code *)

(** ** The stored slot lists (admin-schedules.js) *)

Lemma storedSlots_after_save (k k' : string) (v : list Slot)
      (m : gmap string (list Slot)) (st : AdminSchedules.State) :
  storedSlots k' (AdminSchedules.save (<[k := v]> m) st)
  = if decide (k = k') then Some v else m !! k'.
Proof.
  unfold storedSlots, AdminSchedules.save. simpl.
  destruct (decide (k = k')) as [->|Hne].
  - apply lookup_insert_eq.
  - now apply lookup_insert_ne.
Qed.

(** What [ensureData] hands out is what [storedSlots] reads. *)
Lemma ensureData_lookup (k : string) (st : AdminSchedules.State) :
  fst (AdminSchedules.ensureData st) !! k = storedSlots k st
  /\ AdminSchedules.DEFAULT_SLOTS (snd (AdminSchedules.ensureData st))
     = AdminSchedules.DEFAULT_SLOTS st
  /\ storedSlots k (snd (AdminSchedules.ensureData st)) = storedSlots k st.
Proof.
  unfold AdminSchedules.ensureData, storedSlots.
  destruct (AdminSchedules.stored st) as [m|] eqn:E; simpl; rewrite ?E;
    repeat split; apply lookup_empty.
Qed.

Lemma filter_shorter_iff {A : Type} (f : A -> bool) (l : list A) :
  Nat.ltb (length (List.filter f l)) (length l) = true
  <-> exists x, In x l /\ f x = false.
Proof.
  rewrite Nat.ltb_lt. induction l as [|a l IH]; simpl.
  - split; [lia|]. intros (x & [] & _).
  - pose proof (filter_length_le f l) as Hle.
    destruct (f a) eqn:Ha; simpl.
    + rewrite <- Nat.succ_lt_mono, IH. split.
      * intros (x & Hin & Hx). eauto.
      * intros (x & [<-|Hin] & Hx); [congruence|eauto].
    + split; [|lia]. intros _. exists a. auto.
Qed.

Lemma removeSlot_stored (locationId slotId : string) (st : AdminSchedules.State) :
  AdminSchedules.DEFAULT_SLOTS (snd (AdminSchedules.removeSlotFromLocation locationId slotId st))
  = AdminSchedules.DEFAULT_SLOTS st
  /\ storedSlots locationId
       (snd (AdminSchedules.removeSlotFromLocation locationId slotId st))
     = option_map (List.filter (fun s => negb (String.eqb (slot_id s) slotId)))
                  (storedSlots locationId st).
Proof.
  unfold AdminSchedules.removeSlotFromLocation.
  destruct (AdminSchedules.ensureData st) as [m st1] eqn:Hens.
  pose proof (ensureData_lookup locationId st) as (Hl & Hd & Hs).
  rewrite Hens in Hl, Hd, Hs. simpl in Hl, Hd, Hs. rewrite Hl.
  destruct (storedSlots locationId st) as [l|] eqn:Hst; simpl.
  - split; [exact Hd|]. rewrite storedSlots_after_save.
    now destruct (decide (locationId = locationId)).
  - now split.
Qed.

(** X1.  [removeSlotFromLocation] drops from the list stored for the
    location every slot with the given id and keeps the others in
    their order; it answers [true] exactly when such a slot was
    stored.  A location with no stored list stays without one and the
    answer is [false].  The lists of other locations and the global
    default set are not touched. *)
Theorem removeSlot_effect :
  forall (locationId slotId : string) (st : AdminSchedules.State),
    AdminSchedules.DEFAULT_SLOTS (snd (AdminSchedules.removeSlotFromLocation locationId slotId st))
    = AdminSchedules.DEFAULT_SLOTS st
    /\ match storedSlots locationId st with
       | None =>
           fst (AdminSchedules.removeSlotFromLocation locationId slotId st) = false
           /\ storedSlots locationId
                (snd (AdminSchedules.removeSlotFromLocation locationId slotId st)) = None
       | Some l =>
           storedSlots locationId
             (snd (AdminSchedules.removeSlotFromLocation locationId slotId st))
           = Some (List.filter (fun s => negb (String.eqb (slot_id s) slotId)) l)
           /\ (fst (AdminSchedules.removeSlotFromLocation locationId slotId st) = true
               <-> exists s, In s l /\ slot_id s = slotId)
       end
    /\ (forall other, other <> locationId ->
          storedSlots other (snd (AdminSchedules.removeSlotFromLocation locationId slotId st))
          = storedSlots other st).
Proof.
  intros locationId slotId st. unfold AdminSchedules.removeSlotFromLocation.
  destruct (AdminSchedules.ensureData st) as [m st1] eqn:Hens.
  pose proof (ensureData_lookup locationId st) as (Hl & Hd & Hs).
  rewrite Hens in Hl, Hd, Hs. simpl in Hl, Hd, Hs. rewrite Hl.
  destruct (storedSlots locationId st) as [l|] eqn:Hst; simpl.
  - split; [exact Hd|]. split.
    + split.
      * rewrite storedSlots_after_save. now destruct (decide (locationId = locationId)).
      * rewrite filter_shorter_iff. split.
        -- intros (s & Hin & Hs'). exists s. split; trivial.
           apply Bool.negb_false_iff in Hs'. now apply String.eqb_eq.
        -- intros (s & Hin & <-). exists s. split; trivial.
           now rewrite String.eqb_refl.
    + intros other Hne. rewrite storedSlots_after_save.
      destruct (decide (locationId = other)) as [->|_]; [contradiction|].
      pose proof (ensureData_lookup other st) as (Ho & _ & _).
      now rewrite Hens in Ho.
  - split; [exact Hd|]. split; [split; trivial|].
    intros other _. pose proof (ensureData_lookup other st) as (_ & _ & Ho).
    now rewrite Hens in Ho.
Qed.

Lemma removeSlot_effect_witness :
  storedSlots "pritil-exit"
    (snd (AdminSchedules.removeSlotFromLocation "taytay-market" "6-8am" Demo.afterEdit))
  = storedSlots "pritil-exit" Demo.afterEdit.
Proof.
  apply (proj2 (proj2 (removeSlot_effect "taytay-market" "6-8am" Demo.afterEdit))).
  discriminate.
Defined.

(** X2.  When every slot stored for a location has the id that is
    removed, the stored list becomes empty and the location is served
    the global default set again: a location cannot be left without
    slots. *)
Theorem removing_last_slots_reverts_to_defaults :
  forall (locationId slotId : string) (st : AdminSchedules.State) (l : list Slot),
    storedSlots locationId st = Some l ->
    (forall s, In s l -> slot_id s = slotId) ->
    storedSlots locationId (snd (AdminSchedules.removeSlotFromLocation locationId slotId st))
    = Some []
    /\ fst (AdminSchedules.getSlotsForLocation locationId
              (snd (AdminSchedules.removeSlotFromLocation locationId slotId st)))
       = AdminSchedules.DEFAULT_SLOTS st.
Proof.
  intros locationId slotId st l Hst Hall.
  destruct (removeSlot_stored locationId slotId st) as (Hd & Hl).
  rewrite Hst in Hl. simpl in Hl.
  assert (Hnil : List.filter (fun s => negb (String.eqb (slot_id s) slotId)) l = []).
  { clear Hl Hst. induction l as [|a l IH]; simpl; trivial.
    rewrite (Hall a (or_introl eq_refl)), String.eqb_refl. simpl.
    apply IH. intros s Hs. apply Hall. now right. }
  rewrite Hnil in Hl. split; trivial.
  rewrite getSlots_of_lookup, Hl, Hd. now destruct (String.eqb locationId "").
Qed.

Lemma removing_last_slots_reverts_to_defaults_witness :
  fst (AdminSchedules.getSlotsForLocation "pritil-exit"
         (snd (AdminSchedules.removeSlotFromLocation "pritil-exit" "late"
                 (snd (AdminSchedules.saveEditedSlots Demo.uids "pritil-exit"
                         [Demo.beyondDaySlot] AdminSchedules.initialState)))))
  = AdminSchedules.DECLARED_DEFAULT_SLOTS.
Proof.
  apply (proj2 (removing_last_slots_reverts_to_defaults "pritil-exit" "late"
                  (snd (AdminSchedules.saveEditedSlots Demo.uids "pritil-exit"
                          [Demo.beyondDaySlot] AdminSchedules.initialState))
                  [Demo.beyondDaySlot] ltac:(vm_compute; reflexivity)
                  ltac:(intros s [<-|[]]; reflexivity))).
Defined.

(** X3.  After [addSlotToLocation] the location is served the list it
    was served before followed by the new normalized slot, and that
    is also the list the call returns, with one exception: when an
    empty list was stored for the location (it was then served the
    defaults), it is afterwards served the new slot alone. *)
Theorem addSlot_then_getSlots :
  forall (uid locationId : string) (slot : SlotObj) (st : AdminSchedules.State),
    locationId <> "" ->
    let added :=
      AdminSchedules.normalizeSlot uid
        (mkSlotObj (Some (JS.orStr (so_id slot) uid)) (so_label slot) (so_startHour slot)
                   (so_endHour slot) (so_minVol slot) (so_maxVol slot)) in
    let after := snd (AdminSchedules.addSlotToLocation uid locationId slot st) in
    fst (AdminSchedules.getSlotsForLocation locationId after)
    = fst (AdminSchedules.addSlotToLocation uid locationId slot st)
    /\ fst (AdminSchedules.getSlotsForLocation locationId after)
       = match storedSlots locationId st with
         | Some [] => [added]
         | _ => fst (AdminSchedules.getSlotsForLocation locationId st) ++ [added]
         end.
Proof.
  intros uid locationId slot st Hne added after.
  assert (Hid : String.eqb locationId "" = false).
  { destruct (String.eqb locationId "") eqn:E; trivial.
    apply String.eqb_eq in E. contradiction. }
  subst after. unfold AdminSchedules.addSlotToLocation.
  destruct (AdminSchedules.ensureData st) as [m st1] eqn:Hens.
  pose proof (ensureData_lookup locationId st) as (Hl & Hd & Hs).
  rewrite Hens in Hl, Hd, Hs. simpl in Hl, Hd, Hs. rewrite Hl.
  fold added.
  assert (Hget : forall (before : list Slot) (st2 : AdminSchedules.State)
                        (m2 : gmap string (list Slot)),
             fst (AdminSchedules.getSlotsForLocation locationId
                    (AdminSchedules.save (<[locationId := before ++ [added]]> m2) st2))
             = before ++ [added]).
  { intros before st2 m2. rewrite getSlots_of_lookup, Hid, storedSlots_after_save.
    destruct (decide (locationId = locationId)); [|contradiction].
    now destruct before. }
  destruct (storedSlots locationId st) as [l|] eqn:Hst; simpl.
  - rewrite Hget. split; trivial.
    destruct l as [|a l]; trivial.
    now rewrite getSlots_of_lookup, Hid, Hst.
  - destruct (AdminSchedules.getSlotsForLocation locationId st1) as [l st2] eqn:Hg.
    simpl. rewrite Hget. split; trivial. f_equal.
    pose proof (getSlots_of_lookup locationId st1) as H1.
    rewrite Hg, Hid, Hs, Hd in H1. simpl in H1.
    now rewrite getSlots_of_lookup, Hid, Hst.
Qed.

Lemma addSlot_then_getSlots_witness :
  fst (AdminSchedules.getSlotsForLocation "pritil-exit"
         (snd (AdminSchedules.addSlotToLocation "slot-new" "pritil-exit" Demo.backwardsSlot
                 AdminSchedules.initialState)))
  = fst (AdminSchedules.addSlotToLocation "slot-new" "pritil-exit" Demo.backwardsSlot
           AdminSchedules.initialState).
Proof.
  apply (proj1 (addSlot_then_getSlots "slot-new" "pritil-exit" Demo.backwardsSlot
                  AdminSchedules.initialState ltac:(discriminate))).
Defined.

Lemma patchFrom_lookup (uids : nat -> string) (slotId : string) (patch : SlotObj)
      (l : list Slot) (i0 : nat) :
  length (AdminSchedules.patchFrom uids i0 slotId patch l) = length l
  /\ forall (i : nat) (s : Slot),
      l !! i = Some s ->
      AdminSchedules.patchFrom uids i0 slotId patch l !! i
      = Some (if String.eqb (slot_id s) slotId
              then AdminSchedules.normalizeSlot (uids (i0 + i)%nat)
                     (AdminSchedules.assignPatch s patch)
              else s).
Proof.
  revert i0. induction l as [|a l IH]; intros i0; simpl.
  - split; trivial. intros i s H. discriminate.
  - destruct (IH (S i0)) as [Hlen Hlook]. split; [now rewrite Hlen|].
    intros [|i] s H; simpl in *.
    + injection H as ->. now rewrite Nat.add_0_r.
    + rewrite (Hlook i s H). now rewrite Nat.add_succ_r.
Qed.

(** X4.  [updateSlotForLocation] answers [true] exactly when the list
    stored for the location holds a slot with the given id.  It then
    stores a list of the same length in which every slot with that id
    (not only the first) is the normalized patched slot and every
    other slot is as before; the patched slot is not validated.  When
    no such slot is stored, or nothing is stored for the location,
    the stored list stays as it is. *)
Theorem updateSlot_effect :
  forall (uids : nat -> string) (locationId slotId : string) (patch : SlotObj)
         (st : AdminSchedules.State),
    let result := AdminSchedules.updateSlotForLocation uids locationId slotId patch st in
    (fst result = true
     <-> exists l s, storedSlots locationId st = Some l /\ In s l /\ slot_id s = slotId)
    /\ (fst result = false -> storedSlots locationId (snd result) = storedSlots locationId st)
    /\ (fst result = true ->
        exists l l',
          storedSlots locationId st = Some l
          /\ storedSlots locationId (snd result) = Some l'
          /\ length l' = length l
          /\ forall (i : nat) (s : Slot),
              l !! i = Some s ->
              l' !! i = Some (if String.eqb (slot_id s) slotId
                              then AdminSchedules.normalizeSlot (uids i)
                                     (AdminSchedules.assignPatch s patch)
                              else s)).
Proof.
  intros uids locationId slotId patch st result. subst result.
  unfold AdminSchedules.updateSlotForLocation.
  destruct (AdminSchedules.ensureData st) as [m st1] eqn:Hens.
  pose proof (ensureData_lookup locationId st) as (Hl & Hd & Hs).
  rewrite Hens in Hl, Hd, Hs. simpl in Hl, Hd, Hs. rewrite Hl.
  destruct (storedSlots locationId st) as [l|] eqn:Hst; simpl.
  - destruct (existsb _ l) eqn:Hex; simpl.
    + apply existsb_exists in Hex as (s & Hin & Heq). apply String.eqb_eq in Heq.
      split; [split; eauto|]. split; [discriminate|]. intros _.
      exists l, (AdminSchedules.patchFrom uids 0 slotId patch l).
      split; trivial. split.
      { rewrite storedSlots_after_save.
        now destruct (decide (locationId = locationId)). }
      destruct (patchFrom_lookup uids slotId patch l 0) as [Hlen Hlook].
      split; trivial.
    + split; [|split; [now rewrite Hs|discriminate]].
      split; [discriminate|].
      intros (l0 & s & Hl0 & Hin & Heq). injection Hl0 as <-.
      assert (existsb (fun s0 => String.eqb (slot_id s0) slotId) l = true).
      { apply existsb_exists. exists s. split; trivial. now apply String.eqb_eq. }
      congruence.
  - split; [|split; [now rewrite Hs|discriminate]].
    split; [discriminate|]. intros (l0 & s & Hl0 & _). discriminate.
Qed.

Lemma updateSlot_effect_witness :
  storedSlots "pritil-exit"
    (snd (AdminSchedules.updateSlotForLocation Demo.uids "pritil-exit" "6-8am"
            Demo.backwardsSlot AdminSchedules.initialState))
  = storedSlots "pritil-exit" AdminSchedules.initialState.
Proof.
  apply (proj1 (proj2 (updateSlot_effect Demo.uids "pritil-exit" "6-8am"
                         Demo.backwardsSlot AdminSchedules.initialState))).
  reflexivity.
Defined.

Lemma fold_insert_lookup (v : list Slot) (locs : list Location)
      (m0 : gmap string (list Slot)) (k : string) :
  fold_left (fun m l => <[loc_id l := v]> m) locs m0 !! k
  = if existsb (fun l => String.eqb (loc_id l) k) locs then Some v else m0 !! k.
Proof.
  revert m0. induction locs as [|a locs IH]; intros m0; simpl; trivial.
  rewrite IH. destruct (existsb _ locs); simpl.
  - now rewrite Bool.orb_true_r.
  - rewrite Bool.orb_false_r. destruct (String.eqb (loc_id a) k) eqn:E.
    + apply String.eqb_eq in E. subst k. apply lookup_insert_eq.
    + apply lookup_insert_ne. intros Heq. rewrite Heq, String.eqb_refl in E.
      discriminate.
Qed.

(** X5.  "Apply defaults to all" writes a fresh map: a location of the
    list gets the global default set stored, and for a location that
    is not in the list nothing is stored any more, whatever was stored
    for it before.  Every location is then served the defaults. *)
Theorem applyDefaultsToAll_effect :
  forall (locationsNow : list Location) (st : AdminSchedules.State) (k : string),
    storedSlots k (AdminSchedules.applyDefaultsToAll locationsNow st)
    = (if existsb (fun l => String.eqb (loc_id l) k) locationsNow
       then Some (AdminSchedules.DEFAULT_SLOTS st) else None)
    /\ fst (AdminSchedules.getSlotsForLocation k
              (AdminSchedules.applyDefaultsToAll locationsNow st))
       = AdminSchedules.DEFAULT_SLOTS st.
Proof.
  intros locationsNow st k.
  assert (Hst : storedSlots k (AdminSchedules.applyDefaultsToAll locationsNow st)
                = if existsb (fun l => String.eqb (loc_id l) k) locationsNow
                  then Some (AdminSchedules.DEFAULT_SLOTS st) else None).
  { unfold AdminSchedules.applyDefaultsToAll, storedSlots, AdminSchedules.save. simpl.
    rewrite fold_insert_lookup, map_clone, lookup_empty. reflexivity. }
  split; trivial.
  rewrite getSlots_of_lookup, Hst.
  change (AdminSchedules.DEFAULT_SLOTS (AdminSchedules.applyDefaultsToAll locationsNow st))
    with (AdminSchedules.DEFAULT_SLOTS st).
  destruct (String.eqb k ""); trivial.
  destruct (existsb _ locationsNow); trivial.
  now destruct (AdminSchedules.DEFAULT_SLOTS st).
Qed.

(** X7.  After [setSlotsForLocation] with a non-empty array the
    location is served exactly the normalized array; after it with an
    empty array the location is served the global default set.  Other
    locations are served what they were served before, and a call
    with an empty location id changes nothing. *)
Theorem setSlots_then_getSlots :
  forall (uids : nat -> string) (locationId : string) (slotsArray : list SlotObj)
         (st : AdminSchedules.State),
    (locationId <> "" ->
     fst (AdminSchedules.getSlotsForLocation locationId
            (AdminSchedules.setSlotsForLocation uids locationId slotsArray st))
     = match slotsArray with
       | [] => AdminSchedules.DEFAULT_SLOTS st
       | _ => AdminSchedules.normalizeFrom uids 0 slotsArray
       end)
    /\ (forall other, other <> locationId ->
          fst (AdminSchedules.getSlotsForLocation other
                 (AdminSchedules.setSlotsForLocation uids locationId slotsArray st))
          = fst (AdminSchedules.getSlotsForLocation other st))
    /\ AdminSchedules.setSlotsForLocation uids "" slotsArray st = st.
Proof.
  intros uids locationId slotsArray st.
  assert (Hset : forall k,
             locationId <> "" ->
             storedSlots k (AdminSchedules.setSlotsForLocation uids locationId slotsArray st)
             = (if decide (locationId = k)
                then Some (AdminSchedules.normalizeFrom uids 0 slotsArray)
                else storedSlots k st)
             /\ AdminSchedules.DEFAULT_SLOTS
                  (AdminSchedules.setSlotsForLocation uids locationId slotsArray st)
                = AdminSchedules.DEFAULT_SLOTS st).
  { intros k Hne. unfold AdminSchedules.setSlotsForLocation.
    destruct (String.eqb locationId "") eqn:E; [apply String.eqb_eq in E; contradiction|].
    destruct (AdminSchedules.ensureData st) as [m st1] eqn:Hens.
    pose proof (ensureData_lookup k st) as (Hl & Hd & Hs).
    rewrite Hens in Hl, Hd, Hs. simpl in Hl, Hd, Hs.
    rewrite storedSlots_after_save, Hl. now split. }
  split; [|split].
  - intros Hne. destruct (Hset locationId Hne) as [Hs Hd].
    rewrite getSlots_of_lookup, Hs, Hd.
    destruct (String.eqb locationId "") eqn:E; [apply String.eqb_eq in E; contradiction|].
    destruct (decide (locationId = locationId)); [|contradiction].
    now destruct slotsArray.
  - intros other Hne.
    destruct (String.eqb locationId "") eqn:E.
    + unfold AdminSchedules.setSlotsForLocation. now rewrite E.
    + assert (Hl : locationId <> "") by (intros ->; discriminate).
      destruct (Hset other Hl) as [Hs Hd].
      rewrite !getSlots_of_lookup, Hs, Hd.
      destruct (decide (locationId = other)) as [->|_]; [contradiction|trivial].
  - reflexivity.
Qed.

Lemma setSlots_then_getSlots_witness :
  fst (AdminSchedules.getSlotsForLocation "pritil-exit"
         (AdminSchedules.setSlotsForLocation Demo.uids "pritil-exit" [Demo.backwardsSlot]
                                             AdminSchedules.initialState))
  = [mkSlot "backwards" "Backwards" 10 8 3 2].
Proof.
  apply (proj1 (setSlots_then_getSlots Demo.uids "pritil-exit" [Demo.backwardsSlot]
                  AdminSchedules.initialState)).
  discriminate.
Defined.

(** ** Normalized slots (admin-schedules.js) *)

Lemma trimStart_startsTrimmed (s : string) : startsTrimmed (JS.trimStart s) = true.
Proof.
  induction s as [|c r IH]; simpl; trivial.
  destruct (JS.isSpace c) eqn:E; trivial. simpl. unfold notSpace. now rewrite E.
Qed.

Lemma trimStart_id (s : string) : startsTrimmed s = true -> JS.trimStart s = s.
Proof.
  destruct s as [|c r]; simpl; trivial. unfold notSpace.
  now destruct (JS.isSpace c).
Qed.

Lemma trimEnd_startsTrimmed (s : string) :
  startsTrimmed s = true -> startsTrimmed (JS.trimEnd s) = true.
Proof.
  destruct s as [|c r]; simpl; trivial. unfold notSpace. intros Hc.
  destruct (JS.trimEnd r); simpl.
  - destruct (JS.isSpace c) eqn:E; [discriminate|]. simpl. unfold notSpace.
    now rewrite E.
  - exact Hc.
Qed.

Lemma trimEnd_idem (s : string) : JS.trimEnd (JS.trimEnd s) = JS.trimEnd s.
Proof.
  induction s as [|c r IH]; simpl; trivial.
  destruct (JS.trimEnd r) as [|c' r'] eqn:E.
  - destruct (JS.isSpace c) eqn:Ec; simpl; trivial. now rewrite Ec.
  - simpl. simpl in IH. now rewrite IH.
Qed.

Lemma trim_idem (s : string) : JS.trim (JS.trim s) = JS.trim s.
Proof.
  unfold JS.trim.
  rewrite (trimStart_id (JS.trimEnd (JS.trimStart s))).
  - apply trimEnd_idem.
  - apply trimEnd_startsTrimmed, trimStart_startsTrimmed.
Qed.

Lemma replaceRuns_noSpace (rep : ascii) (inRun : bool) (s : string) :
  notSpace rep = true -> allChars notSpace (JS.replaceRuns rep inRun s) = true.
Proof.
  intros Hrep. revert inRun. induction s as [|c r IH]; intros inRun; simpl; trivial.
  destruct (JS.isSpace c) eqn:E.
  - destruct inRun; simpl; rewrite ?Hrep, IH; trivial.
  - simpl. unfold notSpace at 1. now rewrite E, IH.
Qed.

Lemma replaceRuns_id (rep : ascii) (inRun : bool) (s : string) :
  allChars notSpace s = true -> JS.replaceRuns rep inRun s = s.
Proof.
  revert inRun. induction s as [|c r IH]; intros inRun; simpl; trivial.
  unfold notSpace at 1. intros H. apply andb_prop in H as [Hc Hr].
  apply Bool.negb_true_iff in Hc. rewrite Hc. now rewrite IH.
Qed.

Lemma replaceSpaces_nonempty (rep : ascii) (s : string) :
  s <> "" -> JS.replaceSpaces rep s <> "".
Proof.
  destruct s as [|c r]; [contradiction|]. intros _. unfold JS.replaceSpaces. simpl.
  destruct (JS.isSpace c); discriminate.
Qed.

Lemma dash_notSpace : notSpace "-" = true.
Proof. reflexivity. Qed.

(** A slot with an id free of white space and a trimmed label is
    its own normal form. *)
Lemma normalizeSlot_of_clean (u : string) (s : Slot) :
  slot_id s <> "" -> allChars notSpace (slot_id s) = true ->
  JS.trim (slot_label s) = slot_label s ->
  AdminSchedules.normalizeSlot u (objOfSlot s) = s.
Proof.
  intros Hid Hns Htrim. destruct s as [i l sh eh mn mx]. simpl in *.
  unfold AdminSchedules.normalizeSlot, objOfSlot.
  cbn [so_id so_label so_startHour so_endHour so_minVol so_maxVol
       slot_id slot_label slot_startHour slot_endHour slot_minVol slot_maxVol
       JS.numOr0].
  rewrite (orStr_some _ _ Hid), orStr_some_empty, Htrim.
  unfold JS.replaceSpaces. now rewrite (replaceRuns_id _ _ i Hns).
Qed.

(** Normalizing a normalized slot again changes nothing, as long as
    it has an id. *)
Lemma normalizeSlot_again (u u' : string) (x : SlotObj) :
  slot_id (AdminSchedules.normalizeSlot u x) <> "" ->
  AdminSchedules.normalizeSlot u' (objOfSlot (AdminSchedules.normalizeSlot u x))
  = AdminSchedules.normalizeSlot u x.
Proof.
  intros Hid. apply normalizeSlot_of_clean; trivial.
  - apply replaceRuns_noSpace, dash_notSpace.
  - apply trim_idem.
Qed.

Lemma cleaned_has_id (u : string) (s : Slot) (id1 : string) :
  slot_label s <> "" ->
  slot_id (AdminSchedules.normalizeSlot u
             (objOfSlot (mkSlot (JS.replaceSpaces "-" id1) (slot_label s)
                                (slot_startHour s) (slot_endHour s)
                                (slot_minVol s) (slot_maxVol s)))) <> "".
Proof.
  intros Hl. unfold AdminSchedules.normalizeSlot, objOfSlot.
  cbn [so_id so_label slot_id slot_label].
  apply replaceSpaces_nonempty.
  destruct (String.eqb (JS.replaceSpaces "-" id1) "") eqn:E.
  - apply String.eqb_eq in E. rewrite E.
    change (JS.orStr (Some "") ?d) with d.
    now rewrite (orStr_some _ _ Hl).
  - rewrite orStr_some; intros H; rewrite H in E; discriminate.
Qed.

Lemma normalizeFrom_cleanFrom (uids : nat -> string) (l : list Slot) (i j : nat) :
  (forall s, In s l -> slot_label s <> "") ->
  AdminSchedules.normalizeFrom uids j (List.map objOfSlot (AdminSchedules.cleanFrom uids i l))
  = AdminSchedules.cleanFrom uids i l.
Proof.
  revert i j. induction l as [|s l IH]; intros i j Hl; simpl; trivial.
  rewrite IH by (intros x Hx; apply Hl; now right). f_equal.
  apply normalizeSlot_again, cleaned_has_id, Hl. now left.
Qed.

Lemma cleanFrom_numbers (uids : nat -> string) (l : list Slot) (i : nat) :
  List.map (fun s => (slot_startHour s, slot_endHour s, slot_minVol s, slot_maxVol s))
           (AdminSchedules.cleanFrom uids i l)
  = List.map (fun s => (slot_startHour s, slot_endHour s, slot_minVol s, slot_maxVol s)) l.
Proof.
  revert i. induction l as [|s l IH]; intros i; simpl; trivial. now rewrite IH.
Qed.

Lemma cleanFrom_clean (uids : nat -> string) (l : list Slot) (i : nat) :
  Forall (fun c => allChars notSpace (slot_id c) = true
                   /\ JS.trim (slot_label c) = slot_label c)
         (AdminSchedules.cleanFrom uids i l).
Proof.
  revert i. induction l as [|s l IH]; intros i; cbn [AdminSchedules.cleanFrom];
    constructor; trivial.
  unfold AdminSchedules.normalizeSlot, objOfSlot.
  cbn [so_id so_label slot_id slot_label]. split.
  - apply replaceRuns_noSpace, dash_notSpace.
  - rewrite orStr_some_empty. apply trim_idem.
Qed.

Lemma cleanFrom_of_clean (uids : nat -> string) (l : list Slot) (i : nat) :
  (forall s, In s l ->
             slot_id s <> "" /\ allChars notSpace (slot_id s) = true
             /\ JS.trim (slot_label s) = slot_label s) ->
  AdminSchedules.cleanFrom uids i l = l.
Proof.
  revert i. induction l as [|s l IH]; intros i Hl; simpl; trivial.
  rewrite IH by (intros x Hx; apply Hl; now right). f_equal.
  destruct (Hl s (or_introl eq_refl)) as (Hid & Hns & Htrim).
  assert (E : String.eqb (slot_id s) "" = false).
  { destruct (String.eqb (slot_id s) "") eqn:E; trivial.
    apply String.eqb_eq in E. contradiction. }
  rewrite E. unfold JS.replaceSpaces at 1. rewrite (replaceRuns_id _ _ (slot_id s) Hns).
  transitivity (AdminSchedules.normalizeSlot (uids i) (objOfSlot s)).
  - now destruct s.
  - now apply normalizeSlot_of_clean.
Qed.

(** X6.  When "Save slots" accepts the edited list it stores, for the
    location, exactly the cleaned list: the second normalization that
    [setSlotsForLocation] applies changes nothing.  Every stored slot
    keeps the hours and volunteer numbers that were entered, its id
    holds no white space and its label is trimmed.  An edited list
    whose ids are non-empty and free of white space and whose labels
    are trimmed is stored as it is. *)
Theorem editor_save_stores_cleaned :
  forall (uids : nat -> string) (locationId : string) (currentSlots : list Slot)
         (st : AdminSchedules.State),
    locationId <> "" ->
    forallb AdminSchedules.editorAccepts currentSlots = true ->
    storedSlots locationId
      (snd (AdminSchedules.saveEditedSlots uids locationId currentSlots st))
    = Some (AdminSchedules.cleanFrom uids 0 currentSlots)
    /\ List.map (fun s => (slot_startHour s, slot_endHour s, slot_minVol s, slot_maxVol s))
                (AdminSchedules.cleanFrom uids 0 currentSlots)
       = List.map (fun s => (slot_startHour s, slot_endHour s, slot_minVol s, slot_maxVol s))
                  currentSlots
    /\ Forall (fun c => allChars notSpace (slot_id c) = true
                        /\ JS.trim (slot_label c) = slot_label c)
              (AdminSchedules.cleanFrom uids 0 currentSlots)
    /\ ((forall s, In s currentSlots ->
                   slot_id s <> "" /\ allChars notSpace (slot_id s) = true
                   /\ JS.trim (slot_label s) = slot_label s) ->
        AdminSchedules.cleanFrom uids 0 currentSlots = currentSlots).
Proof.
  intros uids locationId currentSlots st Hne Hok.
  split; [|split; [apply cleanFrom_numbers|split; [apply cleanFrom_clean|]]].
  - unfold AdminSchedules.saveEditedSlots. rewrite Hok. simpl.
    unfold AdminSchedules.setSlotsForLocation.
    destruct (String.eqb locationId "") eqn:E; [apply String.eqb_eq in E; contradiction|].
    destruct (AdminSchedules.ensureData st) as [m st1].
    rewrite storedSlots_after_save.
    destruct (decide (locationId = locationId)); [|contradiction].
    f_equal. apply normalizeFrom_cleanFrom.
    intros s Hin. rewrite forallb_forall in Hok. specialize (Hok s Hin).
    unfold AdminSchedules.editorAccepts in Hok.
    rewrite !Bool.andb_true_iff in Hok. destruct Hok as [[[Hl _] _] _].
    apply Bool.negb_true_iff in Hl. intros Heq. rewrite Heq in Hl. discriminate.
  - apply cleanFrom_of_clean.
Qed.

Lemma editor_save_stores_cleaned_witness :
  storedSlots "taytay-market" Demo.afterEdit
  = Some (AdminSchedules.cleanFrom Demo.uids 0
            (mkSlot "6-8am" "6:00 AM - 8:00 AM" 10 12 1 4
             :: tl AdminSchedules.DECLARED_DEFAULT_SLOTS)).
Proof.
  apply (proj1 (editor_save_stores_cleaned Demo.uids "taytay-market"
                  (mkSlot "6-8am" "6:00 AM - 8:00 AM" 10 12 1 4
                   :: tl AdminSchedules.DECLARED_DEFAULT_SLOTS)
                  AdminSchedules.initialState ltac:(discriminate)
                  ltac:(reflexivity))).
Defined.

(** ** Booking and cancelling by the volunteer (volunteer-dashboard.js) *)

Lemma full_test_agrees {A : Type} (capacity : Q) (l : list A) :
  Qle_bool (capacity - inject_Z (Z.of_nat (length l))) 0 = JS.lengthGe l capacity.
Proof.
  unfold JS.lengthGe. apply Bool.eq_iff_eq_true. rewrite !Qle_bool_iff.
  split; intros H; lra.
Qed.

(** X8.  A slot card of the step-by-step flow, drawn from the stored
    bookings, can be selected exactly when "Confirm booking" on the
    same bookings would book; it shows "Already Booked" exactly when
    the confirmation would answer "Already booked", and it is full
    without that mark exactly when the confirmation would answer
    "Slot full". *)
Theorem slot_card_agrees_with_confirm :
  forall (u : User) (loc : Location) (date : string) (ts : Slot)
         (id : string) (now : Z) (all : list Booking),
    date <> "" ->
    (VDB.cardSelectable (VDB.timeslotCard (Some u) loc date ts all) = true
     <-> fst (VDB.confirmBooking (Some loc) (Some date) (Some ts) (Some u) id now all)
         = VDB.Booked)
    /\ (VDB.card_alreadyBooked (VDB.timeslotCard (Some u) loc date ts all) = true
        <-> fst (VDB.confirmBooking (Some loc) (Some date) (Some ts) (Some u) id now all)
            = VDB.AlreadyBooked)
    /\ (VDB.card_isFull (VDB.timeslotCard (Some u) loc date ts all) = true
        /\ VDB.card_alreadyBooked (VDB.timeslotCard (Some u) loc date ts all) = false
        <-> fst (VDB.confirmBooking (Some loc) (Some date) (Some ts) (Some u) id now all)
            = VDB.SlotFull).
Proof.
  intros u loc date ts id now all Hdate.
  apply String.eqb_neq in Hdate.
  unfold VDB.cardSelectable, VDB.timeslotCard, VDB.confirmBooking.
  cbn [VDB.card_isFull VDB.card_alreadyBooked VDB.card_available].
  rewrite Hdate, full_test_agrees.
  destruct (VDB.userHasBookingForSlot _ _ _ _ _); destruct (JS.lengthGe _ _);
    cbn [fst negb andb]; intuition congruence.
Qed.

Lemma slot_card_agrees_with_confirm_witness :
  VDB.cardSelectable
    (VDB.timeslotCard (Some Demo.volunteerUser) Demo.pritilExit "2025-01-10"
                      Demo.slot_6_8am []) = true
  <-> fst (VDB.confirmBooking (Some Demo.pritilExit) (Some "2025-01-10")
             (Some Demo.slot_6_8am) (Some Demo.volunteerUser) "bk-1" 1 [])
      = VDB.Booked.
Proof.
  apply (proj1 (slot_card_agrees_with_confirm Demo.volunteerUser Demo.pritilExit
                  "2025-01-10" Demo.slot_6_8am "bk-1" 1 [] ltac:(discriminate))).
Defined.

(** X9.  For a signed-in volunteer the "Book" button of a slot card in
    the location dialog is enabled exactly when its click handler
    would book, whatever is stored at the click: both go by what the
    card was drawn with.  A disabled button's handler changes nothing.
    For a visitor who is not signed in the button is enabled whenever
    the slot was not full, and the handler always answers "Not signed
    in". *)
Theorem book_button_agrees_with_handler :
  forall (u : User) (loc : Location) (dateStr : string) (ts : Slot)
         (id : string) (now : Z) (drawn all : list Booking),
    (VDB.bookButtonDisabled (Some u) loc dateStr ts drawn = false
     <-> fst (VDB.bookInLocationModal (Some u) loc dateStr ts id now drawn all)
         = VDB.Booked)
    /\ (VDB.bookButtonDisabled (Some u) loc dateStr ts drawn = true ->
        snd (VDB.bookInLocationModal (Some u) loc dateStr ts id now drawn all) = all)
    /\ (VDB.bookButtonDisabled None loc dateStr ts drawn = false
        <-> (inject_Z (Engine.countAt (loc_id loc) dateStr (slot_id ts) drawn)
             < loc_slotCapacity loc)%Q)
    /\ VDB.bookInLocationModal None loc dateStr ts id now drawn all
       = (VDB.NotSignedIn, all).
Proof.
  intros u loc dateStr ts id now drawn all.
  unfold VDB.bookButtonDisabled, VDB.bookInLocationModal, Engine.countAt.
  pose proof (lengthGe_false (VDB.getBookingsFor (loc_id loc) dateStr (slot_id ts) drawn)
                             (loc_slotCapacity loc)) as Hroom.
  destruct (VDB.userHasBookingForSlot _ _ _ _ _);
    destruct (JS.lengthGe _ _);
    cbn [fst snd]; intuition congruence.
Qed.

Lemma book_button_agrees_with_handler_witness :
  snd (VDB.bookInLocationModal (Some Demo.volunteerUser) Demo.pritilExit "2025-01-10"
         Demo.slot_6_8am "bk-2" 2
         [VDB.newBooking "bk-1" Demo.volunteerUser Demo.pritilExit "2025-01-10"
                         Demo.slot_6_8am 1]
         [])
  = [].
Proof.
  apply (proj1 (proj2 (book_button_agrees_with_handler Demo.volunteerUser
                         Demo.pritilExit "2025-01-10" Demo.slot_6_8am "bk-2" 2
                         [VDB.newBooking "bk-1" Demo.volunteerUser Demo.pritilExit
                                         "2025-01-10" Demo.slot_6_8am 1]
                         []))).
  reflexivity.
Defined.



Lemma confirm_booked_inv (u : User) (loc : Location) (date : string) (ts : Slot)
      (id : string) (now : Z) (all all' : list Booking) :
  VDB.confirmBooking (Some loc) (Some date) (Some ts) (Some u) id now all
  = (VDB.Booked, all') ->
  all' = VDB.addBooking (VDB.newBooking id u loc date ts now) all
  /\ VDB.userHasBookingForSlot (u_username u) (loc_id loc) date (slot_id ts) all = false.
Proof.
  unfold VDB.confirmBooking.
  destruct (String.eqb date ""); [discriminate|].
  destruct (VDB.userHasBookingForSlot _ _ _ _ _); [discriminate|].
  destruct (JS.lengthGe _ _); [discriminate|].
  intros H. injection H as <-. now split.
Qed.

Lemma isBookingOfUser_newBooking (name id : string) (u : User) (loc : Location)
      (date : string) (ts : Slot) (now : Z) :
  VDB.isBookingOfUser name (VDB.newBooking id u loc date ts now)
  = (negb (String.eqb (u_username u) "")
     && String.eqb (JS.toLowerCase (u_username u)) (JS.toLowerCase name))%bool.
Proof.
  unfold VDB.isBookingOfUser, VDB.newBooking. cbn [b_username JS.truthy].
  now rewrite orStr_some_empty.
Qed.

(** X11.  A booking that "Confirm booking" accepts raises the number
    of bookings of its location, date and slot by one and leaves the
    number of every other cell as it was.  "My Assignments" of the
    volunteer then lists the new record after the earlier ones; a
    record made under an empty user name is listed for nobody. *)
Theorem booking_adds_one_to_its_cell :
  forall (u : User) (loc : Location) (date : string) (ts : Slot)
         (id : string) (now : Z) (all all' : list Booking),
    VDB.confirmBooking (Some loc) (Some date) (Some ts) (Some u) id now all
    = (VDB.Booked, all') ->
    Engine.countAt (loc_id loc) date (slot_id ts) all'
    = Engine.countAt (loc_id loc) date (slot_id ts) all + 1
    /\ (forall l d s,
          (l, d, s) <> (loc_id loc, date, slot_id ts) ->
          Engine.countAt l d s all' = Engine.countAt l d s all)
    /\ (u_username u <> "" ->
        VDB.getUserBookings (u_username u) all'
        = VDB.getUserBookings (u_username u) all
          ++ [VDB.newBooking id u loc date ts now])
    /\ (u_username u = "" ->
        forall name, VDB.getUserBookings name all' = VDB.getUserBookings name all).
Proof.
  intros u loc date ts id now all all' H.
  apply confirm_booked_inv in H as [-> _].
  split; [|split; [|split]].
  - rewrite countAt_add. cbn [VDB.newBooking b_locationId b_date b_slotId JS.eqStr].
    now rewrite !String.eqb_refl.
  - intros l d s Hne. rewrite countAt_add.
    cbn [VDB.newBooking b_locationId b_date b_slotId JS.eqStr].
    destruct (String.eqb (loc_id loc) l) eqn:El; cbn [andb]; [|lia].
    destruct (String.eqb date d) eqn:Ed; cbn [andb]; [|lia].
    destruct (String.eqb (slot_id ts) s) eqn:Es; [|lia].
    apply String.eqb_eq in El, Ed, Es. subst. contradiction.
  - intros Hname. unfold VDB.getUserBookings, VDB.addBooking.
    rewrite List.filter_app. f_equal. cbn [List.filter].
    rewrite isBookingOfUser_newBooking, String.eqb_refl.
    apply String.eqb_neq in Hname. now rewrite Hname.
  - intros Hname name. unfold VDB.getUserBookings, VDB.addBooking.
    rewrite List.filter_app. cbn [List.filter].
    rewrite isBookingOfUser_newBooking, Hname. cbn [String.eqb negb andb].
    apply app_nil_r.
Qed.

Lemma booking_adds_one_to_its_cell_witness :
  Engine.countAt "pritil-exit" "2025-01-10" "6-8am"
    [VDB.newBooking "bk-1" Demo.volunteerUser Demo.pritilExit "2025-01-10"
                    Demo.slot_6_8am 1]
  = Engine.countAt "pritil-exit" "2025-01-10" "6-8am" [] + 1.
Proof.
  apply (proj1 (booking_adds_one_to_its_cell Demo.volunteerUser Demo.pritilExit
                  "2025-01-10" Demo.slot_6_8am "bk-1" 1 [] _ eq_refl)).
Defined.

Lemma existsb_false_find {A : Type} (f : A -> bool) (l : list A) :
  existsb f l = false -> List.find f l = None.
Proof.
  induction l as [|a l IH]; cbn [existsb List.find]; trivial.
  destruct (f a); cbn [orb]; [discriminate|exact IH].
Qed.

Lemma find_app_none {A : Type} (f : A -> bool) (l l' : list A) :
  List.find f l = None -> List.find f (l ++ l') = List.find f l'.
Proof.
  induction l as [|a l IH]; cbn [List.find app]; trivial.
  destruct (f a); [discriminate|exact IH].
Qed.

Lemma removeById_fresh (id : string) (all : list Booking) :
  (forall b, In b all -> b_id b <> id) -> VDB.removeBookingById id all = all.
Proof.
  unfold VDB.removeBookingById. induction all as [|a all IH]; intros H; cbn [List.filter]; trivial.
  assert (Ha : String.eqb (b_id a) id = false)
    by (apply String.eqb_neq, H; now left).
  rewrite Ha. cbn [negb]. f_equal. apply IH. intros b Hb. apply H. now right.
Qed.

Lemma removeById_added (b : Booking) (all : list Booking) :
  VDB.removeBookingById (b_id b) (VDB.addBooking b all)
  = VDB.removeBookingById (b_id b) all.
Proof.
  unfold VDB.removeBookingById, VDB.addBooking.
  rewrite List.filter_app. cbn [List.filter]. rewrite String.eqb_refl. cbn [negb].
  apply app_nil_r.
Qed.

(** X12.  A booking made with an id no stored record carries can be
    undone: as long as the slot starts at least thirty minutes after
    the click (or its start is an Invalid Date, which the handlers let
    pass), the cancel button of the location dialog finds the new
    record and leaves the booking set exactly as it was before the
    booking, and so does the cancel button of "My Assignments" when
    the catalog gives the slot's start hour for the record. *)
Theorem book_then_cancel_restores :
  forall (parseDateStr : string -> option Z) (setHours : Z -> Z -> option Z)
         (u : User) (loc : Location) (date : string)
         (ts : Slot) (id : string) (now now' : Z) (locationSlots : list Slot)
         (all all' : list Booking),
    (forall b, In b all -> b_id b <> id) ->
    VDB.confirmBooking (Some loc) (Some date) (Some ts) (Some u) id now all
    = (VDB.Booked, all') ->
    match VDB.slotStartDateTime parseDateStr setHours date (slot_startHour ts) with
    | Some start => start - now' >= VDB.CANCEL_NOTICE_MS
    | None => True
    end ->
    VDB.cancelInLocationModal parseDateStr setHours u loc date ts now' all'
    = (VDB.Cancelled, all)
    /\ (VDB.assignmentStartHour locationSlots (VDB.newBooking id u loc date ts now)
        = slot_startHour ts ->
        VDB.cancelInMyAssignments parseDateStr setHours locationSlots
          (VDB.newBooking id u loc date ts now) now' all'
        = (VDB.Cancelled, all)).
Proof.
  intros parseDateStr setHours u loc date ts id now now' locationSlots all all'
         Hfresh Hbook Hlate.
  apply confirm_booked_inv in Hbook as [-> Hnone].
  assert (Hrm : VDB.removeBookingById id
                  (VDB.addBooking (VDB.newBooking id u loc date ts now) all) = all).
  { change id with (b_id (VDB.newBooking id u loc date ts now)) at 1.
    rewrite removeById_added. now apply removeById_fresh. }
  assert (Hcmp : VDB.tooLate
                   (VDB.slotStartDateTime parseDateStr setHours date (slot_startHour ts))
                   now' = false).
  { destruct (VDB.slotStartDateTime _ _ _ _) as [start|]; [|reflexivity].
    cbn [VDB.tooLate]. apply Z.ltb_ge. lia. }
  split.
  - unfold VDB.cancelInLocationModal.
    unfold VDB.addBooking at 1.
    rewrite find_app_none by (now apply existsb_false_find).
    cbn [List.find]. rewrite sameUserSlot_newBooking, Hcmp.
    cbn [VDB.newBooking b_id]. now rewrite Hrm.
  - intros Hstart. unfold VDB.cancelInMyAssignments. rewrite Hstart.
    cbn [VDB.newBooking b_date b_id]. now rewrite Hcmp, Hrm.
Qed.

Lemma book_then_cancel_restores_witness :
  VDB.cancelInLocationModal Demo.midnight0 Demo.setHoursPlain Demo.volunteerUser
    Demo.pritilExit "2025-01-10" Demo.slot_2_4pm (Demo.atClock 13 25)
    [VDB.newBooking "bk-1" Demo.volunteerUser Demo.pritilExit "2025-01-10"
                    Demo.slot_2_4pm 0]
  = (VDB.Cancelled, []).
Proof.
  apply (proj1 (book_then_cancel_restores Demo.midnight0 Demo.setHoursPlain
                  Demo.volunteerUser
                  Demo.pritilExit "2025-01-10" Demo.slot_2_4pm "bk-1" 0
                  (Demo.atClock 13 25) [Demo.slot_2_4pm] [] _
                  ltac:(intros b []) eq_refl ltac:(vm_compute; discriminate))).
Defined.

(** X13.  "My Assignments" gives a cancel button to the upcoming
    reservations only.  For a reservation whose slot start is a date
    nothing is lost by that: if it was in the past list when the view
    was drawn, the cancellation is refused as too late at any later
    moment, and a cancellation that goes through is of a reservation
    that was upcoming; an upcoming reservation that starts in less
    than thirty minutes has the button and is refused.  A reservation
    whose slot start is an Invalid Date is listed as past, although
    its handler would cancel it. *)
Theorem past_assignments_cannot_be_cancelled :
  forall (parseDateStr : string -> option Z) (setHours : Z -> Z -> option Z)
         (locationSlots : list Slot) (b : Booking)
         (drawnAt clickedAt : Z) (all : list Booking),
    drawnAt <= clickedAt ->
    (forall start,
        VDB.slotStartDateTime parseDateStr setHours (b_date b)
          (VDB.assignmentStartHour locationSlots b) = Some start ->
        (VDB.bucketOf parseDateStr setHours locationSlots b drawnAt = VDB.Past ->
         VDB.cancelInMyAssignments parseDateStr setHours locationSlots b clickedAt all
         = (VDB.TooLateToCancel, all))
        /\ (fst (VDB.cancelInMyAssignments parseDateStr setHours locationSlots b
                   clickedAt all)
            = VDB.Cancelled ->
            VDB.bucketOf parseDateStr setHours locationSlots b drawnAt = VDB.Upcoming)
        /\ (clickedAt <= start < clickedAt + VDB.CANCEL_NOTICE_MS ->
            VDB.bucketOf parseDateStr setHours locationSlots b clickedAt = VDB.Upcoming
            /\ VDB.cancelInMyAssignments parseDateStr setHours locationSlots b
                 clickedAt all
               = (VDB.TooLateToCancel, all)))
    /\ (VDB.slotStartDateTime parseDateStr setHours (b_date b)
          (VDB.assignmentStartHour locationSlots b) = None ->
        VDB.bucketOf parseDateStr setHours locationSlots b drawnAt = VDB.Past
        /\ VDB.cancelInMyAssignments parseDateStr setHours locationSlots b clickedAt all
           = (VDB.Cancelled, VDB.removeBookingById (b_id b) all)).
Proof.
  intros parseDateStr setHours locationSlots b drawnAt clickedAt all Hle.
  unfold VDB.bucketOf, VDB.cancelInMyAssignments.
  assert (Hpos : 0 < VDB.CANCEL_NOTICE_MS) by reflexivity.
  split.
  - intros start Hstart. rewrite Hstart. cbn [VDB.tooLate].
    rewrite !Z.geb_leb.
    destruct (Z.leb_spec drawnAt start), (Z.leb_spec clickedAt start),
             (Z.ltb_spec (start - clickedAt) VDB.CANCEL_NOTICE_MS);
      cbn [fst]; repeat split; intros; try congruence; try lia.
  - intros Hstart. rewrite Hstart. split; reflexivity.
Qed.

Lemma past_assignments_cannot_be_cancelled_witness :
  VDB.cancelInMyAssignments Demo.midnight0 Demo.setHoursPlain [Demo.slot_2_4pm]
    (VDB.newBooking "bk-1" Demo.volunteerUser Demo.pritilExit "2025-01-10"
                    Demo.slot_2_4pm 0) (Demo.atClock 16 0) []
  = (VDB.TooLateToCancel, []).
Proof.
  apply (proj1 (proj1 (past_assignments_cannot_be_cancelled Demo.midnight0
                  Demo.setHoursPlain [Demo.slot_2_4pm]
                  (VDB.newBooking "bk-1" Demo.volunteerUser Demo.pritilExit "2025-01-10"
                                  Demo.slot_2_4pm 0)
                  (Demo.atClock 15 0) (Demo.atClock 16 0) []
                  ltac:(vm_compute; discriminate))
                  (14 * VDB.HOUR_MS) eq_refl)).
  reflexivity.
Defined.

Lemma allChars_append (p : ascii -> bool) (a b : string) :
  allChars p (String.append a b) = (allChars p a && allChars p b)%bool.
Proof.
  induction a as [|c a IH]; simpl; trivial.
  rewrite IH. apply Bool.andb_assoc.
Qed.

(** Replacing [c] by [rep] yields a string of characters satisfying
    [p] when [rep] is one and the other characters of the input are. *)
Lemma replaceChar_allChars (p q : ascii -> bool) (c : ascii) (rep s : string) :
  allChars p rep = true ->
  (forall x, Ascii.eqb x c = false -> q x = true -> p x = true) ->
  allChars q s = true ->
  allChars p (VDB.replaceChar c rep s) = true.
Proof.
  intros Hrep Hpq. induction s as [|x r IH]; cbn [VDB.replaceChar allChars]; trivial.
  intros H. apply andb_prop in H as [Hx Hr].
  destruct (Ascii.eqb x c) eqn:E.
  - rewrite allChars_append, Hrep. now apply IH.
  - cbn [allChars]. rewrite (Hpq x E Hx). now apply IH.
Qed.

Lemma replaceChar_absent (c : ascii) (rep s : string) :
  noneOf (fun x => Ascii.eqb x c) s = true -> VDB.replaceChar c rep s = s.
Proof.
  unfold noneOf. induction s as [|x r IH]; cbn [VDB.replaceChar allChars]; trivial.
  intros H. apply andb_prop in H as [Hx Hr].
  apply Bool.negb_true_iff in Hx. rewrite Hx. now rewrite IH.
Qed.

Lemma allChars_impl (p q : ascii -> bool) (s : string) :
  (forall x, p x = true -> q x = true) -> allChars p s = true -> allChars q s = true.
Proof.
  intros Hpq. induction s as [|x r IH]; cbn [allChars]; trivial.
  intros H. apply andb_prop in H as [Hx Hr]. now rewrite (Hpq x Hx), IH.
Qed.

Lemma allChars_true (s : string) : allChars (fun _ => true) s = true.
Proof. induction s as [|x r IH]; cbn [allChars]; trivial. Qed.

(** X21.  The text [escapeHtml] returns holds neither [<] nor [>],
    whatever the input; a text without [&], [<] and [>] is returned as
    it is, so quotation marks are never escaped. *)
Theorem escapeHtml_output :
  forall s : string,
    noneOf isLt (VDB.escapeHtml s) = true
    /\ noneOf isGt (VDB.escapeHtml s) = true
    /\ (noneOf htmlSpecial s = true -> VDB.escapeHtml s = s).
Proof.
  intros s. unfold VDB.escapeHtml, noneOf. split; [|split].
  - apply replaceChar_allChars with (q := fun c => negb (isLt c)); [reflexivity| |].
    + intros x _ H. exact H.
    + apply replaceChar_allChars with (q := fun _ => true); [reflexivity| |].
      * intros x E _. unfold isLt. now rewrite E.
      * apply allChars_true.
  - apply replaceChar_allChars with (q := fun _ => true); [reflexivity| |].
    + intros x E _. unfold isGt. now rewrite E.
    + apply allChars_true.
  - intros H.
    assert (Ha : noneOf (fun x => Ascii.eqb x "&") s = true).
    { unfold noneOf. revert H. apply allChars_impl. intros x.
      unfold htmlSpecial, isAmp. now destruct (Ascii.eqb x "&"). }
    assert (Hl : noneOf (fun x => Ascii.eqb x "<") s = true).
    { unfold noneOf. revert H. apply allChars_impl. intros x.
      unfold htmlSpecial, isLt. destruct (Ascii.eqb x "<"); trivial.
      now rewrite Bool.orb_true_r. }
    assert (Hg : noneOf (fun x => Ascii.eqb x ">") s = true).
    { unfold noneOf. revert H. apply allChars_impl. intros x.
      unfold htmlSpecial, isGt. destruct (Ascii.eqb x ">"); trivial.
      now rewrite Bool.orb_true_r. }
    now rewrite (replaceChar_absent _ _ _ Ha), (replaceChar_absent _ _ _ Hl),
      (replaceChar_absent _ _ _ Hg).
Qed.

Lemma escapeHtml_output_witness :
  VDB.escapeHtml (String (ascii_of_nat 34) "6-8am") = String (ascii_of_nat 34) "6-8am".
Proof.
  apply (proj2 (proj2 (escapeHtml_output (String (ascii_of_nat 34) "6-8am")))).
  reflexivity.
Defined.

(** X22.  "My Assignments" compares user names without regard to case,
    the duplicate test of the booking flows compares them as they are.
    Every stored booking the duplicate test matches for a non-empty
    user name is one "My Assignments" lists for that name; a booking
    stored under another spelling of the same name is listed as well,
    yet the duplicate test does not see it. *)
Theorem my_assignments_ignore_case :
  forall (name name' l d s : string) (b : Booking),
    b_username b = Some name ->
    name <> "" ->
    JS.toLowerCase name' = JS.toLowerCase name ->
    VDB.isBookingOfUser name' b = true
    /\ (VDB.sameUserSlot name' l d s b = true -> name' = name)
    /\ (name' <> name -> VDB.sameUserSlot name' l d s b = false)
    /\ (forall all, In b all -> In b (VDB.getUserBookings name' all))
    /\ (forall all,
          name' <> name ->
          (forall x, In x all -> b_username x = Some name) ->
          VDB.userHasBookingForSlot name' l d s all = false).
Proof.
  intros name name' l d s b Hb Hne Hlow.
  assert (Hlisted : VDB.isBookingOfUser name' b = true).
  { unfold VDB.isBookingOfUser. rewrite Hb, orStr_some_empty, Hlow, String.eqb_refl.
    cbn [JS.truthy]. apply String.eqb_neq in Hne. now rewrite Hne. }
  assert (Hsame : forall x, b_username x = Some name -> name' <> name ->
                            VDB.sameUserSlot name' l d s x = false).
  { intros x Hx Hdiff. unfold VDB.sameUserSlot. rewrite Hx. cbn [JS.eqStr].
    assert (E : String.eqb name name' = false) by (apply String.eqb_neq; congruence).
    now rewrite E. }
  split; [exact Hlisted|]. split; [|split; [|split]].
  - intros Hmatch. destruct (string_dec name' name) as [|Hdiff]; trivial.
    rewrite (Hsame b Hb Hdiff) in Hmatch. discriminate.
  - apply Hsame, Hb.
  - intros all Hin. unfold VDB.getUserBookings. apply List.filter_In. now split.
  - intros all Hdiff Hall. unfold VDB.userHasBookingForSlot.
    induction all as [|x all IH]; cbn [existsb]; trivial.
    rewrite (Hsame x (Hall x (or_introl eq_refl)) Hdiff). cbn [orb].
    apply IH. intros y Hy. apply Hall. now right.
Qed.

Lemma my_assignments_ignore_case_witness :
  VDB.isBookingOfUser "Volunteer"
    (VDB.newBooking "bk-1" Demo.volunteerUser Demo.pritilExit "2025-01-10"
                    Demo.slot_6_8am 1) = true
  /\ VDB.userHasBookingForSlot "Volunteer" "pritil-exit" "2025-01-10" "6-8am"
       [VDB.newBooking "bk-1" Demo.volunteerUser Demo.pritilExit "2025-01-10"
                       Demo.slot_6_8am 1] = false.
Proof.
  pose proof (my_assignments_ignore_case "volunteer" "Volunteer"
                "pritil-exit" "2025-01-10" "6-8am"
                (VDB.newBooking "bk-1" Demo.volunteerUser Demo.pritilExit "2025-01-10"
                                Demo.slot_6_8am 1)
                eq_refl ltac:(discriminate) eq_refl) as H.
  split; [apply H|].
  apply H; [discriminate|]. intros x [<-|[]]. reflexivity.
Defined.

(** ** Attendance (admin-reports.js, elder-dashboard.js) *)

(** A booking falls under exactly one of the four counters or has a
    status none of them knows. *)
Lemma status_class (b : Booking) :
  ((if AdminReports.isCheckedIn b then 1 else 0)
   + (if AdminReports.isNoShow b then 1 else 0)
   + (if AdminReports.isCancelled b then 1 else 0)
   + (if AdminReports.isAssigned b then 1 else 0)
   + (if statusKnown b then 0 else 1) = 1)%nat.
Proof.
  unfold statusKnown, AdminReports.isCheckedIn, AdminReports.isNoShow,
    AdminReports.isCancelled, AdminReports.isAssigned, JS.eqStr, JS.truthy.
  destruct (b_status b) as [st|]; [|reflexivity].
  destruct (String.eqb_spec st "checked-in") as [->|_]; [reflexivity|].
  destruct (String.eqb_spec st "no-show") as [->|_]; [reflexivity|].
  destruct (String.eqb_spec st "cancelled") as [->|_]; [reflexivity|].
  destruct (String.eqb_spec st "assigned") as [->|_]; [reflexivity|].
  destruct (String.eqb_spec st "") as [->|_]; reflexivity.
Qed.

(** X14.  The four attendance counters of a report never count a
    booking twice: the total is their sum plus the number of bookings
    whose status is none of "assigned", "checked-in", "no-show",
    "cancelled" and is not missing.  The "pending" counter of the elder
    dashboard is the "assigned" counter of the admin report. *)
Theorem attendance_counters_partition :
  forall bookings : list Booking,
    (AdminReports.totalAssignments (AdminReports.attendanceStats bookings)
     = AdminReports.checkedIn (AdminReports.attendanceStats bookings)
       + AdminReports.noShows (AdminReports.attendanceStats bookings)
       + AdminReports.cancelled (AdminReports.attendanceStats bookings)
       + AdminReports.assigned (AdminReports.attendanceStats bookings)
       + length (List.filter (fun b => negb (statusKnown b)) bookings))%nat
    /\ ElderDashboard.pending bookings
       = AdminReports.assigned (AdminReports.attendanceStats bookings).
Proof.
  intros bookings. split; [|reflexivity].
  unfold AdminReports.attendanceStats.
  cbn [AdminReports.totalAssignments AdminReports.checkedIn AdminReports.noShows
       AdminReports.cancelled AdminReports.assigned].
  induction bookings as [|b l IH]; [reflexivity|].
  cbn [List.filter length]. pose proof (status_class b) as Hb.
  destruct (AdminReports.isCheckedIn b), (AdminReports.isNoShow b),
    (AdminReports.isCancelled b), (AdminReports.isAssigned b), (statusKnown b);
    cbn [negb length]; lia.
Qed.

(** X18.  The badge a status is drawn with agrees with the counter the
    booking is counted under: "Assigned" for a missing, empty or
    "assigned" status, "Checked-in", "No-show" and "Cancelled" for
    theirs, and the status text itself exactly when no counter knows
    it.  The elder dashboard chooses the same badge for every status. *)
Theorem status_badge_matches_counters :
  forall b : Booking,
    (AdminReports.renderStatusBadge (b_status b) = AdminReports.BadgeAssigned
     <-> AdminReports.isAssigned b = true)
    /\ (AdminReports.renderStatusBadge (b_status b) = AdminReports.BadgeCheckedIn
        <-> AdminReports.isCheckedIn b = true)
    /\ (AdminReports.renderStatusBadge (b_status b) = AdminReports.BadgeNoShow
        <-> AdminReports.isNoShow b = true)
    /\ (AdminReports.renderStatusBadge (b_status b) = AdminReports.BadgeCancelled
        <-> AdminReports.isCancelled b = true)
    /\ ((exists text, AdminReports.renderStatusBadge (b_status b)
                      = AdminReports.BadgeText text)
        <-> statusKnown b = false)
    /\ ElderDashboard.renderStatusReadOnly (b_status b)
       = AdminReports.renderStatusBadge (b_status b).
Proof.
  intros b.
  unfold statusKnown, AdminReports.renderStatusBadge, AdminReports.isCheckedIn,
    AdminReports.isNoShow, AdminReports.isCancelled, AdminReports.isAssigned,
    ElderDashboard.renderStatusReadOnly, JS.eqStr, JS.truthy.
  destruct (b_status b) as [st|].
  - destruct (String.eqb_spec st "checked-in") as [->|_];
      [cbn; repeat split; try congruence; try (intros [t Ht]; congruence)|].
    destruct (String.eqb_spec st "no-show") as [->|_];
      [cbn; repeat split; try congruence; try (intros [t Ht]; congruence)|].
    destruct (String.eqb_spec st "cancelled") as [->|_];
      [cbn; repeat split; try congruence; try (intros [t Ht]; congruence)|].
    destruct (String.eqb_spec st "assigned") as [->|_];
      [cbn; repeat split; try congruence; try (intros [t Ht]; congruence)|].
    destruct (String.eqb_spec st "") as [->|_];
      cbn; repeat split; try congruence; try (intros [t Ht]; congruence).
    intros _. eexists. reflexivity.
  - cbn. repeat split; try congruence. intros [t Ht]. congruence.
Qed.

Lemma status_badge_matches_counters_witness :
  AdminReports.renderStatusBadge (b_status Demo.mariaNoShow) = AdminReports.BadgeNoShow.
Proof.
  apply (proj2 (proj1 (proj2 (proj2 (status_badge_matches_counters Demo.mariaNoShow))))).
  reflexivity.
Defined.

Lemma replaceFirst_spec (bk : Booking) (all : list Booking) :
  match AdminReports.replaceFirst bk all with
  | Some all' =>
      exists pre old post,
        all = pre ++ old :: post /\ all' = pre ++ bk :: post
        /\ b_id old = b_id bk
        /\ (forall x, In x pre -> b_id x <> b_id bk)
  | None => forall x, In x all -> b_id x <> b_id bk
  end.
Proof.
  induction all as [|a all IH]; cbn [AdminReports.replaceFirst].
  - intros x [].
  - destruct (String.eqb_spec (b_id a) (b_id bk)) as [E|E].
    + exists [], a, all. repeat split; trivial. intros x [].
    + destruct (AdminReports.replaceFirst bk all) as [r'|].
      * destruct IH as (pre & old & post & -> & -> & Hid & Hpre).
        exists (a :: pre), old, post. repeat split; trivial.
        intros x [<-|Hx]; [exact E|now apply Hpre].
      * intros x [<-|Hx]; [exact E|now apply IH].
Qed.

Lemma replaceFirst_absent (bk : Booking) (all : list Booking) :
  (forall x, In x all -> b_id x <> b_id bk) -> AdminReports.replaceFirst bk all = None.
Proof.
  intros H. pose proof (replaceFirst_spec bk all) as Hs.
  destruct (AdminReports.replaceFirst bk all) as [r|]; trivial.
  destruct Hs as (pre & old & post & -> & _ & Hid & _).
  exfalso. apply (H old); trivial. apply in_elt.
Qed.

Lemma replaceFirst_first (bk : Booking) (pre post : list Booking) (old : Booking) :
  b_id old = b_id bk ->
  (forall x, In x pre -> b_id x <> b_id bk) ->
  AdminReports.replaceFirst bk (pre ++ old :: post) = Some (pre ++ bk :: post).
Proof.
  intros Hid. induction pre as [|a pre IH]; intros Hpre;
    cbn [app AdminReports.replaceFirst].
  - rewrite Hid, String.eqb_refl. reflexivity.
  - assert (E : String.eqb (b_id a) (b_id bk) = false)
      by (apply String.eqb_neq, Hpre; now left).
    rewrite E, IH; trivial. intros x Hx. apply Hpre. now right.
Qed.

(** X15.  [saveBookingUpdate] overwrites the first stored record that
    has the booking's id, in its place, and touches no other record;
    when no stored record has the id, it appends the booking.  Either
    way the booking is stored afterwards, and saving it a second time
    changes nothing. *)
Theorem saveBookingUpdate_effect :
  forall (bk : Booking) (all : list Booking),
    ((exists x, In x all /\ b_id x = b_id bk) ->
     exists pre old post,
       all = pre ++ old :: post
       /\ b_id old = b_id bk
       /\ (forall x, In x pre -> b_id x <> b_id bk)
       /\ AdminReports.saveBookingUpdate bk all = pre ++ bk :: post)
    /\ ((forall x, In x all -> b_id x <> b_id bk) ->
        AdminReports.saveBookingUpdate bk all = all ++ [bk])
    /\ In bk (AdminReports.saveBookingUpdate bk all)
    /\ (forall x, b_id x <> b_id bk ->
                  (In x (AdminReports.saveBookingUpdate bk all) <-> In x all))
    /\ AdminReports.saveBookingUpdate bk (AdminReports.saveBookingUpdate bk all)
       = AdminReports.saveBookingUpdate bk all.
Proof.
  intros bk all.
  pose proof (replaceFirst_spec bk all) as Hs.
  destruct (AdminReports.replaceFirst bk all) as [r|] eqn:Er.
  - destruct Hs as (pre & old & post & Hall & -> & Hid & Hpre).
    assert (Hsave : AdminReports.saveBookingUpdate bk all = pre ++ bk :: post)
      by (unfold AdminReports.saveBookingUpdate; now rewrite Er).
    rewrite Hsave. split; [|split; [|split; [|split]]].
    + intros _. exists pre, old, post. now repeat split.
    + intros Habs. exfalso. apply (Habs old); trivial. rewrite Hall. apply in_elt.
    + apply in_elt.
    + intros x Hx. rewrite Hall, !in_app_iff. cbn [In].
      split; (intros [H|[H|H]]; [now left| |now right; right]); subst; congruence.
    + unfold AdminReports.saveBookingUpdate.
      now rewrite (replaceFirst_first bk pre post bk eq_refl Hpre).
  - assert (Hsave : AdminReports.saveBookingUpdate bk all = all ++ [bk])
      by (unfold AdminReports.saveBookingUpdate; now rewrite Er).
    rewrite Hsave. split; [|split; [|split; [|split]]].
    + intros (x & Hx & Hid). exfalso. now apply (Hs x).
    + reflexivity.
    + apply in_or_app. right. now left.
    + intros x Hx. rewrite in_app_iff. cbn [In].
      split; [intros [H|[H|[]]]; trivial; subst; congruence|now left].
    + unfold AdminReports.saveBookingUpdate.
      now rewrite (replaceFirst_first bk all [] bk eq_refl Hs).
Qed.

Lemma saveBookingUpdate_effect_witness :
  AdminReports.saveBookingUpdate Demo.mariaNoShow [Demo.joseAtExit]
  = [Demo.joseAtExit] ++ [Demo.mariaNoShow].
Proof.
  apply (proj1 (proj2 (saveBookingUpdate_effect Demo.mariaNoShow [Demo.joseAtExit]))).
  intros x [<-|[]]. discriminate.
Defined.

Lemma countAt_app (l d s : string) (xs ys : list Booking) :
  Engine.countAt l d s (xs ++ ys) = Engine.countAt l d s xs + Engine.countAt l d s ys.
Proof.
  unfold Engine.countAt, VDB.getBookingsFor.
  now rewrite List.filter_app, length_app, Nat2Z.inj_add.
Qed.

Lemma countAt_cons_cell (l d s : string) (x y : Booking) (xs : list Booking) :
  cellOf x = cellOf y ->
  Engine.countAt l d s (x :: xs) = Engine.countAt l d s (y :: xs).
Proof.
  unfold cellOf. intros H. injection H as Hl Hd Hs.
  unfold Engine.countAt, VDB.getBookingsFor. cbn [List.filter].
  rewrite Hl, Hd, Hs. now destruct (_ && _)%bool.
Qed.

(** X16.  "Check in" and "No-show" on a report row whose booking is
    still stored, under its id and with its location, date and slot,
    change the number of bookings of no cell.  On a row whose id no
    stored record carries any more they append the booking, so that
    the number of its cell rises by one. *)
Theorem attendance_marks_and_cell_counts :
  forall (bk : Booking) (now : Z) (all : list Booking),
    ((exists x, In x all /\ b_id x = b_id bk) ->
     (forall x, In x all -> b_id x = b_id bk -> cellOf x = cellOf bk) ->
     forall l d s,
       Engine.countAt l d s (AdminReports.checkIn bk now all) = Engine.countAt l d s all
       /\ Engine.countAt l d s (AdminReports.markNoShow bk all) = Engine.countAt l d s all)
    /\ ((forall x, In x all -> b_id x <> b_id bk) ->
        AdminReports.checkIn bk now all
        = all ++ [withStatus bk (Some "checked-in") (Some now)]
        /\ AdminReports.markNoShow bk all
           = all ++ [withStatus bk (Some "no-show") (b_checkedInAt bk)]
        /\ (forall s,
              b_slotId bk = Some s ->
              Engine.countAt (b_locationId bk) (b_date bk) s
                             (AdminReports.checkIn bk now all)
              = Engine.countAt (b_locationId bk) (b_date bk) s all + 1)).
Proof.
  intros bk now all. split.
  - intros Hex Hcell l d s.
    assert (Hgen : forall bk', b_id bk' = b_id bk -> cellOf bk' = cellOf bk ->
                     Engine.countAt l d s (AdminReports.saveBookingUpdate bk' all)
                     = Engine.countAt l d s all).
    { intros bk' Hid Hc. unfold AdminReports.saveBookingUpdate.
      pose proof (replaceFirst_spec bk' all) as Hs.
      destruct (AdminReports.replaceFirst bk' all) as [r|].
      - destruct Hs as (pre & old & post & Hall & -> & Hold & _).
        rewrite Hall, !countAt_app. f_equal. apply countAt_cons_cell.
        rewrite Hc. symmetry. apply Hcell; [|congruence].
        rewrite Hall. apply in_elt.
      - destruct Hex as (x & Hx & Hxid). exfalso. apply (Hs x Hx). congruence. }
    split; apply Hgen; reflexivity.
  - intros Habs.
    unfold AdminReports.checkIn, AdminReports.markNoShow, AdminReports.saveBookingUpdate.
    rewrite (replaceFirst_absent (withStatus bk (Some "checked-in") (Some now)) all Habs).
    rewrite (replaceFirst_absent (withStatus bk (Some "no-show") (b_checkedInAt bk))
               all Habs).
    split; [reflexivity|]. split; [reflexivity|].
    intros s Hs. rewrite countAt_app. f_equal.
    unfold Engine.countAt, VDB.getBookingsFor. cbn [List.filter withStatus b_locationId
      b_date b_slotId].
    rewrite Hs. cbn [JS.eqStr]. now rewrite !String.eqb_refl.
Qed.

Lemma attendance_marks_and_cell_counts_witness :
  Engine.countAt "taytay-market" "2025-01-10" "6-8am"
    (AdminReports.checkIn (Demo.demoBooking "2025-01-10") 5 [Demo.demoBooking "2025-01-10"])
  = Engine.countAt "taytay-market" "2025-01-10" "6-8am" [Demo.demoBooking "2025-01-10"].
Proof.
  apply (proj1 (attendance_marks_and_cell_counts (Demo.demoBooking "2025-01-10") 5
                  [Demo.demoBooking "2025-01-10"])).
  - exists (Demo.demoBooking "2025-01-10"). split; [now left|reflexivity].
  - intros x [<-|[]] _. reflexivity.
Defined.

Lemma totalHours_from (getSlots : string -> list Slot) (l : list Booking) (a : Z) :
  fold_left (fun acc b => acc + AdminReports.durationHoursFromBooking getSlots b) l a
  = a + AdminReports.totalHours getSlots l.
Proof.
  unfold AdminReports.totalHours. revert a.
  induction l as [|b l IH]; intros a; cbn [fold_left]; [lia|].
  rewrite IH, (IH (0 + _)). lia.
Qed.

Lemma duration_nonneg (getSlots : string -> list Slot) (b : Booking) :
  0 <= AdminReports.durationHoursFromBooking getSlots b.
Proof.
  unfold AdminReports.durationHoursFromBooking.
  destruct (Z.ltb_spec (snd (AdminReports.slotHoursFromBooking getSlots b)
                        - fst (AdminReports.slotHoursFromBooking getSlots b)) 0); lia.
Qed.

(** X17.  While the schedules module is loaded, the elder dashboard's
    copy of the hour heuristic gives the hours the admin report gives,
    for every booking, and so do the two durations, which are written
    differently: each is the end hour less the start hour, or 0 when
    that is negative.  Without the schedules module the elder
    dashboard looks no slot up, where the admin report reads the
    stored slot lists: the elder dashboard then gives what the admin
    report gives over an empty catalog. *)
Theorem durations_agree :
  forall (adminSchedules : option (string -> list Slot))
         (stored : option (gmap string (list Slot))) (b : Booking),
    (forall catalog,
        adminSchedules = Some catalog ->
        ElderDashboard.slotHoursFromBooking adminSchedules b
        = AdminReports.slotHoursFromBooking
            (AdminReports.getSlotsForLocation adminSchedules stored) b
        /\ ElderDashboard.durationHoursFromBooking adminSchedules b
           = AdminReports.durationHoursFromBooking
               (AdminReports.getSlotsForLocation adminSchedules stored) b)
    /\ (adminSchedules = None ->
        ElderDashboard.slotHoursFromBooking adminSchedules b
        = AdminReports.slotHoursFromBooking (fun _ => []) b
        /\ (AdminReports.getSlotsForLocation adminSchedules stored (b_locationId b) = [] ->
            ElderDashboard.slotHoursFromBooking adminSchedules b
            = AdminReports.slotHoursFromBooking
                (AdminReports.getSlotsForLocation adminSchedules stored) b))
    /\ ElderDashboard.durationHoursFromBooking adminSchedules b
       = Z.max 0 (snd (ElderDashboard.slotHoursFromBooking adminSchedules b)
                  - fst (ElderDashboard.slotHoursFromBooking adminSchedules b))
    /\ (forall getSlots,
          AdminReports.durationHoursFromBooking getSlots b
          = Z.max 0 (snd (AdminReports.slotHoursFromBooking getSlots b)
                     - fst (AdminReports.slotHoursFromBooking getSlots b))
          /\ 0 <= AdminReports.durationHoursFromBooking getSlots b).
Proof.
  intros adminSchedules stored b.
  assert (Hmax : forall dur, (if dur >? 0 then dur else 0) = Z.max 0 dur).
  { intros dur. rewrite Z.gtb_ltb. destruct (Z.ltb_spec 0 dur); lia. }
  assert (Hmax' : forall dur, (if dur <? 0 then 0 else dur) = Z.max 0 dur).
  { intros dur. destruct (Z.ltb_spec dur 0); lia. }
  split; [|split; [|split; [|split]]].
  - intros catalog ->.
    assert (Hh : ElderDashboard.slotHoursFromBooking (Some catalog) b
                 = AdminReports.slotHoursFromBooking
                     (AdminReports.getSlotsForLocation (Some catalog) stored) b)
      by reflexivity.
    split; [exact Hh|].
    unfold ElderDashboard.durationHoursFromBooking,
      AdminReports.durationHoursFromBooking.
    rewrite Hh. now rewrite Hmax, Hmax'.
  - intros ->. split; [reflexivity|].
    intros Hempty.
    unfold ElderDashboard.slotHoursFromBooking, AdminReports.slotHoursFromBooking.
    now rewrite Hempty.
  - apply Hmax.
  - apply Hmax'.
  - apply duration_nonneg.
Qed.

Lemma durations_agree_witness :
  ElderDashboard.slotHoursFromBooking (Some Demo.catalog1) Demo.legacyBooking
  = AdminReports.slotHoursFromBooking
      (AdminReports.getSlotsForLocation (Some Demo.catalog1) None) Demo.legacyBooking.
Proof.
  apply (proj1 (durations_agree (Some Demo.catalog1) None Demo.legacyBooking)
               Demo.catalog1 eq_refl).
Defined.

(** Without the schedules module the two disagree on a booking that
    carries no hours and whose slot is in the stored list of its
    location: the admin report takes the stored hours, the elder
    dashboard parses the label. *)
Lemma hours_differ_without_schedules :
  AdminReports.slotHoursFromBooking
    (AdminReports.getSlotsForLocation None
       (Some {[ "pritil-exit" := [mkSlot "6-8am" "6:00 AM - 8:00 AM" 10 12 1 4] ]}))
    (VDB.newBooking "bk-1" Demo.volunteerUser Demo.pritilExit "2025-01-10"
                    Demo.slot_6_8am 0)
  = (10, 12)
  /\ ElderDashboard.slotHoursFromBooking None
       (VDB.newBooking "bk-1" Demo.volunteerUser Demo.pritilExit "2025-01-10"
                       Demo.slot_6_8am 0)
     = (6, 8).
Proof. split; vm_compute; reflexivity. Qed.

(** X19.  The total of service hours of a report does not read the
    status: it is the same whatever the statuses of the bookings are
    changed to, so cancelled bookings and no-shows count like attended
    ones.  The total is never negative, and the total of two lists put
    together is the sum of their totals. *)
Theorem service_hours_ignore_status :
  forall (getSlots : string -> list Slot) (f : option string -> option string)
         (bookings more : list Booking),
    AdminReports.totalHours getSlots (List.map (restatus f) bookings)
    = AdminReports.totalHours getSlots bookings
    /\ 0 <= AdminReports.totalHours getSlots bookings
    /\ AdminReports.totalHours getSlots (bookings ++ more)
       = AdminReports.totalHours getSlots bookings
         + AdminReports.totalHours getSlots more.
Proof.
  intros getSlots f bookings more. split; [|split].
  - induction bookings as [|b l IH]; [reflexivity|].
    unfold AdminReports.totalHours in *. cbn [List.map fold_left].
    rewrite !totalHours_from. unfold AdminReports.totalHours. rewrite IH.
    reflexivity.
  - induction bookings as [|b l IH]; [reflexivity|].
    unfold AdminReports.totalHours in *. cbn [fold_left].
    rewrite totalHours_from. unfold AdminReports.totalHours.
    pose proof (duration_nonneg getSlots b). lia.
  - unfold AdminReports.totalHours. rewrite fold_left_app, totalHours_from.
    reflexivity.
Qed.

(** ** The assignment grid (admin-assignments.js) *)

Lemma eqOpt_refl (o : option string) : JS.eqOpt o o = true.
Proof. destruct o as [s|]; cbn [JS.eqOpt]; trivial. apply String.eqb_refl. Qed.

Lemma truthy_inv (o : option string) :
  JS.truthy o = true -> exists n, o = Some n /\ String.eqb n "" = false.
Proof.
  destruct o as [n|]; cbn [JS.truthy]; [|discriminate].
  intros H. exists n. split; trivial. now apply Bool.negb_true_iff.
Qed.

Lemma find_never {A : Type} (f : A -> bool) (l : list A) :
  (forall x, f x = false) -> List.find f l = None.
Proof.
  intros H. induction l as [|a l IH]; cbn [List.find]; trivial. now rewrite H.
Qed.

(** An assignment is among the bookings the conflict check collects
    for the identifier its own badge is drawn with. *)
Lemma isAssignmentOf_self (a : Booking) :
  JS.truthy (AdminAssignments.badgeIdentifier a) = true ->
  AdminAssignments.isAssignmentOf (AdminAssignments.badgeIdentifier a) (b_date a) a = true.
Proof.
  unfold AdminAssignments.isAssignmentOf, AdminAssignments.badgeIdentifier, JS.orOpt.
  rewrite String.eqb_refl. cbn [negb].
  destruct (JS.truthy (b_username a)) eqn:Eu.
  - intros _. rewrite Eu. cbn [negb andb]. now rewrite String.eqb_refl.
  - destruct (JS.truthy (b_displayName a)) eqn:Ed.
    + intros _. rewrite Ed. cbn [negb andb]. now rewrite String.eqb_refl.
    + intros Hv. rewrite Hv. cbn [negb andb]. now rewrite eqOpt_refl.
Qed.

(** X20.  The grid marks the badge of an assignment "Conflict" when
    the conflict check, run for the assignment's own name and the
    entry of [slotMap] for the column, finds an overlap.  That entry
    has the hours of the first slot with the column's id among the
    catalogs of all locations; the assignment itself is among the
    bookings the check looks at, with the hours of the slot of its own
    location.  So the badge is marked whenever those two hour ranges
    overlap, and a volunteer's only assignment of the day is marked
    exactly then: in particular whenever the first slot with the id is
    that of the assignment's own location and starts before it
    ends. *)
Theorem assignment_badge_conflicts_with_itself :
  forall (getSlots : string -> list Slot) (locations : list Location) (a : Booking)
         (slotId : string) (all : list Booking) (own first : Slot),
    In a all ->
    JS.truthy (AdminAssignments.badgeIdentifier a) = true ->
    List.find (fun s => JS.eqOpt (Some (slot_id s)) (b_slotId a))
              (getSlots (b_locationId a)) = Some own ->
    List.find (fun s => String.eqb (slot_id s) slotId)
              (flat_map (fun loc => getSlots (loc_id loc)) locations) = Some first ->
    (slot_startHour first < slot_endHour own /\ slot_startHour own < slot_endHour first ->
     AdminAssignments.badgeShowsConflict getSlots locations a (b_date a) slotId all = true)
    /\ (AdminAssignments.getAssignmentsForVolunteerOnDate
          (AdminAssignments.badgeIdentifier a) (b_date a) all = [a] ->
        (AdminAssignments.badgeShowsConflict getSlots locations a (b_date a) slotId all
         = true
         <-> slot_startHour first < slot_endHour own
             /\ slot_startHour own < slot_endHour first))
    /\ (first = own ->
        slot_startHour own < slot_endHour own ->
        AdminAssignments.badgeShowsConflict getSlots locations a (b_date a) slotId all
        = true).
Proof.
  intros getSlots locations a slotId all own first Hin Hid Hown Hfirst.
  assert (Hover : overlapsBooking getSlots (AdminAssignments.slotMapEntry first) a
                  = ((slot_startHour first <? slot_endHour own)
                     && (slot_startHour own <? slot_endHour first))%bool).
  { unfold overlapsBooking, AdminAssignments.slotObjOf. rewrite Hown. reflexivity. }
  assert (Hmark : slot_startHour first < slot_endHour own
                  /\ slot_startHour own < slot_endHour first ->
                  AdminAssignments.badgeShowsConflict getSlots locations a (b_date a)
                    slotId all = true).
  { intros [H1 H2].
    unfold AdminAssignments.badgeShowsConflict, AdminAssignments.slotMap.
    rewrite Hfirst. cbn [option_map]. unfold AdminAssignments.detectConflictFor.
    destruct (AdminAssignments.firstOverlap _ _ _) eqn:E; trivial.
    pose proof (proj1 (firstOverlap_none _ _ _) E) as Hnone. clear E.
    assert (Ha : In a (AdminAssignments.getAssignmentsForVolunteerOnDate
                         (AdminAssignments.badgeIdentifier a) (b_date a) all)).
    { apply List.filter_In. split; trivial. now apply isAssignmentOf_self. }
    specialize (Hnone a Ha). rewrite Hover in Hnone.
    apply Z.ltb_lt in H1, H2. rewrite H1, H2 in Hnone. discriminate. }
  split; [exact Hmark|]. split.
  - intros Hlone. split; [|exact Hmark].
    unfold AdminAssignments.badgeShowsConflict, AdminAssignments.slotMap.
    rewrite Hfirst. cbn [option_map]. unfold AdminAssignments.detectConflictFor.
    rewrite Hlone. cbn [AdminAssignments.firstOverlap].
    change (AdminAssignments.rangesOverlap _ _ _ _)
      with (overlapsBooking getSlots (AdminAssignments.slotMapEntry first) a).
    rewrite Hover.
    destruct (Z.ltb_spec (slot_startHour first) (slot_endHour own)),
             (Z.ltb_spec (slot_startHour own) (slot_endHour first));
      cbn [andb]; intros Hmarked; try discriminate; split; trivial.
  - intros -> Hlt. apply Hmark. now split.
Qed.

Lemma assignment_badge_conflicts_with_itself_witness :
  AdminAssignments.badgeShowsConflict Demo.catalog0 Demo.DEMO_LOCATIONS
    (Demo.demoBooking "2025-01-10")
    (b_date (Demo.demoBooking "2025-01-10")) "6-8am"
    [Demo.demoBooking "2025-01-10"] = true.
Proof.
  apply (proj2 (proj2 (assignment_badge_conflicts_with_itself Demo.catalog0
           Demo.DEMO_LOCATIONS (Demo.demoBooking "2025-01-10") "6-8am"
           [Demo.demoBooking "2025-01-10"] Demo.slot_6_8am Demo.slot_6_8am
           ltac:(now left) eq_refl eq_refl eq_refl))).
  - reflexivity.
  - reflexivity.
Defined.

(** After the 6-8am slot of the first location, Taytay Market, has
    been moved to 10-12 in the slot editor, the column "6-8am" of the
    grid carries those hours for every location: the only assignment
    of a volunteer, in the 6-8am slot of Pritil Exit, is not
    marked. *)
Lemma lone_badge_unmarked_after_edit :
  AdminAssignments.badgeShowsConflict Demo.catalog1 Demo.DEMO_LOCATIONS
    (VDB.newBooking "bk-1" Demo.volunteerUser Demo.pritilExit "2025-01-10"
                    Demo.slot_6_8am 1)
    "2025-01-10" "6-8am"
    [VDB.newBooking "bk-1" Demo.volunteerUser Demo.pritilExit "2025-01-10"
                    Demo.slot_6_8am 1]
  = false.
Proof. vm_compute. reflexivity. Qed.

(** The record [makeBooking] builds for a volunteer who has an id, a
    name or an e-mail address is one the conflict check collects for
    that volunteer. *)
Lemma makeBooking_recognized (id : string) (now : Z) (vol : Volunteer)
      (location : Location) (slotObj : SlotObj) (dateStr : string) :
  JS.truthy (v_id vol) = true \/ JS.truthy (v_name vol) = true
  \/ JS.truthy (v_email vol) = true ->
  AdminAssignments.isAssignmentOf (AdminAssignments.volIdentifierOf vol) dateStr
    (AdminAssignments.makeBooking id now vol location slotObj dateStr) = true.
Proof.
  intros H.
  unfold AdminAssignments.isAssignmentOf, AdminAssignments.volIdentifierOf,
    AdminAssignments.makeBooking, AdminAssignments.bookingUsername, JS.orOpt.
  cbn [b_date b_username b_displayName b_volunteerId].
  rewrite String.eqb_refl. cbn [negb].
  destruct (JS.truthy (v_id vol)) eqn:Ei.
  - rewrite Ei. cbn [negb]. rewrite eqOpt_refl. cbn [andb].
    repeat match goal with
           | |- (if ?c then true else _) = true => destruct c; trivial
           end.
  - destruct (JS.truthy (v_name vol)) eqn:En.
    + rewrite En. cbn [negb].
      destruct (truthy_inv _ En) as (n & Hn & Hne). rewrite Hn.
      cbn [JS.orStr JS.truthy]. rewrite !Hne. cbn [negb andb].
      rewrite String.eqb_refl.
      repeat match goal with
             | |- (if ?c then true else _) = true => destruct c; trivial
             end.
    + destruct H as [H|[H|H]]; try discriminate.
      rewrite H. cbn [negb].
      destruct (truthy_inv _ H) as (e & He & Hne). rewrite He.
      cbn [JS.orStr JS.truthy]. rewrite !Hne. cbn [negb andb].
      now rewrite String.eqb_refl.
Qed.

(** X23.  After the grid has assigned a volunteer who has an id, a
    name or an e-mail address to a slot, dropping the same volunteer,
    for the same date, on any cell whose slot overlaps the first one's
    hours opens the double-booking warning and stores nothing, the
    locations being the same or not. *)
Theorem second_overlapping_drop_warns :
  forall (getSlots : string -> list Slot) (vol : Volunteer) (loc loc' : Location)
         (column column' : Slot) (date id id' : string) (now now' : Z)
         (all : list Booking),
    JS.truthy (v_id vol) = true \/ JS.truthy (v_name vol) = true
    \/ JS.truthy (v_email vol) = true ->
    AdminAssignments.rangesOverlap (slot_startHour column') (slot_endHour column')
                                   (slot_startHour column) (slot_endHour column) = true ->
    exists c,
      AdminAssignments.assignFromGrid getSlots false id' now' vol loc' column' date
        (snd (AdminAssignments.assignFromGrid getSlots true id now vol loc column date all))
      = (AdminAssignments.DoubleBookingWarning c,
         snd (AdminAssignments.assignFromGrid getSlots true id now vol loc column date all)).
Proof.
  intros getSlots vol loc loc' column column' date id id' now now' all Hvol Hover.
  set (new := AdminAssignments.makeBooking id now vol loc
                (AdminAssignments.slotMapEntry column) date).
  assert (Hsnd : snd (AdminAssignments.assignFromGrid getSlots true id now vol loc
                        column date all)
                 = AdminAssignments.addAssignment new all).
  { unfold AdminAssignments.assignFromGrid, AdminAssignments.assignOnDrop.
    now destruct (AdminAssignments.detectConflictFor _ _ _ _ _). }
  rewrite Hsnd.
  unfold AdminAssignments.assignFromGrid at 1, AdminAssignments.assignOnDrop.
  destruct (AdminAssignments.detectConflictFor getSlots _ date
              (AdminAssignments.slotMapEntry column') _) as [|b s] eqn:E.
  - exfalso. unfold AdminAssignments.detectConflictFor in E.
    pose proof (proj1 (firstOverlap_none _ _ _) E) as Hnone. clear E.
    assert (Hin : In new (AdminAssignments.getAssignmentsForVolunteerOnDate
                            (AdminAssignments.volIdentifierOf vol) date
                            (AdminAssignments.addAssignment new all))).
    { apply List.filter_In. split.
      - unfold AdminAssignments.addAssignment. apply in_or_app. right. now left.
      - now apply makeBooking_recognized. }
    specialize (Hnone new Hin). revert Hnone.
    unfold overlapsBooking, AdminAssignments.slotObjOf.
    rewrite find_never by (intros x; reflexivity).
    cbn [AdminAssignments.slotRange AdminAssignments.slotMapEntry new
         AdminAssignments.makeBooking b_startHour b_endHour
         so_startHour so_endHour JS.numOr0 fst snd].
    rewrite Hover. discriminate.
  - exists (AdminAssignments.ConflictWith b s). reflexivity.
Qed.

Lemma second_overlapping_drop_warns_witness :
  exists c,
    AdminAssignments.assignFromGrid Demo.catalog0 false "bk-2" 2 Demo.maria
      Demo.taytayMarket (mkSlot "7-9am" "7:00 AM - 9:00 AM" 7 9 1 4) "2025-01-10"
      (snd (AdminAssignments.assignFromGrid Demo.catalog0 true "bk-1" 1 Demo.maria
              Demo.pritilExit Demo.slot_6_8am "2025-01-10" []))
    = (AdminAssignments.DoubleBookingWarning c,
       snd (AdminAssignments.assignFromGrid Demo.catalog0 true "bk-1" 1 Demo.maria
              Demo.pritilExit Demo.slot_6_8am "2025-01-10" [])).
Proof.
  apply (second_overlapping_drop_warns Demo.catalog0 Demo.maria Demo.pritilExit
           Demo.taytayMarket Demo.slot_6_8am (mkSlot "7-9am" "7:00 AM - 9:00 AM" 7 9 1 4)
           "2025-01-10" "bk-1" "bk-2" 1 2 []).
  - left. reflexivity.
  - reflexivity.
Defined.

(** X24.  The conflict check looks for a volunteer who has an id
    under that id.  A booking the volunteer dashboard made carries no
    volunteer id, so unless the id equals, case apart, the user name
    or the display name of the booking, the check does not collect
    it: with or without that booking the check gives the same answer. *)
Theorem self_service_booking_unseen_by_conflict_check :
  forall (getSlots : string -> list Slot) (vol : Volunteer) (u : User)
         (loc : Location) (date d : string) (ts : Slot) (id : string) (now : Z)
         (slotObj : SlotObj) (all : list Booking),
    JS.truthy (v_id vol) = true ->
    JS.toLowerCase (u_username u) <> JS.toLowerCase (JS.orStr (v_id vol) "") ->
    JS.toLowerCase (JS.orStr (u_displayName u) (u_username u))
    <> JS.toLowerCase (JS.orStr (v_id vol) "") ->
    AdminAssignments.getAssignmentsForVolunteerOnDate
      (AdminAssignments.volIdentifierOf vol) d
      (VDB.addBooking (VDB.newBooking id u loc date ts now) all)
    = AdminAssignments.getAssignmentsForVolunteerOnDate
        (AdminAssignments.volIdentifierOf vol) d all
    /\ AdminAssignments.detectConflictFor getSlots
         (AdminAssignments.volIdentifierOf vol) d slotObj
         (VDB.addBooking (VDB.newBooking id u loc date ts now) all)
       = AdminAssignments.detectConflictFor getSlots
           (AdminAssignments.volIdentifierOf vol) d slotObj all.
Proof.
  intros getSlots vol u loc date d ts id now slotObj all Hid Hname Hdisplay.
  assert (Hsame : AdminAssignments.getAssignmentsForVolunteerOnDate
                    (AdminAssignments.volIdentifierOf vol) d
                    (VDB.addBooking (VDB.newBooking id u loc date ts now) all)
                  = AdminAssignments.getAssignmentsForVolunteerOnDate
                      (AdminAssignments.volIdentifierOf vol) d all).
  { unfold AdminAssignments.getAssignmentsForVolunteerOnDate, VDB.addBooking.
    rewrite List.filter_app. cbn [List.filter].
    assert (Hno : AdminAssignments.isAssignmentOf (AdminAssignments.volIdentifierOf vol) d
                    (VDB.newBooking id u loc date ts now) = false).
    { unfold AdminAssignments.isAssignmentOf, AdminAssignments.volIdentifierOf, JS.orOpt.
      rewrite Hid.
      cbn [VDB.newBooking b_date b_username b_displayName b_volunteerId].
      destruct (negb (String.eqb date d)); trivial.
      rewrite Hid. cbn [negb]. rewrite !orStr_some_empty.
      apply String.eqb_neq in Hname, Hdisplay. rewrite Hname, Hdisplay.
      now rewrite !Bool.andb_false_r. }
    rewrite Hno. apply app_nil_r. }
  split; trivial.
  unfold AdminAssignments.detectConflictFor. now rewrite Hsame.
Qed.

Lemma self_service_booking_unseen_by_conflict_check_witness :
  AdminAssignments.detectConflictFor Demo.catalog0
    (AdminAssignments.volIdentifierOf Demo.maria) "2025-01-10"
    (AdminAssignments.slotMapEntry Demo.slot_6_8am)
    (VDB.addBooking (VDB.newBooking "bk-1" Demo.volunteerUser Demo.pritilExit
                                    "2025-01-10" Demo.slot_6_8am 1) [])
  = AdminAssignments.detectConflictFor Demo.catalog0
      (AdminAssignments.volIdentifierOf Demo.maria) "2025-01-10"
      (AdminAssignments.slotMapEntry Demo.slot_6_8am) [].
Proof.
  apply (proj2 (self_service_booking_unseen_by_conflict_check Demo.catalog0 Demo.maria
                  Demo.volunteerUser Demo.pritilExit "2025-01-10" "2025-01-10"
                  Demo.slot_6_8am "bk-1" 1
                  (AdminAssignments.slotMapEntry Demo.slot_6_8am) []
                  eq_refl ltac:(discriminate) ltac:(discriminate))).
Defined.

Lemma removeAssignment_fresh (id : string) (all : list Booking) :
  (forall b, In b all -> b_id b <> id) ->
  AdminAssignments.removeAssignmentById id all = all.
Proof. exact (removeById_fresh id all). Qed.

(** X25.  "Remove" on a badge of the grid undoes an assignment whose
    id no other stored record carries: the booking set is again what
    it was before the assignment.  Removing an id that is not stored
    changes nothing, and removing twice is removing once. *)
Theorem remove_undoes_assignment :
  forall (a : Booking) (all : list Booking),
    (forall b, In b all -> b_id b <> b_id a) ->
    AdminAssignments.removeAssignmentById (b_id a)
      (AdminAssignments.addAssignment a all) = all
    /\ AdminAssignments.removeAssignmentById (b_id a) all = all
    /\ (forall id every,
          AdminAssignments.removeAssignmentById id
            (AdminAssignments.removeAssignmentById id every)
          = AdminAssignments.removeAssignmentById id every).
Proof.
  intros a all Hfresh. split; [|split].
  - unfold AdminAssignments.removeAssignmentById, AdminAssignments.addAssignment.
    rewrite List.filter_app. cbn [List.filter]. rewrite String.eqb_refl. cbn [negb].
    rewrite app_nil_r. now apply removeAssignment_fresh.
  - now apply removeAssignment_fresh.
  - intros id every. apply removeAssignment_fresh.
    intros b Hb. apply List.filter_In in Hb as [_ Hb].
    apply Bool.negb_true_iff, String.eqb_neq in Hb. exact Hb.
Qed.

Lemma remove_undoes_assignment_witness :
  AdminAssignments.removeAssignmentById (b_id Demo.joseAtExit)
    (AdminAssignments.addAssignment Demo.joseAtExit [Demo.mariaAtExit])
  = [Demo.mariaAtExit].
Proof.
  apply (proj1 (remove_undoes_assignment Demo.joseAtExit [Demo.mariaAtExit]
                  ltac:(intros b [<-|[]]; discriminate))).
Defined.
